(** * strix-lite: the agent control loop ([strix/agents/base_agent.py])

    A shallow embedding of [BaseAgent]: its constructor, the bootstrap
    routine [_initialize_sandbox_and_state], one pass of the [while True]
    loop of [agent_loop], the single-iteration step [_process_iteration]
    and the tool dispatch [_execute_actions], together with the
    [AgentState] record they drive.

    Python objects are mutable and the code raises exceptions, so the
    controller is written in a small state-and-exception monad whose state
    also carries a log of every call made on a collaborator (the state
    record, the model backend, the tool dispatcher, the sandbox runtime,
    the tracer). *)

From Stdlib Require Import ZArith List Bool String Ascii Lia.
From Stdlib Require Import DecimalString.
From Stdlib Require DecimalZ DecimalPos.
Import ListNotations.

Local Open Scope string_scope.
Local Open Scope list_scope.
Local Open Scope Z_scope.

(* ================================================================== *)
(** ** Python values used by the controller *)

Module Py.

(** Truthiness of a [str]. *)
Definition truthy (s : string) : bool :=
  match s with EmptyString => false | String _ _ => true end.

(** Characters are code points below 256; [str.isspace] on that range. *)
Definition isspace (c : ascii) : bool :=
  let n := nat_of_ascii c in
  ((9 <=? n) && (n <=? 13) || (28 <=? n) && (n <=? 32)
   || (n =? 133) || (n =? 160))%nat.

Fixpoint lstrip_chars (l : list ascii) : list ascii :=
  match l with
  | [] => []
  | c :: r => if isspace c then lstrip_chars r else l
  end.

(** [str.strip()] with no argument. *)
Definition strip (s : string) : string :=
  string_of_list_ascii
    (rev (lstrip_chars (rev (lstrip_chars (list_ascii_of_string s))))).

(** The content is blank when every character is white space. *)
Definition whitespace_only (s : string) : bool :=
  forallb isspace (list_ascii_of_string s).

Definition lower_char (c : ascii) : ascii :=
  let n := nat_of_ascii c in
  if ((65 <=? n) && (n <=? 90))%nat then ascii_of_nat (n + 32) else c.

(** [str.lower()] (letters A-Z). *)
Fixpoint lower (s : string) : string :=
  match s with
  | EmptyString => EmptyString
  | String c r => String (lower_char c) (lower r)
  end.

(** [str(n)] / [f"{n}"] for an [int]. *)
Definition str_of_int (n : Z) : string :=
  NilZero.string_of_int (Z.to_int n).

(** The values stored in the result dictionaries. *)
Inductive value : Type :=
| VBool (b : bool)
| VStr (s : string).

(** A [dict[str, Any]], in insertion order. *)
Definition dict : Type := list (string * value).

Definition dict_truthy (d : dict) : bool :=
  match d with [] => false | _ :: _ => true end.

(** [x or {}] for an optional dictionary. *)
Definition or_empty (o : option dict) : dict :=
  match o with
  | Some d => if dict_truthy d then d else []
  | None => []
  end.

(** Exceptions the loop can see.  [str e] is the message. *)
Inductive exn : Type :=
| CancelledError
| LLMRequestFailedError (message : string) (details : option string)
| RuntimeError (message : string)
| ValueError (message : string)
| TypeError (message : string)
| OtherException (class_name message : string).

Definition str (e : exn) : string :=
  match e with
  | CancelledError => ""
  | LLMRequestFailedError m _ => m
  | RuntimeError m | ValueError m | TypeError m => m
  | OtherException _ m => m
  end.

(** [getattr(e, "details", None)] *)
Definition details (e : exn) : option string :=
  match e with
  | LLMRequestFailedError _ d => d
  | _ => None
  end.

Definition opt_truthy (o : option string) : bool :=
  match o with Some s => truthy s | None => false end.

End Py.

(* ================================================================== *)
(** ** The state record *)

Record Message : Type := mkMessage { role : string; content : string }.

(** A tool invocation produced by the model backend. *)
Record Action : Type := mkAction {
  toolName : string;
  toolArgs : list (string * string)
}.

(** What [runtime.create_sandbox] returns: a dictionary with the keys
    [workspace_id] and [auth_token], possibly [agent_id], and more. *)
Record SandboxInfo : Type := mkSandboxInfo {
  workspace_id : string;
  auth_token : string;
  info_agent_id : option string;
  info_rest : list (string * string)
}.

Inductive Status : Type :=
| Running | WaitingForInput | LLMFailed | Completed | Errored.

Definition Status_eqb (a b : Status) : bool :=
  match a, b with
  | Running, Running | WaitingForInput, WaitingForInput
  | LLMFailed, LLMFailed | Completed, Completed | Errored, Errored => true
  | _, _ => false
  end.

(** Modelled from the spec: the class [AgentState] of [strix/agents/state.py]
    is missing; the fields are those of the specification's data model. *)
Record AgentState : Type := mkState {
  agent_id : string;
  agent_name : string;
  task : string;
  messages : list Message;
  iteration : Z;
  max_iterations : Z;
  max_iterations_warning_sent : bool;
  status : Status;
  final_result : option Py.dict;
  errors : list string;
  actions : list Action;
  sandbox_id : option string;
  sandbox_token : option string;
  sandbox_info : option SandboxInfo;
  waiting_deadline : option Z
}.

(** Policy values and external functions the sources do not fix. *)
Record Policy : Type := mkPolicy {
  (** near-limit threshold, as a function of the budget *)
  near_limit : Z -> Z;
  (** how long a waiting agent waits before it resumes *)
  waiting_timeout : Z;
  (** [strix.llm.utils.clean_content] *)
  clean_content : string -> string
}.

Module State.

Definition with_task (v : string) (s : AgentState) : AgentState :=
  mkState (agent_id s) (agent_name s) v (messages s) (iteration s)
    (max_iterations s) (max_iterations_warning_sent s) (status s)
    (final_result s) (errors s) (actions s) (sandbox_id s)
    (sandbox_token s) (sandbox_info s) (waiting_deadline s).

Definition with_messages (v : list Message) (s : AgentState) : AgentState :=
  mkState (agent_id s) (agent_name s) (task s) v (iteration s)
    (max_iterations s) (max_iterations_warning_sent s) (status s)
    (final_result s) (errors s) (actions s) (sandbox_id s)
    (sandbox_token s) (sandbox_info s) (waiting_deadline s).

Definition with_iteration (v : Z) (s : AgentState) : AgentState :=
  mkState (agent_id s) (agent_name s) (task s) (messages s) v
    (max_iterations s) (max_iterations_warning_sent s) (status s)
    (final_result s) (errors s) (actions s) (sandbox_id s)
    (sandbox_token s) (sandbox_info s) (waiting_deadline s).

Definition with_warning_sent (v : bool) (s : AgentState) : AgentState :=
  mkState (agent_id s) (agent_name s) (task s) (messages s) (iteration s)
    (max_iterations s) v (status s)
    (final_result s) (errors s) (actions s) (sandbox_id s)
    (sandbox_token s) (sandbox_info s) (waiting_deadline s).

Definition with_status (v : Status) (s : AgentState) : AgentState :=
  mkState (agent_id s) (agent_name s) (task s) (messages s) (iteration s)
    (max_iterations s) (max_iterations_warning_sent s) v
    (final_result s) (errors s) (actions s) (sandbox_id s)
    (sandbox_token s) (sandbox_info s) (waiting_deadline s).

Definition with_final_result (v : option Py.dict) (s : AgentState)
  : AgentState :=
  mkState (agent_id s) (agent_name s) (task s) (messages s) (iteration s)
    (max_iterations s) (max_iterations_warning_sent s) (status s)
    v (errors s) (actions s) (sandbox_id s)
    (sandbox_token s) (sandbox_info s) (waiting_deadline s).

Definition with_errors (v : list string) (s : AgentState) : AgentState :=
  mkState (agent_id s) (agent_name s) (task s) (messages s) (iteration s)
    (max_iterations s) (max_iterations_warning_sent s) (status s)
    (final_result s) v (actions s) (sandbox_id s)
    (sandbox_token s) (sandbox_info s) (waiting_deadline s).

Definition with_actions (v : list Action) (s : AgentState) : AgentState :=
  mkState (agent_id s) (agent_name s) (task s) (messages s) (iteration s)
    (max_iterations s) (max_iterations_warning_sent s) (status s)
    (final_result s) (errors s) v (sandbox_id s)
    (sandbox_token s) (sandbox_info s) (waiting_deadline s).

Definition with_sandbox_id (v : option string) (s : AgentState)
  : AgentState :=
  mkState (agent_id s) (agent_name s) (task s) (messages s) (iteration s)
    (max_iterations s) (max_iterations_warning_sent s) (status s)
    (final_result s) (errors s) (actions s) v
    (sandbox_token s) (sandbox_info s) (waiting_deadline s).

Definition with_sandbox_token (v : option string) (s : AgentState)
  : AgentState :=
  mkState (agent_id s) (agent_name s) (task s) (messages s) (iteration s)
    (max_iterations s) (max_iterations_warning_sent s) (status s)
    (final_result s) (errors s) (actions s) (sandbox_id s)
    v (sandbox_info s) (waiting_deadline s).

Definition with_sandbox_info (v : option SandboxInfo) (s : AgentState)
  : AgentState :=
  mkState (agent_id s) (agent_name s) (task s) (messages s) (iteration s)
    (max_iterations s) (max_iterations_warning_sent s) (status s)
    (final_result s) (errors s) (actions s) (sandbox_id s)
    (sandbox_token s) v (waiting_deadline s).

Definition with_waiting_deadline (v : option Z) (s : AgentState)
  : AgentState :=
  mkState (agent_id s) (agent_name s) (task s) (messages s) (iteration s)
    (max_iterations s) (max_iterations_warning_sent s) (status s)
    (final_result s) (errors s) (actions s) (sandbox_id s)
    (sandbox_token s) (sandbox_info s) v.

(** Modelled from the spec: [AgentState(agent_name=, max_iterations=)],
    a fresh record (the identifier is generated outside). *)
Definition fresh (id name : string) (budget : Z) : AgentState :=
  mkState id name "" [] 0 budget false Running None [] [] None None None
    None.

(** Modelled from the spec: [is_waiting_for_input]. *)
Definition is_waiting_for_input (s : AgentState) : bool :=
  Status_eqb (status s) WaitingForInput.

(** Modelled from the spec: the attribute [llm_failed], the LLM-failure
    flavour of waiting. *)
Definition llm_failed (s : AgentState) : bool :=
  Status_eqb (status s) LLMFailed.

(** Modelled from the spec: [should_stop], true when the status is a
    stopping condition not yet converted to waiting. *)
Definition should_stop (s : AgentState) : bool :=
  Status_eqb (status s) Completed || Status_eqb (status s) Errored.

(** Modelled from the spec: [has_waiting_timeout], true once the waiting
    deadline has elapsed. *)
Definition has_waiting_timeout (now : Z) (s : AgentState) : bool :=
  match waiting_deadline s with
  | Some d => d <=? now
  | None => false
  end.

(** Modelled from the spec: [increment_iteration], no upper clamp. *)
Definition increment_iteration (s : AgentState) : AgentState :=
  with_iteration (iteration s + 1) s.

(** Modelled from the spec: [is_approaching_max_iterations], true when
    the remaining iterations fall under the near-limit threshold. *)
Definition is_approaching_max_iterations (p : Policy) (s : AgentState)
  : bool :=
  max_iterations s - iteration s <? near_limit p (max_iterations s).

(** Modelled from the spec: [add_message], an append. *)
Definition add_message (r c : string) (s : AgentState) : AgentState :=
  with_messages (messages s ++ [mkMessage r c]) s.

(** Modelled from the spec: [add_error], an append. *)
Definition add_error (t : string) (s : AgentState) : AgentState :=
  with_errors (errors s ++ [t]) s.

(** Modelled from the spec: [add_action], an append. *)
Definition add_action (a : Action) (s : AgentState) : AgentState :=
  with_actions (actions s ++ [a]) s.

(** Modelled from the spec: [enter_waiting_state(llm_failed)] sets the
    status to the waiting flavour and records the waiting deadline. *)
Definition enter_waiting_state (p : Policy) (now : Z) (failed : bool)
           (s : AgentState) : AgentState :=
  with_waiting_deadline (Some (now + waiting_timeout p))
    (with_status (if failed then LLMFailed else WaitingForInput) s).

(** Modelled from the spec: [resume_from_waiting] clears the waiting
    status back to running and clears the deadline. *)
Definition resume_from_waiting (s : AgentState) : AgentState :=
  with_waiting_deadline None (with_status Running s).

(** Modelled from the spec: [set_completed(result)] sets [final_result]
    and the status [Completed]. *)
Definition set_completed (r : Py.dict) (s : AgentState) : AgentState :=
  with_status Completed (with_final_result (Some r) s).

(** Modelled from the spec: [get_conversation_history], a snapshot of the
    messages appended so far (a copy: what the dispatcher does to it
    reaches the record only through an assignment to [messages]). *)
Definition get_conversation_history (s : AgentState) : list Message :=
  messages s.

End State.

(* ================================================================== *)
(** ** Collaborators and the call log *)

(** Every mutation the controller performs on the state record: a method
    call or an attribute assignment. *)
Inductive StateCall : Type :=
| IncrementIteration
| AddMessage (r c : string)
| AddError (t : string)
| AddAction (a : Action)
| EnterWaitingState (now : Z) (failed : bool)
| ResumeFromWaiting
| SetCompleted (r : Py.dict)
| SetWarningSent (b : bool)
| SetMessages (h : list Message)
| SetTask (t : string)
| SetSandboxId (v : string)
| SetSandboxToken (v : string)
| SetSandboxInfo (v : SandboxInfo)
| SetSandboxInfoAgentId (v : string).

Definition apply_call (p : Policy) (c : StateCall) (s : AgentState)
  : AgentState :=
  match c with
  | IncrementIteration => State.increment_iteration s
  | AddMessage r m => State.add_message r m s
  | AddError t => State.add_error t s
  | AddAction a => State.add_action a s
  | EnterWaitingState now failed => State.enter_waiting_state p now failed s
  | ResumeFromWaiting => State.resume_from_waiting s
  | SetCompleted r => State.set_completed r s
  | SetWarningSent b => State.with_warning_sent b s
  | SetMessages h => State.with_messages h s
  | SetTask t => State.with_task t s
  | SetSandboxId v => State.with_sandbox_id (Some v) s
  | SetSandboxToken v => State.with_sandbox_token (Some v) s
  | SetSandboxInfo v => State.with_sandbox_info (Some v) s
  | SetSandboxInfoAgentId v =>
      match sandbox_info s with
      | Some i =>
          State.with_sandbox_info
            (Some (mkSandboxInfo (workspace_id i) (auth_token i) (Some v)
                     (info_rest i))) s
      | None => s
      end
  end.

(** The global tracer, when there is one. *)
Record Tracer : Type := mkTracer { scan_config : option Py.dict }.

Inductive TracerCall : Type :=
| LogAgentCreation (id name task : string)
| RegisterAgent (id : string)
| UpdateAgentStatus (id status : string) (error : option string)
| LogToolExecutionStart (id tool : string) (args : Py.dict)
| UpdateToolExecution (status : string) (result : option string)
| LogChatMessage (text role id : string).

Inductive Event : Type :=
| EvState (c : StateCall)
| EvGenerate (history : list Message)
| EvDispatch (batch : list Action) (history : list Message)
| EvCreateSandbox (id : string) (token : option string)
                  (sources : option (list string))
| EvTracer (c : TracerCall)
| EvLog (text : string)
| EvSleep.

(** What [llm.generate] returns. *)
Record LLMResponse : Type := mkResponse {
  resp_content : option string;
  tool_invocations : option (list Action)
}.

Inductive LLMOutcome : Type :=
| Generated (r : LLMResponse)
| GenerateRaises (e : Py.exn).

Inductive TaskOutcome : Type :=
| TaskReturns (should_agent_finish : bool)
| TaskRaises (e : Py.exn).

(** What the surroundings do during one pass of the loop: the clock, the
    model backend's answer if it is asked, and what the tool task does if it
    is awaited (how it rewrites the history list it was handed, and how it
    ends). *)
Record PassEnv : Type := mkPassEnv {
  now : Z;
  llm_outcome : LLMOutcome;
  tool_history : list Message -> list Message;
  tool_outcome : TaskOutcome
}.

(** What the surroundings do during bootstrap. *)
Record InitEnv : Type := mkInitEnv {
  (** [os.getenv("STRIX_SANDBOX_MODE")] *)
  env_sandbox_mode : option string;
  (** the outcome of [runtime.create_sandbox] if it is called *)
  create_sandbox : SandboxInfo + Py.exn
}.

(* ================================================================== *)
(** ** The monad of the controller *)

Record Machine : Type := mkMachine {
  state : AgentState;
  current_task : option (list Action);
  trace : list Event
}.

Inductive Res (A : Type) : Type :=
| Ok (a : A)
| Raised (e : Py.exn).
Arguments Ok {A} a.
Arguments Raised {A} e.

Definition M (A : Type) : Type := Machine -> Res A * Machine.

Definition ret {A} (a : A) : M A := fun m => (Ok a, m).

Definition bind {A B} (c : M A) (k : A -> M B) : M B :=
  fun m =>
    match c m with
    | (Ok a, m') => k a m'
    | (Raised e, m') => (Raised e, m')
    end.

Definition raise {A} (e : Py.exn) : M A := fun m => (Raised e, m).

(** [try: c except e: h e]; what [c] did to the objects before it raised
    stays done. *)
Definition try_except {A} (c : M A) (h : Py.exn -> M A) : M A :=
  fun m =>
    match c m with
    | (Ok a, m') => (Ok a, m')
    | (Raised e, m') => h e m'
    end.

Declare Scope agent_scope.
Delimit Scope agent_scope with agent.
Notation "x <- c ;; k" := (bind c (fun x => k))
  (at level 61, c at next level, right associativity) : agent_scope.
Notation "c ;; k" := (bind c (fun _ => k))
  (at level 61, right associativity) : agent_scope.
Local Open Scope agent_scope.

Definition get_state : M AgentState := fun m => (Ok (state m), m).

Definition emit (e : Event) : M unit :=
  fun m => (Ok tt, mkMachine (state m) (current_task m) (trace m ++ [e])).

Definition set_current_task (t : option (list Action)) : M unit :=
  fun m => (Ok tt, mkMachine (state m) t (trace m)).

Definition when (b : bool) (c : M unit) : M unit :=
  if b then c else ret tt.

Fixpoint for_each {A} (l : list A) (body : A -> M unit) : M unit :=
  match l with
  | [] => ret tt
  | a :: r => body a ;; for_each r body
  end.

(* ================================================================== *)
(** ** The controller object and its constructor *)

Definition LLMConfig : Type := string.

(** The class attributes a subclass inherits or overrides. *)
Record AgentClass : Type := mkClass {
  cls_agent_name : string;
  cls_max_iterations : Z;
  default_llm_config : option LLMConfig
}.

Definition BaseAgent_class : AgentClass := mkClass "" 300 None.

(** A recognised key of the [config] dictionary: the key is absent, or it
    holds [None], or it holds a value. *)
Inductive Entry (A : Type) : Type :=
| Absent
| HoldsNone
| Holds (a : A).
Arguments Absent {A}.
Arguments HoldsNone {A}.
Arguments Holds {A} a.

(** [config.get(key, default)]: the default is for an absent key only. *)
Definition dict_get {A} (e : Entry A) (default : option A) : option A :=
  match e with
  | Absent => default
  | HoldsNone => None
  | Holds a => Some a
  end.

(** [key in config] *)
Definition has_key {A} (e : Entry A) : bool :=
  match e with Absent => false | _ => true end.

(** [config[key]], for a key that is there. *)
Definition item {A} (e : Entry A) : option A :=
  match e with Holds a => Some a | _ => None end.

Record AgentConfig : Type := mkAgentConfig {
  cfg_local_sources : Entry (list string);
  cfg_non_interactive : Entry bool;
  cfg_max_iterations : Entry Z;
  cfg_llm_config_name : Entry string;
  cfg_llm_config : Entry LLMConfig;
  cfg_state : Entry AgentState
}.

(** The attributes of [self] other than [self.state] and
    [self._current_task], which live in the [Machine].  An attribute read
    from the config is [None] when its key holds [None];
    [non_interactive] is the truth value of the attribute, which is all
    the loop reads of it. *)
Record Agent : Type := mkAgent {
  self_agent_name : string;
  local_sources : option (list string);
  non_interactive : bool;
  self_max_iterations : option Z;
  llm_config_name : option string;
  llm_config : LLMConfig
}.

Definition get {A} (o : option A) (default : A) : A :=
  match o with Some a => a | None => default end.

(** What the collaborators of the constructor do when they are called:
    each call returns or raises. *)
Record NewEnv : Type := mkNewEnv {
  (** what [LLM(llm_config, agent_name=)] raises, if anything *)
  new_llm : option Py.exn;
  (** [AgentState(agent_name=, max_iterations=)]: the record it returns
      for these two arguments, or what it raises *)
  new_state : string -> option Z -> AgentState + Py.exn;
  (** what [llm.set_agent_identity] raises, if anything *)
  set_agent_identity : option Py.exn;
  (** what each call of the tracer raises, if anything *)
  tracer_raises : TracerCall -> option Py.exn
}.

(** Calls of the tracer, one after the other, up to the first that
    raises; the log holds the calls made. *)
Fixpoint tracer_calls (raises : TracerCall -> option Py.exn)
         (calls : list TracerCall) (log : list Event)
  : (Py.exn * list Event) + list Event :=
  match calls with
  | [] => inr log
  | c :: rest =>
      match raises c with
      | Some e => inl (e, log ++ [EvTracer c])
      | None => tracer_calls raises rest (log ++ [EvTracer c])
      end
  end.

(** [BaseAgent.__init__].  It returns the controller object and the
    machine it starts with, or the exception that leaves it and the calls
    made on the tracer before. *)
Definition __init__ (cls : AgentClass) (tracer : option Tracer)
           (nenv : NewEnv) (config : AgentConfig)
  : (Py.exn * list Event) + (Agent * Machine) :=
  let local_sources := dict_get (cfg_local_sources config) (Some []) in
  let non_interactive :=
    get (dict_get (cfg_non_interactive config) (Some false)) false in
  let max_iterations :=
    if has_key (cfg_max_iterations config)
    then item (cfg_max_iterations config)
    else Some (cls_max_iterations cls) in
  let llm_config_name :=
    dict_get (cfg_llm_config_name config) (Some "default") in
  match dict_get (cfg_llm_config config) (default_llm_config cls) with
  | None =>
      inl (Py.ValueError "llm_config is required but not provided", [])
  | Some llm_config =>
      match new_llm nenv with
      | Some e => inl (e, [])
      | None =>
          let self :=
            mkAgent (cls_agent_name cls) local_sources non_interactive
              max_iterations llm_config_name llm_config in
          match
            match dict_get (cfg_state config) None with
            | Some state_from_config => inl state_from_config
            | None => new_state nenv (cls_agent_name cls) max_iterations
            end
          with
          | inr e => inl (e, [])
          | inl st =>
              match set_agent_identity nenv with
              | Some Py.CancelledError =>
                  (* not an [Exception]: [contextlib.suppress] lets it
                     through *)
                  inl (Py.CancelledError, [])
              | _ =>
                  match tracer with
                  | Some t =>
                      match
                        tracer_calls (tracer_raises nenv)
                          [ LogAgentCreation (agent_id st) (agent_name st)
                              (task st);
                            RegisterAgent (agent_id st);
                            LogToolExecutionStart (agent_id st)
                              "scan_start_info"
                              (Py.or_empty (scan_config t));
                            UpdateToolExecution "completed" None ] []
                      with
                      | inl failure => inl failure
                      | inr log => inr (self, mkMachine st None log)
                      end
                  | None => inr (self, mkMachine st None [])
                  end
              end
          end
      end
  end.

(* ================================================================== *)
(** ** The loop *)

(** How one pass of [while True] ends: [continue] or [return]. *)
Inductive Control : Type :=
| Continue
| Return (result : Py.dict).

Definition success_result : Py.dict := [("success", Py.VBool true)].

Definition failure_result (error_msg : string) : Py.dict :=
  [("success", Py.VBool false); ("error", Py.VStr error_msg)].

Definition warning_msg (s : AgentState) : string :=
  let remaining := max_iterations s - iteration s in
  ("URGENT: You are approaching the maximum iteration limit. "
   ++ "Current: " ++ Py.str_of_int (iteration s) ++ "/"
   ++ Py.str_of_int (max_iterations s) ++ " ("
   ++ Py.str_of_int remaining ++ " iterations remaining). "
   ++ "Please prioritize completing your required task(s) and calling "
   ++ "the finish_scan tool as soon as possible.")%string.

Definition final_warning_msg : string :=
  ("CRITICAL: You have only 3 iterations left! "
   ++ "Your next message MUST be the tool call to finish_scan. "
   ++ "No other actions should be taken except finishing your work "
   ++ "immediately.")%string.

Definition corrective_message : string :=
  ("You MUST NOT respond with empty messages. "
   ++ "If you currently have nothing to do or say, use an appropriate tool instead:"
   ++ String (ascii_of_nat 10) ""
   ++ "- Use finish_actions.finish_scan if the scan is complete")%string.

(** [f"Error in iteration {self.state.iteration}: {error!s}"] *)
Definition iteration_error_msg (s : AgentState) (error : Py.exn) : string :=
  ("Error in iteration " ++ Py.str_of_int (iteration s) ++ ": "
   ++ Py.str error)%string.

(** The notifications of [_enter_waiting_state]. *)
Definition completed_notice : string :=
  "Task completed. I'm now waiting for follow-up instructions or new tasks.".

Definition error_notice : string :=
  "An error occurred. I'm now waiting for new instructions.".

Definition cancelled_notice : string :=
  "Execution was cancelled. I'm now waiting for new instructions.".

Definition paused_notice : string :=
  "Execution paused. I'm now waiting for new instructions or any updates.".

Definition cancelled_error : string := "Tool execution cancelled by user".

Definition sandbox_mode_of (v : option string) : bool :=
  String.eqb (Py.lower (get v "false")) "true".

Section Controller.

Variable p : Policy.
Variable tracer : option Tracer.
Variable self : Agent.

(** A mutation of [self.state], logged. *)
Definition call (c : StateCall) : M unit :=
  fun m =>
    (Ok tt,
     mkMachine (apply_call p c (state m)) (current_task m)
       (trace m ++ [EvState c])).

(** [if tracer: tracer.<call>] *)
Definition notify (c : TracerCall) : M unit :=
  match tracer with
  | Some _ => emit (EvTracer c)
  | None => ret tt
  end.

Definition _wait_for_input (env : PassEnv) : M unit :=
  s <- get_state ;;
  if State.has_waiting_timeout (now env) s then
    call ResumeFromWaiting ;;
    call (AddMessage "assistant"
            "Waiting timeout reached. Resuming execution.") ;;
    s <- get_state ;;
    notify (UpdateAgentStatus (agent_id s) "running" None)
  else
    emit EvSleep.

Definition _enter_waiting_state (env : PassEnv)
           (task_completed error_occurred was_cancelled : bool) : M unit :=
  call (EnterWaitingState (now env) false) ;;
  s <- get_state ;;
  notify (UpdateAgentStatus (agent_id s)
            (if task_completed then "completed"
             else if error_occurred then "error"
             else if was_cancelled then "stopped"
             else "stopped") None) ;;
  if task_completed then
    call (AddMessage "assistant" completed_notice)
  else if error_occurred then
    call (AddMessage "assistant" error_notice)
  else if was_cancelled then
    call (AddMessage "assistant" cancelled_notice)
  else
    call (AddMessage "assistant" paused_notice).

Definition _initialize_sandbox_and_state (ienv : InitEnv) (new_task : string)
  : M unit :=
  let sandbox_mode := sandbox_mode_of (env_sandbox_mode ienv) in
  s <- get_state ;;
  (if negb sandbox_mode
      && match sandbox_id s with None => true | Some _ => false end
   then
     emit (EvCreateSandbox (agent_id s) (sandbox_token s)
             (local_sources self)) ;;
     match create_sandbox ienv with
     | inr e => raise e
     | inl sandbox_info =>
         call (SetSandboxId (workspace_id sandbox_info)) ;;
         call (SetSandboxToken (auth_token sandbox_info)) ;;
         call (SetSandboxInfo sandbox_info) ;;
         match info_agent_id sandbox_info with
         | Some a => call (SetSandboxInfoAgentId a)
         | None => ret tt
         end
     end
   else ret tt) ;;
  s <- get_state ;;
  when (negb (Py.truthy (task s))) (call (SetTask new_task)) ;;
  call (AddMessage "user" new_task).

Definition _execute_actions (env : PassEnv) (actions : list Action)
  : M bool :=
  for_each actions (fun action => call (AddAction action)) ;;
  s <- get_state ;;
  let conversation_history := State.get_conversation_history s in
  emit (EvDispatch actions conversation_history) ;;
  set_current_task (Some actions) ;;
  should_agent_finish <-
    try_except
      (match tool_outcome env with
       | TaskReturns b => set_current_task None ;; ret b
       | TaskRaises e => raise e
       end)
      (fun e =>
         match e with
         | Py.CancelledError =>
             set_current_task None ;;
             call (AddError cancelled_error) ;;
             raise e
         | _ => raise e
         end) ;;
  call (SetMessages (tool_history env conversation_history)) ;;
  if should_agent_finish then
    call (SetCompleted success_result) ;;
    s <- get_state ;;
    notify (UpdateAgentStatus (agent_id s) "completed" None) ;;
    ret true
  else ret false.

Definition _process_iteration (env : PassEnv) : M bool :=
  s <- get_state ;;
  emit (EvGenerate (State.get_conversation_history s)) ;;
  match llm_outcome env with
  | GenerateRaises e => raise e
  | Generated response =>
      let text := get (resp_content response) "" in
      let content_stripped := Py.strip text in
      if negb (Py.truthy content_stripped) then
        call (AddMessage "user" corrective_message) ;;
        ret false
      else
        call (AddMessage "assistant" text) ;;
        s <- get_state ;;
        notify (LogChatMessage (clean_content p text) "assistant"
                  (agent_id s)) ;;
        let actions := get (tool_invocations response) [] in
        match actions with
        | _ :: _ => _execute_actions env actions
        | [] => ret false
        end
  end.

Definition _handle_iteration_error (error : Py.exn) : M bool :=
  s <- get_state ;;
  let error_msg := iteration_error_msg s error in
  emit (EvLog error_msg) ;;
  call (AddError error_msg) ;;
  notify (UpdateAgentStatus (agent_id s) "error" None) ;;
  ret true.

(** [if error_details:] the two diagnostic records sent to the tracer. *)
Definition notify_details (s : AgentState) (error_msg : string)
           (error_details : option string) : M unit :=
  when (Py.opt_truthy error_details)
    (notify (LogToolExecutionStart (agent_id s) "llm_error_details"
               [("error", Py.VStr error_msg);
                ("details", Py.VStr (get error_details ""))]) ;;
     notify (UpdateToolExecution "failed" error_details)).

(** [agent_loop], lines 132-154: the two budget warnings, after the
    counter has advanced. *)
Definition iteration_warnings : M unit :=
  s <- get_state ;;
  when (State.is_approaching_max_iterations p s
        && negb (max_iterations_warning_sent s))
    (call (SetWarningSent true) ;;
     s <- get_state ;;
     call (AddMessage "user" (warning_msg s))) ;;
  s <- get_state ;;
  when (iteration s =? max_iterations s - 3)
    (call (AddMessage "user" final_warning_msg)).

(** [agent_loop], lines 157-165: the body of the [try]. *)
Definition iteration_body (env : PassEnv) : M Control :=
  should_finish <- _process_iteration env ;;
  if should_finish then
    if non_interactive self then
      call (SetCompleted success_result) ;;
      s <- get_state ;;
      notify (UpdateAgentStatus (agent_id s) "completed" None) ;;
      ret (Return (Py.or_empty (final_result s)))
    else
      _enter_waiting_state env true false false ;; ret Continue
  else ret Continue.

(** [agent_loop], lines 167-215: the [except] clauses, in their order.
    The recovery hook is the method [_handle_iteration_error], which a
    subclass may override. *)
Definition on_exception (hook : Py.exn -> M bool) (env : PassEnv)
           (e : Py.exn) : M Control :=
  match e with
  | Py.CancelledError =>
      if non_interactive self then raise e
      else _enter_waiting_state env false false true ;; ret Continue
  | Py.LLMRequestFailedError _ _ =>
      let error_msg := Py.str e in
      let error_details := Py.details e in
      call (AddError error_msg) ;;
      if non_interactive self then
        call (SetCompleted (failure_result error_msg)) ;;
        s <- get_state ;;
        notify (UpdateAgentStatus (agent_id s) "failed" (Some error_msg)) ;;
        notify_details s error_msg error_details ;;
        ret (Return (failure_result error_msg))
      else
        call (EnterWaitingState (now env) true) ;;
        s <- get_state ;;
        notify (UpdateAgentStatus (agent_id s) "llm_failed"
                  (Some error_msg)) ;;
        notify_details s error_msg error_details ;;
        ret Continue
  | Py.RuntimeError _ | Py.ValueError _ | Py.TypeError _ =>
      handled <- hook e ;;
      if negb handled then
        if non_interactive self then
          call (SetCompleted (failure_result (Py.str e))) ;;
          s <- get_state ;;
          notify (UpdateAgentStatus (agent_id s) "failed" None) ;;
          raise e
        else
          _enter_waiting_state env false true false ;; ret Continue
      else ret Continue
  | Py.OtherException _ _ => raise e
  end.

(** One pass of the [while True] of [agent_loop]. *)
Definition pass_with (hook : Py.exn -> M bool) (env : PassEnv)
  : M Control :=
  s <- get_state ;;
  if State.is_waiting_for_input s then
    _wait_for_input env ;; ret Continue
  else if State.should_stop s then
    if non_interactive self then ret (Return (Py.or_empty (final_result s)))
    else _enter_waiting_state env false false false ;; ret Continue
  else if State.llm_failed s then
    _wait_for_input env ;; ret Continue
  else
    call IncrementIteration ;;
    iteration_warnings ;;
    try_except (iteration_body env) (on_exception hook env).

Definition pass : PassEnv -> M Control := pass_with _handle_iteration_error.

(** The [while True] loop, for as many passes as the surroundings are
    described; [None] when it is still looping after them. *)
Fixpoint loop (envs : list PassEnv) : M (option Py.dict) :=
  match envs with
  | [] => ret None
  | env :: rest =>
      ctl <- pass env ;;
      match ctl with
      | Continue => loop rest
      | Return r => ret (Some r)
      end
  end.

Definition agent_loop (ienv : InitEnv) (new_task : string)
           (envs : list PassEnv) : M (option Py.dict) :=
  _initialize_sandbox_and_state ienv new_task ;; loop envs.

End Controller.

(* ================================================================== *)
(** ** Cancelling the tool batch in flight *)

(** [cancel_current_execution]; [done] is what [self._current_task.done()]
    answers when there is a task.  The boolean tells whether [cancel()] was
    called on it. *)
Definition cancel_current_execution (done : bool) (m : Machine)
  : bool * Machine :=
  match current_task m with
  | Some _ =>
      if negb done then (true, mkMachine (state m) None (trace m))
      else (false, m)
  | None => (false, m)
  end.

(* ================================================================== *)
(** ** Values and exceptions of the tools *)

Module Tool.

(** The values of the dictionaries the tools return. *)
Inductive value : Type :=
| VBool (b : bool)
| VStr (s : string)
| VInt (n : Z)
| VNone
| VList (items : list string).

Definition dict : Type := list (string * value).

(** [d.get(key)] *)
Fixpoint lookup (key : string) (d : dict) : option value :=
  match d with
  | [] => None
  | (k, v) :: r => if String.eqb k key then Some v else lookup key r
  end.

(** The classes the [except] clauses of the tools name.  An exception is
    filed under the class of that list it is an instance of;
    [CancelledError] stands for the exceptions that are not instances of
    [Exception]. *)
Definition is_exception (e : Py.exn) : bool :=
  match e with Py.CancelledError => false | _ => true end.

Definition is_class (name : string) (e : Py.exn) : bool :=
  match e with
  | Py.OtherException c _ => String.eqb c name
  | _ => false
  end.

Definition is_value_type_key_error (e : Py.exn) : bool :=
  match e with
  | Py.ValueError _ | Py.TypeError _ => true
  | _ => is_class "KeyError" e
  end.

Definition nl : string := String (ascii_of_nat 10) "".

(** [s[:n]] *)
Fixpoint take (n : nat) (s : string) : string :=
  match n, s with
  | S n', String c r => String c (take n' r)
  | _, _ => EmptyString
  end.

(** [sep.join(parts)] *)
Fixpoint join (sep : string) (parts : list string) : string :=
  match parts with
  | [] => EmptyString
  | [x] => x
  | x :: r => (x ++ sep ++ join sep r)%string
  end.

Definition is_alnum (c : ascii) : bool :=
  let n := nat_of_ascii c in
  ((48 <=? n) && (n <=? 57) || (65 <=? n) && (n <=? 90)
   || (97 <=? n) && (n <=? 122))%nat.

(** [re.sub(r'[^a-zA-Z0-9]', '_', s)] *)
Fixpoint sub_non_alnum (s : string) : string :=
  match s with
  | EmptyString => EmptyString
  | String c r =>
      String (if is_alnum c then c else "_"%char) (sub_non_alnum r)
  end.

End Tool.

(* ================================================================== *)
(** ** The scan-completion tool ([strix/tools/finish/finish_actions.py]) *)

Module Finish.

(** The global tracer as this tool uses it: whether
    [set_final_scan_result] raises, and [len(vulnerability_reports)]. *)
Record ScanTracer : Type := mkScanTracer {
  set_final_scan_result : option Py.exn;
  vulnerability_reports : nat
}.

(** What the surroundings do: the import of the tracer module raises, or
    [get_global_tracer()] answers. *)
Record Env : Type := mkEnv {
  tracer_module : Py.exn + option ScanTracer
}.

Inductive Event : Type :=
| Stored (content : string) (success : bool)
| Warned (text : string).

Definition Outcome : Type := (list Event * (Tool.dict + Py.exn))%type.

Definition _validate_content (content : string) : option Tool.dict :=
  if negb (Py.truthy content) || negb (Py.truthy (Py.strip content)) then
    Some [("success", Tool.VBool false);
          ("message", Tool.VStr "Content cannot be empty")]
  else None.

Definition _finalize_with_tracer (env : Env) (content : string)
           (success : bool) : Outcome :=
  let body : Outcome :=
    match tracer_module env with
    | inl e => ([], inr e)
    | inr (Some tracer) =>
        match set_final_scan_result tracer with
        | Some e => ([], inr e)
        | None =>
            ([Stored (Py.strip content) success],
             inl [("success", Tool.VBool true);
                  ("scan_completed", Tool.VBool true);
                  ("message",
                   Tool.VStr (if success then "Scan completed successfully"
                              else "Scan completed with errors"));
                  ("vulnerabilities_found",
                   Tool.VInt (Z.of_nat (vulnerability_reports tracer)))])
        end
    | inr None =>
        ([Warned
            "Global tracer not available - final scan result not stored"],
         inl [("success", Tool.VBool true);
              ("scan_completed", Tool.VBool true);
              ("message",
               Tool.VStr
                 (if success
                  then "Scan completed successfully (not persisted)"
                  else "Scan completed with errors (not persisted)"));
              ("warning",
               Tool.VStr
                 "Final result could not be persisted - tracer unavailable")])
    end in
  match body with
  | (evs, inr e) =>
      if Tool.is_class "ImportError" e then
        (evs,
         inl [("success", Tool.VBool true);
              ("scan_completed", Tool.VBool true);
              ("message",
               Tool.VStr
                 (if success
                  then "Scan completed successfully (not persisted)"
                  else "Scan completed with errors (not persisted)"));
              ("warning",
               Tool.VStr
                 "Final result could not be persisted - tracer module unavailable")])
      else (evs, inr e)
  | done => done
  end.

(** [finish_scan(content, success, agent_state)]; the third argument is
    not read. *)
Definition finish_scan (env : Env) (content : string) (success : bool)
  : Outcome :=
  let body : Outcome :=
    match _validate_content content with
    | Some validation_error => ([], inl validation_error)
    | None => _finalize_with_tracer env content success
    end in
  match body with
  | (evs, inr e) =>
      if Tool.is_value_type_key_error e then
        (evs,
         inl [("success", Tool.VBool false);
              ("message",
               Tool.VStr ("Failed to complete scan: " ++ Py.str e)%string)])
      else (evs, inr e)
  | done => done
  end.

End Finish.

(* ================================================================== *)
(** ** The web search tool
       ([strix/tools/web_search/web_search_actions.py]) *)

Module WebSearch.

Import Tool.

Definition SYSTEM_PROMPT : string :=
  ("You are assisting a cybersecurity agent specialized in vulnerability scanning" ++ nl
   ++ "and security assessment running on Kali Linux." ++ nl
   ++ nl
   ++ "You have been provided with search results from the web in Markdown format." ++ nl
   ++ "Your task is to synthesize this information to answer the user's query comprehensively." ++ nl
   ++ nl
   ++ "1. Prioritize cybersecurity-relevant information including:" ++ nl
   ++ "   - Vulnerability details (CVEs, CVSS scores, impact)" ++ nl
   ++ "   - Security tools, techniques, and methodologies" ++ nl
   ++ "   - Exploit information and proof-of-concepts" ++ nl
   ++ "   - Security best practices and mitigations" ++ nl
   ++ "   - Web application security findings" ++ nl
   ++ nl
   ++ "2. Provide technical depth appropriate for security professionals." ++ nl
   ++ "3. Cite sources implicitly by validating facts against the provided search context." ++ nl
   ++ "4. If the search results do not contain the answer, state that clearly and suggest what else might be searched." ++ nl
   ++ "5. Focus on actionable intelligence for security assessment." ++ nl
   ++ "6. Be detailed and specific - always include concrete code examples, command-line instructions," ++ nl
   ++ "   or practical implementation steps when applicable." ++ nl
   ++ nl
   ++ "Structure your response to be comprehensive yet concise, emphasizing the most critical" ++ nl
   ++ "security implications." ++ nl)%string.

(** One result of the search: the keys [title], [url] and [markdown] of
    the item, [None] for an absent key. *)
Record Item : Type := mkItem {
  item_title : option string;
  item_url : option string;
  item_markdown : option string
}.

(** The JSON body of a search: the truth value of its [success] key and
    its [data] key, [None] when absent. *)
Record SearchData : Type := mkSearchData {
  sd_success : bool;
  sd_data : option (list Item)
}.

(** What one HTTP request does: it answers a JSON body, it answers an
    error status that [raise_for_status] turns into [HTTPError], or the
    request or the decoding raises. *)
Inductive Http : Type :=
| HttpJson (d : SearchData)
| HttpStatusError (status_code : Z) (text : string)
| HttpRaises (e : Py.exn).

(** The keyword arguments of [litellm.completion]. *)
Record Completion : Type := mkCompletion {
  model : string;
  messages : list Message;
  timeout : Z;
  api_key : option string;
  api_base : option string
}.

Record Env : Type := mkEnv {
  FIRECRAWL_API_KEY : option string;
  STRIX_LLM : option string;
  LLM_API_KEY : option string;
  LLM_API_BASE : option string;
  (** the answer to the n-th request, from 0 *)
  network : nat -> Http;
  (** whether [get_global_tracer()] answers a tracer *)
  global_tracer : bool;
  (** whether the runtime has a [client] attribute *)
  docker_runtime : bool;
  (** [response.choices[0].message.content] of the completion, or what
      raises on the way to it *)
  completion : Completion -> option string + Py.exn
}.

Inductive Event : Type :=
| Post (url authorization query : string) (limit : Z)
| WriteFile (name content : string)
| Exec (sandbox command : string)
| PutArchive (sandbox path : string) (arcnames : list string)
| Complete (kwargs : Completion)
| Log (level text : string).

Definition url : string := "https://api.firecrawl.dev/v1/search".

(** The body of [_firecrawl_search]: one request. *)
Definition request (query api_key : string) (answer : Http)
  : list Event * (SearchData + Py.exn) :=
  ([Post url ("Bearer " ++ api_key)%string query 5],
   match answer with
   | HttpJson d => inl d
   | HttpStatusError status_code text =>
       inr (Py.RuntimeError
              ("Firecrawl API Error (" ++ Py.str_of_int status_code
               ++ "): " ++ text)%string)
   | HttpRaises e => inr e
   end).

(** [@retry(stop=stop_after_attempt(..), reraise=True)] around the
    request: an attempt that raises an [Exception] is followed by another
    one while [more] are allowed, and the last exception is raised as it
    is.  The waits between attempts are left out. *)
Fixpoint retrying (more : nat) (n : nat) (query api_key : string)
         (net : nat -> Http) : list Event * (SearchData + Py.exn) :=
  match request query api_key (net n) with
  | (evs, inl d) => (evs, inl d)
  | (evs, inr e) =>
      match more with
      | S more' =>
          if is_exception e then
            let (evs', r) := retrying more' (S n) query api_key net in
            (evs ++ evs', r)
          else (evs, inr e)
      | O => (evs, inr e)
      end
  end.

Definition _firecrawl_search (query api_key : string) (net : nat -> Http)
  : list Event * (SearchData + Py.exn) :=
  retrying 2 0 query api_key net.

(** [re.sub(r'[^a-zA-Z0-9]', '_', query)[:50]] *)
Definition safe_query (query : string) : string :=
  take 50 (sub_non_alnum query).

Definition filename (safe : string) (i : nat) : string :=
  (safe ++ "_" ++ Py.str_of_int (Z.of_nat i) ++ ".md")%string.

Definition file_content (title url markdown : string) : string :=
  ("--- " ++ nl ++ "Title: " ++ title ++ nl ++ "URL: " ++ url ++ nl
   ++ "---" ++ nl ++ nl ++ markdown)%string.

(** The loop of [_save_scraped_data] over [enumerate(data)], from index
    [i]: the files it writes, name and content. *)
Fixpoint saved_from (i : nat) (safe : string) (data : list Item)
  : list (string * string) :=
  match data with
  | [] => []
  | item :: rest =>
      let markdown := get (item_markdown item) "" in
      let title := get (item_title item) "untitled" in
      let url := get (item_url item) "no_url" in
      if negb (Py.truthy markdown) then saved_from (S i) safe rest
      else (filename safe i, file_content title url markdown)
             :: saved_from (S i) safe rest
  end.

Definition saved_files (query : string) (data : list Item)
  : list (string * string) :=
  saved_from 0 (safe_query query) data.

(** [_save_scraped_data], when no file or container operation fails (the
    function swallows such failures and logs a warning). *)
Definition _save_scraped_data (env : Env) (data : list Item) (query : string)
           (agent_state : option AgentState) : list Event :=
  if negb (global_tracer env) then []
  else
    let files := saved_files query data in
    map (fun f => WriteFile (fst f) (snd f)) files
    ++ match agent_state with
       | Some st =>
           match sandbox_id st with
           | Some id =>
               if Py.truthy id && docker_runtime env then
                 [Exec id "mkdir -p /workspace/scraped_data";
                  PutArchive id "/workspace"
                    (map (fun f => ("scraped_data/" ++ fst f)%string) files);
                  Exec id
                    "chown -R pentester:pentester /workspace/scraped_data";
                  Log "info"
                    ("Copied "
                     ++ Py.str_of_int (Z.of_nat (List.length files))
                     ++ " scraped files to sandbox /workspace/scraped_data")%string]
               else []
           | None => []
           end
       | None => []
       end.

Definition context_part (item : Item) : string :=
  let title := get (item_title item) "No Title" in
  let url := get (item_url item) "No URL" in
  let markdown := get (item_markdown item) "" in
  let markdown_snippet := take (Z.to_nat 15000) markdown in
  ("Source: " ++ title ++ " (" ++ url ++ ")" ++ nl ++ nl ++ "Content:" ++ nl
   ++ markdown_snippet ++ nl ++ "---")%string.

Definition full_context (data : list Item) : string :=
  join nl (map context_part data).

Definition completion_kwargs (env : Env) (query : string)
           (data : list Item) : Completion :=
  mkCompletion
    (get (STRIX_LLM env) "openai/gpt-4o")
    [mkMessage "system" SYSTEM_PROMPT;
     mkMessage "user"
       ("User Query: " ++ query ++ nl ++ nl ++ "Search Results:" ++ nl
        ++ full_context data)%string]
    120
    (if Py.opt_truthy (LLM_API_KEY env) then LLM_API_KEY env else None)
    (if Py.opt_truthy (LLM_API_BASE env) then LLM_API_BASE env else None).

Definition failure (message : string) : dict :=
  [("success", VBool false); ("message", VStr message);
   ("results", VList [])].

Definition opt_str (o : option string) : value :=
  match o with Some s => VStr s | None => VNone end.

(** [web_search(query, agent_state)] *)
Definition web_search (env : Env) (query : string)
           (agent_state : option AgentState)
  : list Event * (dict + Py.exn) :=
  if negb (Py.opt_truthy (FIRECRAWL_API_KEY env)) then
    ([], inl (failure
      "FIRECRAWL_API_KEY environment variable not set. Please configure it to use web search."))
  else
    match _firecrawl_search query (get (FIRECRAWL_API_KEY env) "")
            (network env) with
    | (evs, inr e) =>
        if is_exception e then
          (evs ++ [Log "error" ("Firecrawl search failed: " ++ Py.str e)%string],
           inl (failure ("Search failed: " ++ Py.str e)%string))
        else (evs, inr e)
    | (evs, inl search_data) =>
        match (if sd_success search_data then sd_data search_data
               else None) with
        | None | Some [] => (evs, inl (failure "No results found."))
        | Some data =>
            let saved := _save_scraped_data env data query agent_state in
            let kwargs := completion_kwargs env query data in
            match completion env kwargs with
            | inr e =>
                if is_exception e then
                  (evs ++ saved
                   ++ [Complete kwargs;
                       Log "error" "Web search synthesis failed"],
                   inl (failure ("Web search failed: " ++ Py.str e)%string))
                else (evs ++ saved ++ [Complete kwargs], inr e)
            | inl content =>
                (evs ++ saved ++ [Complete kwargs],
                 inl [("success", VBool true);
                      ("query", VStr query);
                      ("content", opt_str content);
                      ("message",
                       VStr "Web search completed successfully")])
            end
        end
    end.

End WebSearch.

(* ================================================================== *)
(** ** Vocabulary of the properties *)

(** The pass gets as far as the model call: the agent is not waiting, is
    not stopped and has not failed on the model backend. *)
Definition iterates (s : AgentState) : bool :=
  negb (State.is_waiting_for_input s) && negb (State.should_stop s)
  && negb (State.llm_failed s).

(** [RuntimeError], [ValueError] or [TypeError]. *)
Definition recoverable (e : Py.exn) : bool :=
  match e with
  | Py.RuntimeError _ | Py.ValueError _ | Py.TypeError _ => true
  | _ => false
  end.

(** Invariant (b), one direction: a completed agent has a result. *)
Definition completed_has_result (s : AgentState) : Prop :=
  status s = Completed -> final_result s <> None.


(** Observations on the call log. *)
Module Log.

Definition count (f : Event -> bool) (t : list Event) : nat :=
  List.length (filter f t).

Definition is_generate (e : Event) : bool :=
  match e with EvGenerate _ => true | _ => false end.

Definition is_dispatch (e : Event) : bool :=
  match e with EvDispatch _ _ => true | _ => false end.


Definition is_set_completed (e : Event) : bool :=
  match e with EvState (SetCompleted _) => true | _ => false end.

Definition is_set_messages (e : Event) : bool :=
  match e with EvState (SetMessages _) => true | _ => false end.


Definition urgent_prefix : string :=
  "URGENT: You are approaching the maximum iteration limit. ".

(** A user-role message that is the near-limit warning. *)
Definition is_urgent_warning (e : Event) : bool :=
  match e with
  | EvState (AddMessage r c) =>
      String.eqb r "user" && String.prefix urgent_prefix c
  | _ => false
  end.

(** A user-role message that is the critical warning. *)
Definition is_critical_warning (e : Event) : bool :=
  match e with
  | EvState (AddMessage r c) =>
      String.eqb r "user" && String.eqb c final_warning_msg
  | _ => false
  end.

End Log.

(** A computation relates the machine it starts from to the one it leaves,
    whether it returns or raises. *)
Definition steps (R : Machine -> Machine -> Prop) {A} (c : M A) : Prop :=
  forall m, R m (snd (c m)).

(** The machines an agent goes through from [m0]: bootstraps and passes of
    the loop, in any number and order, whatever the surroundings do. *)
Inductive reachable_from (p : Policy) (tracer : option Tracer) (self : Agent)
          (m0 : Machine) : Machine -> Prop :=
| reach_start : reachable_from p tracer self m0 m0
| reach_bootstrap : forall m ienv new_task,
    reachable_from p tracer self m0 m ->
    reachable_from p tracer self m0
      (snd (_initialize_sandbox_and_state p self ienv new_task m))
| reach_pass : forall m env,
    reachable_from p tracer self m0 m ->
    reachable_from p tracer self m0 (snd (pass p tracer self env m)).

(** The same agent in the other mode, or with another budget on the
    controller object. *)
Definition with_non_interactive (b : bool) (a : Agent) : Agent :=
  mkAgent (self_agent_name a) (local_sources a) b (self_max_iterations a)
    (llm_config_name a) (llm_config a).

Definition with_self_max_iterations (n : option Z) (a : Agent) : Agent :=
  mkAgent (self_agent_name a) (local_sources a) (non_interactive a) n
    (llm_config_name a) (llm_config a).

(** The collaborators of the constructor other than [AgentState] return:
    [LLM(...)] raises nothing, [set_agent_identity] raises nothing that
    [contextlib.suppress(Exception)] lets through, and the tracer, when
    there is one, raises nothing. *)
Definition collaborators_return (tracer : option Tracer) (nenv : NewEnv)
  : Prop :=
  new_llm nenv = None
  /\ set_agent_identity nenv <> Some Py.CancelledError
  /\ (tracer <> None -> forall c, tracer_raises nenv c = None).

(** [self.max_iterations] after the constructor: the item of the config
    when the key is there, the class attribute otherwise. *)
Definition max_iterations_of (cls : AgentClass) (config : AgentConfig)
  : option Z :=
  if has_key (cfg_max_iterations config)
  then item (cfg_max_iterations config)
  else Some (cls_max_iterations cls).


(** The machine at the model call of an iterating pass: the counter has
    advanced and the budget warnings are in. *)
Definition begun (p : Policy) (m : Machine) : Machine :=
  snd (iteration_warnings p (snd (call p IncrementIteration m))).

(** The two conditions of the budget warnings, on the record whose counter
    has advanced, and the calls they lead to. *)
Definition urgent_due (p : Policy) (s : AgentState) : bool :=
  State.is_approaching_max_iterations p s
  && negb (max_iterations_warning_sent s).

Definition critical_due (s : AgentState) : bool :=
  iteration s =? max_iterations s - 3.

Definition warning_calls (p : Policy) (s : AgentState) : list StateCall :=
  (if urgent_due p s
   then [SetWarningSent true; AddMessage "user" (warning_msg s)]
   else [])
  ++ (if critical_due s then [AddMessage "user" final_warning_msg] else []).

(** The state record after the calls of a piece of the log. *)
Definition replay (p : Policy) (d : list Event) (s : AgentState)
  : AgentState :=
  fold_left
    (fun s e => match e with EvState c => apply_call p c s | _ => s end) d s.

(** The log only grows, and the record changes by the logged calls only. *)
Definition logged (p : Policy) (m m' : Machine) : Prop :=
  exists d, trace m' = trace m ++ d /\ state m' = replay p d (state m).

(** The payload of the last [set_completed] of a piece of the log. *)
Definition last_completed (d : list Event) (before : option Py.dict)
  : option Py.dict :=
  fold_left
    (fun acc e =>
       match e with EvState (SetCompleted r) => Some r | _ => acc end)
    d before.

(** Passes of the loop one after the other, whatever each one ends in. *)
Definition passes (p : Policy) (tracer : option Tracer) (self : Agent)
           (envs : list PassEnv) (m : Machine) : Machine :=
  fold_left (fun m env => snd (pass p tracer self env m)) envs m.

(** How many near-limit warnings the agent can still inject, added to
    those in the log. *)
Definition urgent_budget (m : Machine) : nat :=
  (Log.count Log.is_urgent_warning (trace m)
   + (if max_iterations_warning_sent (state m) then 0 else 1))%nat.


(** The guard of the provisioning in [_initialize_sandbox_and_state]. *)
Definition provisions (ienv : InitEnv) (s : AgentState) : bool :=
  negb (sandbox_mode_of (env_sandbox_mode ienv))
  && match sandbox_id s with None => true | Some _ => false end.

(** A computation does not raise that bound. *)
Definition within_budget (m m' : Machine) : Prop :=
  (urgent_budget m' <= urgent_budget m)%nat.

(** A computation keeps a count of the log. *)
Definition same_count (f : Event -> bool) (m m' : Machine) : Prop :=
  Log.count f (trace m') = Log.count f (trace m).

(** A computation keeps a property of the state record. *)
Definition keeps (I : AgentState -> Prop) (m m' : Machine) : Prop :=
  I (state m) -> I (state m').

(** ** The result and the status *)

(** Invariant (b), the other direction: a result comes with a completed
    status. *)
Definition result_only_completed (s : AgentState) : Prop :=
  final_result s <> None -> status s = Completed.

(** The record holds no result, or the success payload. *)
Definition unset_or_success (s : AgentState) : Prop :=
  final_result s = None \/ final_result s = Some success_result.

(** A computation leaves the result and the status alone, or ends with a
    result and the status [Completed]. *)
Definition completes (m m' : Machine) : Prop :=
  (final_result (state m') = final_result (state m)
   /\ status (state m') = status (state m))
  \/ (status (state m') = Completed /\ final_result (state m') <> None).

(** A computation leaves the result alone, or sets the success payload. *)
Definition sets_success (m m' : Machine) : Prop :=
  final_result (state m') = final_result (state m)
  \/ final_result (state m') = Some success_result.

(** A computation leaves the result and the status alone. *)
Definition same_result (m m' : Machine) : Prop :=
  final_result (state m') = final_result (state m)
  /\ status (state m') = status (state m).

(** ** The warnings in the conversation *)

(** The history the model backend is shown first in a piece of the log. *)
Fixpoint history_shown (d : list Event) : option (list Message) :=
  match d with
  | [] => None
  | EvGenerate h :: _ => Some h
  | _ :: r => history_shown r
  end.

(** What a pass adds to the conversation before it shows it to the model:
    the part of the history handed to the model backend beyond the
    messages the record held when the pass began.  Empty when the pass
    calls no model. *)
Definition injected (p : Policy) (tracer : option Tracer) (self : Agent)
           (env : PassEnv) (m : Machine) : list Message :=
  match
    history_shown
      (skipn (List.length (trace m)) (trace (snd (pass p tracer self env m))))
  with
  | Some h => skipn (List.length (messages (state m))) h
  | None => []
  end.

(** A user-role message that is the near-limit warning, or the critical
    warning. *)
Definition is_urgent_message (x : Message) : bool :=
  String.eqb (role x) "user" && String.prefix Log.urgent_prefix (content x).

Definition is_critical_message (x : Message) : bool :=
  String.eqb (role x) "user" && String.eqb (content x) final_warning_msg.

Definition how_many (f : Message -> bool) (l : list Message) : nat :=
  List.length (filter f l).

(** The messages of the budget warnings that are due on a record whose
    counter has advanced. *)
Definition warnings_due (p : Policy) (s : AgentState) : list Message :=
  (if urgent_due p s then [mkMessage "user" (warning_msg s)] else [])
  ++ (if critical_due s then [mkMessage "user" final_warning_msg] else []).

(** The near-limit warnings injected over passes one after the other. *)
Fixpoint urgent_injected (p : Policy) (tracer : option Tracer) (self : Agent)
         (envs : list PassEnv) (m : Machine) : nat :=
  match envs with
  | [] => 0
  | env :: rest =>
      (how_many is_urgent_message (injected p tracer self env m)
       + urgent_injected p tracer self rest (snd (pass p tracer self env m)))%nat
  end.

Arguments how_many : simpl never.

Arguments for_each : simpl never.
Arguments Log.count : simpl never.
Arguments Py.strip : simpl never.
Arguments Py.truthy : simpl nomatch.

(** Concrete surroundings used to exercise the statements. *)
Module Ex.

Definition policy : Policy := mkPolicy (fun budget => budget / 10) 600 (fun s => s).

Definition agent (non_interactive : bool) : Agent :=
  mkAgent "StrixAgent" (Some []) non_interactive (Some 300) (Some "default")
    "model".

Definition fresh_machine : Machine :=
  mkMachine (State.fresh "agent-1" "StrixAgent" 300) None [].

Definition finish_scan : Action :=
  mkAction "finish_scan" [("content", "report")].

Definition tool_result : Message := mkMessage "user" "<tool_result>".

Definition add_result (h : list Message) : list Message :=
  h ++ [tool_result].

(** The model asks for [finish_scan]; the tool batch signals finish. *)
Definition finishing : PassEnv :=
  mkPassEnv 0 (Generated (mkResponse (Some "done") (Some [finish_scan])))
    add_result (TaskReturns true).

(** The model answers with blanks only. *)
Definition blank : PassEnv :=
  mkPassEnv 0 (Generated (mkResponse (Some "  ") None))
    (fun h => h) (TaskReturns false).

(** The tool batch is cancelled after it has written a partial result. *)
Definition cancelled : PassEnv :=
  mkPassEnv 0 (Generated (mkResponse (Some "done") (Some [finish_scan])))
    add_result (TaskRaises Py.CancelledError).

(** The tool batch raises a [ValueError]. *)
Definition failing_tool : PassEnv :=
  mkPassEnv 0 (Generated (mkResponse (Some "done") (Some [finish_scan])))
    add_result (TaskRaises (Py.ValueError "boom")).

(** The model backend fails. *)
Definition rate_limited : PassEnv :=
  mkPassEnv 0
    (GenerateRaises (Py.LLMRequestFailedError "rate limited" None))
    (fun h => h) (TaskReturns false).

Definition sandbox : SandboxInfo :=
  mkSandboxInfo "ws-1" "tok-new" None [].

Definition provisioning : InitEnv := mkInitEnv None (inl sandbox).

(** A fresh agent after the bootstrap of [agent_loop]. *)
Definition started : Machine :=
  snd (_initialize_sandbox_and_state policy (agent true) provisioning
         "scan the target" fresh_machine).

(** A budget of five iterations. *)
Definition short_budget : Machine :=
  mkMachine (State.fresh "agent-1" "StrixAgent" 5) None [].

(** A restored record that already holds the task as its first message. *)
Definition restored : AgentState :=
  State.with_messages [mkMessage "user" "scan the target"]
    (State.with_task "scan the target"
       (State.fresh "agent-1" "StrixAgent" 300)).


(** The collaborators of the constructor return; [AgentState] builds a
    fresh record with the budget it is given. *)
Definition collaborators : NewEnv :=
  mkNewEnv None
    (fun name budget =>
       match budget with
       | Some n => inl (State.fresh "agent-2" name n)
       | None => inr (Py.TypeError "max_iterations")
       end)
    None (fun _ => None).

Definition config_with (st : AgentState) : AgentConfig :=
  mkAgentConfig Absent Absent (Holds 50) Absent (Holds "model") (Holds st).

(** Three iterations before the critical threshold of a budget of forty,
    inside the near-limit zone, no warning sent yet. *)
Definition near_the_end : Machine :=
  mkMachine (State.with_iteration 36 (State.fresh "agent-1" "StrixAgent" 40))
    None [].

End Ex.

(* ================================================================== *)
(** ** Vocabulary of the further properties *)

(** The tool batch of a pass: the invocations of a response whose content
    is not blank. *)
Definition batch_of (env : PassEnv) : list Action :=
  match llm_outcome env with
  | Generated r =>
      if Py.truthy (Py.strip (get (resp_content r) ""))
      then get (tool_invocations r) []
      else []
  | GenerateRaises _ => []
  end.

(** [self._current_task] after the single-iteration step. *)
Definition handle_after (env : PassEnv) (before : option (list Action))
  : option (list Action) :=
  match batch_of env with
  | [] => before
  | batch =>
      match tool_outcome env with
      | TaskReturns _ => None
      | TaskRaises Py.CancelledError => None
      | TaskRaises _ => Some batch
      end
  end.

(** What the rest of a pass leaves alone once the single-iteration step is
    over, and what a pass that does not iterate leaves alone. *)
Definition tail_frame (m m' : Machine) : Prop :=
  iteration (state m') = iteration (state m)
  /\ actions (state m') = actions (state m)
  /\ current_task m' = current_task m
  /\ Log.count Log.is_generate (trace m')
     = Log.count Log.is_generate (trace m)
  /\ Log.count Log.is_dispatch (trace m')
     = Log.count Log.is_dispatch (trace m)
  /\ Log.count Log.is_set_messages (trace m')
     = Log.count Log.is_set_messages (trace m).

(** The error log and the action log only grow. *)
Definition append_only (m m' : Machine) : Prop :=
  exists es acts,
    errors (state m') = errors (state m) ++ es
    /\ actions (state m') = actions (state m) ++ acts.

(** Further surroundings used to exercise the statements. *)
Module Ex2.

(** The tool batch raises an exception the loop does not name. *)
Definition crashing_tool : PassEnv :=
  mkPassEnv 0
    (Generated (mkResponse (Some "done") (Some [Ex.finish_scan])))
    Ex.add_result (TaskRaises (Py.OtherException "KeyError" "'target'")).

(** The model only talks. *)
Definition talking : PassEnv :=
  mkPassEnv 0 (Generated (mkResponse (Some "thinking") None))
    (fun h => h) (TaskReturns false).

(** The tool batch returns without asking to finish. *)
Definition working : PassEnv :=
  mkPassEnv 0
    (Generated (mkResponse (Some "searching") (Some [Ex.finish_scan])))
    Ex.add_result (TaskReturns false).

(** The provisioner fails. *)
Definition no_sandbox : InitEnv :=
  mkInitEnv None (inr (Py.RuntimeError "docker is not running")).

Definition plain_config : AgentConfig :=
  mkAgentConfig Absent Absent (Holds 50) Absent (Holds "model") Absent.

(** A config whose [llm_config] key holds [None], and a class that has a
    default model configuration. *)
Definition none_config : AgentConfig :=
  mkAgentConfig Absent Absent Absent Absent HoldsNone Absent.

Definition defaulted_class : AgentClass :=
  mkClass "StrixAgent" 300 (Some "model").

(** [set_agent_identity] raises an [Exception]. *)
Definition unnamed : NewEnv :=
  mkNewEnv None (new_state Ex.collaborators)
    (Some (Py.RuntimeError "no identity")) (fun _ => None).

End Ex2.

(** Surroundings of the tools used to exercise the statements. *)
Module Ex3.

Definition tracer_ok : Finish.Env :=
  Finish.mkEnv (inr (Some (Finish.mkScanTracer None 2))).

Definition tracer_rejects : Finish.Env :=
  Finish.mkEnv
    (inr (Some (Finish.mkScanTracer (Some (Py.ValueError "bad report")) 0))).

Definition report : string := "  All checks done.  ".

End Ex3.

(** What the tracer side of [finish_scan] raises, if anything: the import
    of the tracer module, or [set_final_scan_result]. *)
Definition finish_raised (env : Finish.Env) : option Py.exn :=
  match Finish.tracer_module env with
  | inl e => Some e
  | inr (Some tracer) => Finish.set_final_scan_result tracer
  | inr None => None
  end.

(** A name made of letters, digits and underscores only. *)
Definition safe_chars (s : string) : bool :=
  forallb (fun c => Tool.is_alnum c || Ascii.eqb c "_"%char)
    (list_ascii_of_string s).

(** The items of a search that lead to a file: those with a markdown that
    is not empty. *)
Definition with_markdown (data : list WebSearch.Item) : list WebSearch.Item :=
  filter (fun item => Py.truthy (get (WebSearch.item_markdown item) "")) data.

Module Ex4.

Definition page (n : string) : WebSearch.Item :=
  WebSearch.mkItem (Some n) (Some ("https://example.org/" ++ n)%string)
    (Some ("# " ++ n)%string).

Definition empty_page : WebSearch.Item :=
  WebSearch.mkItem (Some "empty") None None.

Definition results : list WebSearch.Item :=
  [page "a"; empty_page; page "b"].

(** The first two requests fail, the third answers. *)
Definition flaky (n : nat) : WebSearch.Http :=
  match n with
  | 0%nat => WebSearch.HttpStatusError 502 "bad gateway"
  | 1%nat => WebSearch.HttpRaises (Py.OtherException "ConnectionError" "reset")
  | _ => WebSearch.HttpJson (WebSearch.mkSearchData true (Some results))
  end.

Definition env : WebSearch.Env :=
  WebSearch.mkEnv (Some "fc-key") None None None flaky true true
    (fun _ => inl (Some "summary")).

End Ex4.

(** What one request answers, whatever the query and the key, and whether
    the retry decorator follows it with another request. *)
Definition answer (h : WebSearch.Http) : WebSearch.SearchData + Py.exn :=
  snd (WebSearch.request "" "" h).

Definition attempt_fails (h : WebSearch.Http) : bool :=
  match answer h with
  | inr e => Tool.is_exception e
  | inl _ => false
  end.

(** The file [_save_scraped_data] writes for an item. *)
Definition file_of (item : WebSearch.Item) : string :=
  WebSearch.file_content (get (WebSearch.item_title item) "untitled")
    (get (WebSearch.item_url item) "no_url")
    (get (WebSearch.item_markdown item) "").

(** Counting the effects of the web search. *)
Definition ws_count (f : WebSearch.Event -> bool) (l : list WebSearch.Event)
  : nat :=
  List.length (filter f l).


Definition is_complete (e : WebSearch.Event) : bool :=
  match e with WebSearch.Complete _ => true | _ => false end.


(** The results a web search finds: with an API key, the data of a search
    that succeeded, when there is at least one result. *)
Definition found (env : WebSearch.Env) (query : string)
  : option (list WebSearch.Item) :=
  if Py.opt_truthy (WebSearch.FIRECRAWL_API_KEY env) then
    match snd (WebSearch._firecrawl_search query
                 (get (WebSearch.FIRECRAWL_API_KEY env) "")
                 (WebSearch.network env)) with
    | inl sd =>
        if WebSearch.sd_success sd then
          match WebSearch.sd_data sd with
          | Some (x :: l) => Some (x :: l)
          | _ => None
          end
        else None
    | inr _ => None
    end
  else None.

Arguments WebSearch.completion_kwargs : simpl never.
Arguments WebSearch._save_scraped_data : simpl never.
Arguments WebSearch._firecrawl_search : simpl never.


(* ================================================================== *)
(** * Properties *)

(** ** Strings *)

Lemma lstrip_chars_blank (l : list ascii) :
  forallb Py.isspace l = true -> Py.lstrip_chars l = [].
Proof.
  induction l as [|c r IH]; cbn; [reflexivity|].
  intros H. apply andb_true_iff in H as [Hc Hr].
  rewrite Hc. auto.
Qed.

Lemma strip_blank (s : string) :
  Py.whitespace_only s = true -> Py.strip s = "".
Proof.
  unfold Py.whitespace_only, Py.strip. intros H.
  rewrite (lstrip_chars_blank _ H). reflexivity.
Qed.

(** ** The call log *)

Lemma count_app (f : Event -> bool) (t u : list Event) :
  Log.count f (t ++ u) = (Log.count f t + Log.count f u)%nat.
Proof. unfold Log.count. rewrite filter_app, length_app. reflexivity. Qed.

(** ** Rules for [steps] *)

Section Steps.

Variable R : Machine -> Machine -> Prop.
Hypothesis R_refl : forall m, R m m.
Hypothesis R_trans : forall a b c, R a b -> R b c -> R a c.

Lemma steps_ret {A} (a : A) : steps R (ret a).
Proof. intros m. apply R_refl. Qed.

Lemma steps_raise {A} (e : Py.exn) : steps R (@raise A e).
Proof. intros m. apply R_refl. Qed.

Lemma steps_get_state : steps R get_state.
Proof. intros m. apply R_refl. Qed.

Lemma steps_bind {A B} (c : M A) (k : A -> M B) :
  steps R c -> (forall a, steps R (k a)) -> steps R (bind c k).
Proof.
  intros Hc Hk m. unfold bind.
  specialize (Hc m). destruct (c m) as [[a|e] m']; cbn in *.
  - eapply R_trans; [exact Hc | apply Hk].
  - exact Hc.
Qed.

Lemma steps_try_except {A} (c : M A) (h : Py.exn -> M A) :
  steps R c -> (forall e, steps R (h e)) -> steps R (try_except c h).
Proof.
  intros Hc Hh m. unfold try_except.
  specialize (Hc m). destruct (c m) as [[a|e] m']; cbn in *.
  - exact Hc.
  - eapply R_trans; [exact Hc | apply Hh].
Qed.

Lemma steps_when (b : bool) (c : M unit) :
  steps R c -> steps R (when b c).
Proof. intros Hc. destruct b; cbn; [exact Hc | apply steps_ret]. Qed.

Lemma steps_for_each {A} (l : list A) (body : A -> M unit) :
  (forall a, steps R (body a)) -> steps R (for_each l body).
Proof.
  intros Hb. induction l as [|a r IH]; cbn.
  - apply steps_ret.
  - apply steps_bind; [apply Hb | intros _; exact IH].
Qed.

End Steps.

(** ** Walking a computation, rule by rule *)

Ltac steps_walk Hrefl Htrans :=
  repeat first
    [ assumption
    | apply (steps_ret _ Hrefl)
    | apply (steps_raise _ Hrefl)
    | apply (steps_get_state _ Hrefl)
    | apply (steps_bind _ Htrans); [|intros ?]
    | apply (steps_try_except _ Htrans); [|intros ?]
    | apply (steps_when _ Hrefl)
    | apply (steps_for_each _ Hrefl Htrans); intros ?
    | progress unfold pass, pass_with, iteration_warnings, iteration_body,
        on_exception, _wait_for_input, _enter_waiting_state,
        _process_iteration, _execute_actions, _handle_iteration_error,
        _initialize_sandbox_and_state, notify_details, notify
    | match goal with
      | |- steps _ (if ?b then _ else _) => destruct b
      | |- steps _ (match ?x with _ => _ end) => destruct x
      end ].

Lemma keeps_refl I m : keeps I m m.
Proof. unfold keeps; auto. Qed.

Lemma keeps_trans I a b c : keeps I a b -> keeps I b c -> keeps I a c.
Proof. unfold keeps; auto. Qed.

(** ** Equations of the blocks *)

Lemma iterates_inv s :
  iterates s = true ->
  State.is_waiting_for_input s = false /\ State.should_stop s = false
  /\ State.llm_failed s = false.
Proof.
  unfold iterates. intros H.
  apply andb_true_iff in H as [H H3]. apply andb_true_iff in H as [H1 H2].
  repeat split; apply negb_true_iff; assumption.
Qed.

Lemma iteration_warnings_ok p m : fst (iteration_warnings p m) = Ok tt.
Proof.
  unfold iteration_warnings, bind, get_state, when; cbn.
  destruct (State.is_approaching_max_iterations p (state m)
            && negb (max_iterations_warning_sent (state m))); cbn;
    match goal with |- context [if ?b then _ else _] => destruct b end;
    reflexivity.
Qed.

(** An iterating pass is the [try] statement run after the counter has
    advanced and the warnings are in. *)
Lemma pass_with_iterating p tr self hook env m :
  iterates (state m) = true ->
  pass_with p tr self hook env m
  = try_except (iteration_body p tr self env) (on_exception p tr self hook env)
      (begun p m).
Proof.
  intros H. destruct (iterates_inv _ H) as (H1 & H2 & H3).
  unfold pass_with, begun. unfold bind at 1. unfold get_state at 1.
  cbv beta iota. rewrite H1, H2, H3.
  unfold bind at 1. cbn [call fst snd].
  unfold bind at 1.
  pose proof (iteration_warnings_ok p
    {| state := apply_call p IncrementIteration (state m);
       current_task := current_task m;
       trace := trace m ++ [EvState IncrementIteration] |}) as Hok.
  destruct (iteration_warnings p _) as [[[]|e] m2]; cbn in Hok; [|discriminate].
  reflexivity.
Qed.

Lemma for_each_add_action p (batch : list Action) m :
  for_each batch (fun a => call p (AddAction a)) m
  = (Ok tt,
     mkMachine (State.with_actions (actions (state m) ++ batch) (state m))
       (current_task m)
       (trace m ++ map (fun a => EvState (AddAction a)) batch)).
Proof.
  revert m. induction batch as [|a r IH]; intros [s ct t]; cbn.
  - destruct s; cbn. rewrite !app_nil_r. reflexivity.
  - unfold for_each; fold (@for_each Action). unfold bind. cbn. rewrite IH. cbn.
    rewrite <- !app_assoc. reflexivity.
Qed.

(** What the warnings leave alone. *)
Lemma begun_frame p m :
  status (state (begun p m)) = status (state m)
  /\ final_result (state (begun p m)) = final_result (state m)
  /\ errors (state (begun p m)) = errors (state m)
  /\ actions (state (begun p m)) = actions (state m)
  /\ iteration (state (begun p m)) = iteration (state m) + 1
  /\ max_iterations (state (begun p m)) = max_iterations (state m).
Proof.
  unfold begun, iteration_warnings, bind, get_state, when; cbn.
  destruct (State.is_approaching_max_iterations p _ && negb _); cbn;
    match goal with |- context [if ?b then _ else _] => destruct b end;
    cbn; auto 10.
Qed.

(** ** Invariant (b) of the state record *)

Lemma pass_keeps_completed_has_result p tr self env :
  steps (keeps completed_has_result) (pass p tr self env).
Proof.
  steps_walk (keeps_refl completed_has_result)
             (keeps_trans completed_has_result).
  all: intros m; unfold keeps, completed_has_result; cbn; congruence.
Qed.

Lemma bootstrap_keeps_completed_has_result p self ienv new_task :
  steps (keeps completed_has_result)
        (_initialize_sandbox_and_state p self ienv new_task).
Proof.
  steps_walk (keeps_refl completed_has_result)
             (keeps_trans completed_has_result).
  all: intros m; unfold keeps, completed_has_result; cbn;
    try destruct (sandbox_info (state m)); cbn; solve [auto | congruence].
Qed.

Lemma reachable_completed_has_result p tr self m0 m :
  completed_has_result (state m0) ->
  reachable_from p tr self m0 m ->
  completed_has_result (state m).
Proof.
  intros H0 Hr. induction Hr as [|m ienv t _ IH|m env _ IH].
  - exact H0.
  - exact (bootstrap_keeps_completed_has_result p self ienv t m IH).
  - exact (pass_keeps_completed_has_result p tr self env m IH).
Qed.

(** The path of a finishing tool batch in interactive mode. *)
Lemma finish_interactive p tr self env m r text batch :
  non_interactive self = false ->
  iterates (state m) = true ->
  llm_outcome env = Generated r ->
  resp_content r = Some text ->
  Py.truthy (Py.strip text) = true ->
  tool_invocations r = Some batch -> batch <> [] ->
  tool_outcome env = TaskReturns true ->
  exists m', pass p tr self env m = (Ok Continue, m')
    /\ status (state m') = WaitingForInput
    /\ final_result (state m') = Some success_result.
Proof.
  intros Hni Hit Hllm Hc Ht Hb Hne Htool.
  unfold pass. rewrite (pass_with_iterating _ _ _ _ _ _ Hit).
  generalize (begun p m). intros m1.
  destruct batch as [|a0 rest]; [congruence|].
  unfold try_except, iteration_body, _process_iteration, _execute_actions,
    _enter_waiting_state, bind.
  destruct tr; cbn.
  all: rewrite Hllm, Hc; cbn; rewrite Ht; cbn; rewrite Hb; cbn.
  all: rewrite for_each_add_action; cbn; rewrite Htool; cbn; rewrite Hni; cbn.
  all: eexists; split; [reflexivity|]; cbn; auto.
Qed.

(** The log of the start of an iterating pass. *)
Lemma begun_trace p m :
  trace (begun p m)
  = trace m ++ EvState IncrementIteration
      :: map EvState (warning_calls p (State.increment_iteration (state m))).
Proof.
  unfold begun, iteration_warnings, warning_calls, urgent_due, critical_due,
    bind, get_state, when; cbn.
  destruct (State.is_approaching_max_iterations p _ && negb _); cbn;
    match goal with |- context [if ?b then _ else _] => destruct b end;
    cbn; rewrite <- ?app_assoc; reflexivity.
Qed.

(** ** The result and the completed status *)

Ltac steps_walk_in_mode Hmode Hrefl Htrans :=
  repeat first
    [ assumption
    | apply (steps_ret _ Hrefl)
    | apply (steps_raise _ Hrefl)
    | apply (steps_get_state _ Hrefl)
    | apply (steps_bind _ Htrans); [|intros ?]
    | apply (steps_try_except _ Htrans); [|intros ?]
    | apply (steps_when _ Hrefl)
    | apply (steps_for_each _ Hrefl Htrans); intros ?
    | progress unfold pass, pass_with, iteration_warnings, iteration_body,
        on_exception, _wait_for_input, _enter_waiting_state,
        _process_iteration, _execute_actions, _handle_iteration_error,
        _initialize_sandbox_and_state, notify_details, notify
    | rewrite Hmode; cbv iota
    | match goal with
      | |- steps _ (if ?b then _ else _) => destruct b
      | |- steps _ (match ?x with _ => _ end) => destruct x
      end ].

Lemma completes_refl m : completes m m.
Proof. left. split; reflexivity. Qed.

Lemma completes_trans a b c : completes a b -> completes b c -> completes a c.
Proof.
  unfold completes. intros [[H1 H2]|[H1 H2]] [[G1 G2]|[G1 G2]].
  - left. split; congruence.
  - right. split; assumption.
  - right. split; congruence.
  - right. split; assumption.
Qed.

Lemma sets_success_refl m : sets_success m m.
Proof. left. reflexivity. Qed.

Lemma sets_success_trans a b c :
  sets_success a b -> sets_success b c -> sets_success a c.
Proof.
  unfold sets_success. intros [H|H] [G|G]; [left|right|right|right];
    congruence.
Qed.

Lemma same_result_refl m : same_result m m.
Proof. split; reflexivity. Qed.

Lemma same_result_trans a b c :
  same_result a b -> same_result b c -> same_result a c.
Proof. unfold same_result. intros [H1 H2] [G1 G2]. split; congruence. Qed.

Lemma bootstrap_same_result p self ienv new_task :
  steps same_result (_initialize_sandbox_and_state p self ienv new_task).
Proof.
  steps_walk same_result_refl same_result_trans.
  all: intros m; unfold same_result; cbn;
    try destruct (sandbox_info (state m)); cbn; split; reflexivity.
Qed.

(** In non-interactive mode the iterating part of a pass touches the
    result and the status through [set_completed] only. *)
Lemma iterating_completes p tr self env :
  non_interactive self = true ->
  steps completes
    (try_except (iteration_body p tr self env)
       (on_exception p tr self (_handle_iteration_error p tr) env)).
Proof.
  intros Hni.
  steps_walk_in_mode Hni completes_refl completes_trans.
  all: intros m; unfold completes; cbn;
    first [ left; split; reflexivity
          | right; split; [reflexivity | discriminate] ].
Qed.

Lemma pass_keeps_result_only_completed p tr self env m :
  non_interactive self = true ->
  result_only_completed (state m) ->
  result_only_completed (state (snd (pass p tr self env m))).
Proof.
  intros Hni HJ.
  destruct (iterates (state m)) eqn:Hit.
  - unfold pass. rewrite (pass_with_iterating _ _ _ _ _ _ Hit).
    destruct (begun_frame p m) as (Hs & Hf & _).
    destruct (iterating_completes p tr self env Hni (begun p m))
      as [[H1 H2]|[H1 H2]].
    + unfold result_only_completed in *. rewrite H1, H2, Hf, Hs. exact HJ.
    + intros _. exact H1.
  - unfold pass, pass_with. unfold bind at 1. unfold get_state at 1.
    cbv beta iota. unfold iterates in Hit.
    unfold result_only_completed in *.
    unfold State.is_waiting_for_input, State.should_stop, State.llm_failed
      in *.
    destruct (status (state m)) eqn:Hst; cbn in Hit; try discriminate Hit;
      cbn [Status_eqb orb]; cbv iota.
    + (* waiting *)
      assert (Hn : final_result (state m) = None).
      { destruct (final_result (state m)); [|reflexivity].
        assert (E : WaitingForInput = Completed) by (apply HJ; discriminate).
        discriminate E. }
      unfold _wait_for_input, bind, get_state, notify.
      destruct (State.has_waiting_timeout (now env) (state m)), tr; cbn;
        rewrite ?Hn; intros H; try (exfalso; apply H; reflexivity).
    + (* the backend had failed *)
      assert (Hn : final_result (state m) = None).
      { destruct (final_result (state m)); [|reflexivity].
        assert (E : LLMFailed = Completed) by (apply HJ; discriminate).
        discriminate E. }
      unfold _wait_for_input, bind, get_state, notify.
      destruct (State.has_waiting_timeout (now env) (state m)), tr; cbn;
        rewrite ?Hn; intros H; try (exfalso; apply H; reflexivity).
    + rewrite Hni. cbn. rewrite Hst. intros _. reflexivity.
    + rewrite Hni. cbn. rewrite Hst. exact HJ.
Qed.

(** A non-interactive pass on a completed record returns and changes
    nothing. *)
Lemma completed_pass_is_idle p tr self env m :
  non_interactive self = true ->
  status (state m) = Completed ->
  snd (pass p tr self env m) = m.
Proof.
  intros Hni Hst. unfold pass, pass_with. unfold bind at 1.
  unfold get_state at 1. cbv beta iota.
  unfold State.is_waiting_for_input, State.should_stop. rewrite Hst. cbn.
  rewrite Hni. reflexivity.
Qed.

(** In interactive mode a pass sets no other result than the success
    payload. *)
Lemma pass_sets_success p tr self env :
  non_interactive self = false ->
  steps sets_success (pass p tr self env).
Proof.
  intros Hi.
  steps_walk_in_mode Hi sets_success_refl sets_success_trans.
  all: intros m; unfold sets_success; cbn;
    first [ left; reflexivity | right; reflexivity ].
Qed.

Lemma reachable_result_only_completed p tr self m0 m :
  non_interactive self = true ->
  result_only_completed (state m0) ->
  reachable_from p tr self m0 m ->
  result_only_completed (state m).
Proof.
  intros Hni H0 Hr. induction Hr as [|m ienv t _ IH|m env _ IH].
  - exact H0.
  - destruct (bootstrap_same_result p self ienv t m) as [Hf Hs].
    unfold result_only_completed in *. rewrite Hf, Hs. exact IH.
  - exact (pass_keeps_result_only_completed p tr self env m Hni IH).
Qed.

Lemma reachable_unset_or_success p tr self m0 m :
  non_interactive self = false ->
  unset_or_success (state m0) ->
  reachable_from p tr self m0 m ->
  unset_or_success (state m).
Proof.
  intros Hi H0 Hr. induction Hr as [|m ienv t _ IH|m env _ IH].
  - exact H0.
  - destruct (bootstrap_same_result p self ienv t m) as [Hf Hs].
    unfold unset_or_success in *. rewrite Hf. exact IH.
  - destruct (pass_sets_success p tr self env Hi m) as [H|H];
      unfold unset_or_success in *; [rewrite H; exact IH | right; exact H].
Qed.

(** Once the record holds a result, no bootstrap and no pass changes it. *)
Lemma result_is_settled p tr self m m' r :
  (if non_interactive self then result_only_completed (state m)
   else unset_or_success (state m)) ->
  reachable_from p tr self m m' ->
  final_result (state m) = Some r ->
  final_result (state m') = Some r.
Proof.
  intros HJ Hr Hf.
  destruct (non_interactive self) eqn:Hni.
  - assert (G : final_result (state m') = Some r
                /\ status (state m') = Completed).
    { induction Hr as [|m1 ienv t _ IH|m1 env _ IH].
      - split; [exact Hf|]. apply HJ. rewrite Hf. discriminate.
      - destruct (bootstrap_same_result p self ienv t m1) as [H1 H2].
        rewrite H1, H2. exact IH.
      - destruct IH as [IH1 IH2].
        rewrite (completed_pass_is_idle p tr self env m1 Hni IH2).
        split; assumption. }
    exact (proj1 G).
  - assert (Hr0 : r = success_result).
    { destruct HJ as [H|H]; congruence. }
    induction Hr as [|m1 ienv t _ IH|m1 env _ IH].
    + exact Hf.
    + destruct (bootstrap_same_result p self ienv t m1) as [H1 _].
      rewrite H1. exact IH.
    + destruct (pass_sets_success p tr self env Hni m1) as [H|H];
        rewrite H; [exact IH | congruence].
Qed.

(** C1 (amended).  In every machine an agent reaches, in either mode, from
    a state record where a completed status comes with a result,
    [status == Completed] implies that [final_result] is set.  In
    non-interactive mode the equivalence holds in full: from a record
    where [final_result] is set exactly when the status is [Completed],
    every machine the agent reaches has [final_result] set exactly when its
    status is [Completed].  In interactive mode the converse is not kept:
    when a tool batch signals finish, the pass ends in the waiting state
    with [final_result] still set to the success payload. *)
Theorem final_result_iff_completed_non_interactive p tr self m0 m :
  reachable_from p tr self m0 m ->
  (completed_has_result (state m0) -> completed_has_result (state m))
  /\ (non_interactive self = true ->
      (final_result (state m0) <> None <-> status (state m0) = Completed) ->
      (final_result (state m) <> None <-> status (state m) = Completed))
  /\ (forall env r text batch,
         non_interactive self = false ->
         iterates (state m) = true ->
         llm_outcome env = Generated r ->
         resp_content r = Some text ->
         Py.truthy (Py.strip text) = true ->
         tool_invocations r = Some batch -> batch <> [] ->
         tool_outcome env = TaskReturns true ->
         exists m', pass p tr self env m = (Ok Continue, m')
           /\ status (state m') = WaitingForInput
           /\ final_result (state m') = Some success_result).
Proof.
  intros Hr. split; [|split].
  - intros H0. exact (reachable_completed_has_result p tr self m0 m H0 Hr).
  - intros Hni [H1 H2]. split.
    + exact (reachable_result_only_completed p tr self m0 m Hni H1 Hr).
    + exact (reachable_completed_has_result p tr self m0 m H2 Hr).
  - intros env r text batch. apply finish_interactive.
Qed.

Lemma final_result_iff_completed_non_interactive_witness :
  status
    (state (snd (pass Ex.policy None (Ex.agent true) Ex.finishing
                   Ex.started)))
  = Completed
  /\ (final_result
        (state (snd (pass Ex.policy None (Ex.agent true) Ex.finishing
                       Ex.started)))
      <> None
      <-> status
            (state (snd (pass Ex.policy None (Ex.agent true) Ex.finishing
                           Ex.started)))
          = Completed)
  /\ exists m',
      pass Ex.policy None (Ex.agent false) Ex.finishing Ex.fresh_machine
      = (Ok Continue, m')
      /\ status (state m') = WaitingForInput
      /\ final_result (state m') = Some success_result.
Proof.
  split; [reflexivity|]. split.
  - refine (proj1 (proj2 (final_result_iff_completed_non_interactive
                            Ex.policy None (Ex.agent true) Ex.fresh_machine
                            _ (reach_pass _ _ _ _ _ Ex.finishing
                                 (reach_bootstrap _ _ _ _ _ Ex.provisioning
                                    "scan the target"
                                    (reach_start _ _ _ _)))))
              eq_refl _).
    split; intros H; [exfalso; apply H; reflexivity | discriminate H].
  - refine (proj2 (proj2 (final_result_iff_completed_non_interactive
                            Ex.policy None (Ex.agent false) Ex.fresh_machine
                            Ex.fresh_machine (reach_start _ _ _ _)))
              Ex.finishing _ "done" [Ex.finish_scan] _ _ _ _ _ _ _ _);
      try reflexivity.
    discriminate.
Defined.

(** C1, as stated, fails on the machine a fresh interactive agent is in
    after [agent_loop] has bootstrapped it and run one pass in which the
    tool batch signals finish: the result is set and the status is not
    [Completed]. *)
Lemma final_result_iff_completed_counterexample :
  exists m,
    m = snd (agent_loop Ex.policy None (Ex.agent false) Ex.provisioning
               "scan the target" [Ex.finishing] Ex.fresh_machine)
    /\ reachable_from Ex.policy None (Ex.agent false) Ex.fresh_machine m
    /\ ~ (final_result (state m) <> None <-> status (state m) = Completed).
Proof.
  exists (snd (pass Ex.policy None (Ex.agent false) Ex.finishing
                 (snd (_initialize_sandbox_and_state Ex.policy
                         (Ex.agent false) Ex.provisioning "scan the target"
                         Ex.fresh_machine)))).
  split; [vm_compute; reflexivity|]. split.
  - apply reach_pass, reach_bootstrap, reach_start.
  - vm_compute. intros [H _].
    assert (E : WaitingForInput = Completed) by (apply H; discriminate).
    discriminate E.
Qed.

(** An iterating pass whose single-iteration step raises runs the matching
    [except] clause on the machine the step left. *)
Lemma pass_with_raised p tr self hook env m e m2 :
  iterates (state m) = true ->
  _process_iteration p tr env (begun p m) = (Raised e, m2) ->
  pass_with p tr self hook env m = on_exception p tr self hook env e m2.
Proof.
  intros Hit Hstep. rewrite (pass_with_iterating _ _ _ _ _ _ Hit).
  unfold try_except, iteration_body. unfold bind at 1. rewrite Hstep.
  reflexivity.
Qed.

Lemma handle_iteration_error_eq p tr e m :
  _handle_iteration_error p tr e m
  = (Ok true,
     mkMachine (State.add_error (iteration_error_msg (state m) e) (state m))
       (current_task m)
       (trace m ++ EvLog (iteration_error_msg (state m) e)
          :: EvState (AddError (iteration_error_msg (state m) e))
          :: match tr with
             | Some _ =>
                 [EvTracer (UpdateAgentStatus (agent_id (state m)) "error"
                              None)]
             | None => []
             end)).
Proof.
  unfold _handle_iteration_error, bind, notify; destruct tr; cbn;
    rewrite <- ?app_assoc; reflexivity.
Qed.

(** C2 (amended).  When the single-iteration step raises a [RuntimeError],
    a [ValueError] or a [TypeError], the recovery hook runs first and, in
    both modes, records "Error in iteration N: <message>" in the error log
    before anything else.  The hook of [BaseAgent] reports the error as
    handled, so the pass ends by continuing the loop with the record
    otherwise as the step left it: nothing is marked failed, nothing is
    raised, no waiting state is entered.  Only under a hook that reports
    the error as not handled does the non-interactive agent mark the run
    completed with failure and re-raise, and the interactive agent enter
    the waiting state with the error notice. *)
Theorem recoverable_error_recorded_hook_decides p tr self env m e m2 :
  iterates (state m) = true ->
  recoverable e = true ->
  _process_iteration p tr env (begun p m) = (Raised e, m2) ->
  (exists m3,
      pass p tr self env m = (Ok Continue, m3)
      /\ state m3 = State.add_error (iteration_error_msg (state m2) e) (state m2)
      /\ trace m3
         = trace m2 ++ EvLog (iteration_error_msg (state m2) e)
             :: EvState (AddError (iteration_error_msg (state m2) e))
             :: match tr with
                | Some _ =>
                    [EvTracer (UpdateAgentStatus (agent_id (state m2)) "error"
                                 None)]
                | None => []
                end)
  /\ (forall hook m',
         hook e m2 = (Ok false, m') ->
         exists m3,
           pass_with p tr self hook env m
           = (if non_interactive self then Raised e else Ok Continue, m3)
           /\ state m3
              = (if non_interactive self
                 then State.set_completed (failure_result (Py.str e))
                        (state m')
                 else State.add_message "assistant" error_notice
                        (State.enter_waiting_state p (now env) false
                           (state m')))).
Proof.
  intros Hit Hrec Hstep. split.
  - unfold pass. rewrite (pass_with_raised _ _ _ _ _ _ _ _ Hit Hstep).
    destruct e; try discriminate Hrec;
      unfold on_exception, bind; rewrite handle_iteration_error_eq; cbn;
      (eexists; split; [reflexivity|]; cbn; auto).
  - intros hook m' Hhook.
    rewrite (pass_with_raised _ _ _ _ _ _ _ _ Hit Hstep).
    destruct e; try discriminate Hrec;
      unfold on_exception, _enter_waiting_state, bind, notify; rewrite Hhook;
      destruct (non_interactive self), tr; cbn;
      eexists; split; reflexivity.
Qed.

Lemma recoverable_error_recorded_hook_decides_witness :
  iterates (state Ex.fresh_machine) = true
  /\ recoverable (Py.ValueError "boom") = true
  /\ exists m3,
      pass Ex.policy None (Ex.agent true) Ex.failing_tool Ex.fresh_machine
      = (Ok Continue, m3)
      /\ errors (state m3) = ["Error in iteration 1: boom"].
Proof.
  split; [reflexivity|]. split; [reflexivity|].
  destruct (proj1 (recoverable_error_recorded_hook_decides Ex.policy None
                     (Ex.agent true) Ex.failing_tool Ex.fresh_machine
                     (Py.ValueError "boom")
                     (snd (_process_iteration Ex.policy None Ex.failing_tool
                             (begun Ex.policy Ex.fresh_machine)))
                     eq_refl eq_refl eq_refl))
    as (m3 & Hp & Hs & _).
  exists m3. split; [exact Hp|]. rewrite Hs. reflexivity.
Defined.

(** C2, as stated, fails when the tool batch of a bootstrapped agent
    raises a [ValueError]: the non-interactive pass neither raises nor
    marks the run failed, and the interactive pass does not enter the
    waiting state; both continue the loop. *)
Lemma recoverable_error_terminal_counterexample :
  fst (_process_iteration Ex.policy None Ex.failing_tool
         (begun Ex.policy Ex.started))
  = Raised (Py.ValueError "boom")
  /\ fst (pass Ex.policy None (Ex.agent true) Ex.failing_tool Ex.started)
     = Ok Continue
  /\ status (state (snd (pass Ex.policy None (Ex.agent true)
                           Ex.failing_tool Ex.started))) = Running
  /\ final_result (state (snd (pass Ex.policy None (Ex.agent true)
                                 Ex.failing_tool Ex.started))) = None
  /\ fst (pass Ex.policy None (Ex.agent false) Ex.failing_tool Ex.started)
     = Ok Continue
  /\ status (state (snd (pass Ex.policy None (Ex.agent false)
                           Ex.failing_tool Ex.started))) = Running.
Proof. vm_compute. repeat split. Qed.

Lemma count_nil (f : Event -> bool) : Log.count f [] = 0%nat.
Proof. reflexivity. Qed.

Lemma count_cons (f : Event -> bool) e t :
  Log.count f (e :: t) = ((if f e then 1 else 0) + Log.count f t)%nat.
Proof. unfold Log.count. cbn. destruct (f e); reflexivity. Qed.

Lemma count_add_actions f (batch : list Action) :
  (forall a, f (EvState (AddAction a)) = false) ->
  Log.count f (map (fun a => EvState (AddAction a)) batch) = 0%nat.
Proof.
  intros Hf. unfold Log.count.
  induction batch as [|a r IH]; cbn; [reflexivity|].
  rewrite Hf. exact IH.
Qed.

Ltac count_norm :=
  repeat first
    [ rewrite count_app
    | rewrite count_cons
    | rewrite count_nil
    | rewrite (count_add_actions _ _ (fun _ => eq_refl)) ].

Lemma count_begun f p m :
  f (EvState IncrementIteration) = false ->
  f (EvState (SetWarningSent true)) = false ->
  (forall c, f (EvState (AddMessage "user" c)) = false) ->
  Log.count f (trace (begun p m)) = Log.count f (trace m).
Proof.
  intros H1 H2 H3. rewrite begun_trace, count_app, count_cons, H1.
  unfold warning_calls.
  destruct (urgent_due p _), (critical_due _); cbn;
    rewrite ?count_cons, ?count_nil, ?H1, ?H2, ?H3; lia.
Qed.

Lemma loop_cons p tr self env rest m :
  loop p tr self (env :: rest) m
  = match pass p tr self env m with
    | (Ok Continue, m') => loop p tr self rest m'
    | (Ok (Return x), m') => (Ok (Some x), m')
    | (Raised e, m') => (Raised e, m')
    end.
Proof.
  change (loop p tr self (env :: rest) m)
    with (bind (pass p tr self env)
            (fun ctl => match ctl with
                        | Continue => loop p tr self rest
                        | Return x => ret (Some x)
                        end) m).
  unfold bind.
  destruct (pass p tr self env m) as [[[|x]|e] m']; reflexivity.
Qed.

Lemma cancelled_pass p tr self env m r text batch :
  iterates (state m) = true ->
  llm_outcome env = Generated r ->
  resp_content r = Some text ->
  Py.truthy (Py.strip text) = true ->
  tool_invocations r = Some batch -> batch <> [] ->
  tool_outcome env = TaskRaises Py.CancelledError ->
  exists m',
    pass p tr self env m
    = (if non_interactive self then Raised Py.CancelledError else Ok Continue,
       m')
    /\ status (state m')
       = (if non_interactive self then status (state m) else WaitingForInput)
    /\ messages (state m')
       = messages (state (begun p m))
           ++ mkMessage "assistant" text
           :: (if non_interactive self then []
               else [mkMessage "assistant" cancelled_notice])
    /\ errors (state m') = errors (state m) ++ [cancelled_error]
    /\ Log.count Log.is_set_messages (trace m')
       = Log.count Log.is_set_messages (trace m)
    /\ Log.count Log.is_dispatch (trace m')
       = S (Log.count Log.is_dispatch (trace m)).
Proof.
  intros Hit Hllm Hc Ht Hb Hne Htool.
  destruct (begun_frame p m) as (Hst & _ & Herr & _).
  pose proof (count_begun Log.is_set_messages p m eq_refl eq_refl
                (fun _ => eq_refl)) as Hsm.
  pose proof (count_begun Log.is_dispatch p m eq_refl eq_refl
                (fun _ => eq_refl)) as Hdp.
  unfold pass.
  rewrite (pass_with_iterating _ _ _ _ _ _ Hit).
  revert Hst Herr Hsm Hdp. generalize (begun p m). intros m1 Hst Herr Hsm Hdp.
  destruct batch as [|a0 rest]; [congruence|].
  unfold try_except, iteration_body, _process_iteration, _execute_actions,
    on_exception, _enter_waiting_state, bind.
  destruct tr; cbn.
  all: rewrite Hllm, Hc; cbn; rewrite Ht; cbn; rewrite Hb; cbn.
  all: rewrite for_each_add_action; cbn; rewrite Htool; cbn.
  all: destruct (non_interactive self); cbn.
  all: eexists; split; [reflexivity|]; cbn.
  all: count_norm; cbn; rewrite <- ?app_assoc, ?Herr, ?Hsm, ?Hdp, ?Hst; cbn.
  all: repeat split; try reflexivity; try lia.
Qed.

(** C3.  When the tool batch of an iterating pass is cancelled while in
    flight, whatever it had written to the history it was handed, the
    stored history is the one before the dispatch (the warnings of the
    pass and the assistant turn) with, in interactive mode, the
    cancellation notice after it: no assignment to [messages] is logged.
    Exactly one record, "Tool execution cancelled by user", is appended
    to the error log.  The cancellation reaches the loop, which raises it
    in non-interactive mode and enters the waiting state in interactive
    mode. *)
Theorem cancelled_batch_commits_nothing p tr self env m r text batch :
  iterates (state m) = true ->
  llm_outcome env = Generated r ->
  resp_content r = Some text ->
  Py.truthy (Py.strip text) = true ->
  tool_invocations r = Some batch -> batch <> [] ->
  tool_outcome env = TaskRaises Py.CancelledError ->
  exists m',
    pass p tr self env m
    = (if non_interactive self then Raised Py.CancelledError else Ok Continue,
       m')
    /\ (non_interactive self = true ->
        forall rest,
          loop p tr self (env :: rest) m = (Raised Py.CancelledError, m'))
    /\ (non_interactive self = false -> status (state m') = WaitingForInput)
    /\ messages (state m')
       = messages (state (begun p m))
           ++ mkMessage "assistant" text
           :: (if non_interactive self then []
               else [mkMessage "assistant" cancelled_notice])
    /\ errors (state m') = errors (state m) ++ [cancelled_error]
    /\ Log.count Log.is_set_messages (trace m')
       = Log.count Log.is_set_messages (trace m)
    /\ Log.count Log.is_dispatch (trace m')
       = S (Log.count Log.is_dispatch (trace m)).
Proof.
  intros Hit Hllm Hc Ht Hb Hne Htool.
  destruct (cancelled_pass p tr self env m r text batch Hit Hllm Hc Ht Hb Hne
              Htool) as (m' & Hp & Hst & Hmsg & Herr & Hsm & Hdp).
  exists m'. repeat split; try assumption.
  - intros Hni rest. rewrite loop_cons, Hp, Hni. reflexivity.
  - intros Hni. rewrite Hst, Hni. reflexivity.
Qed.



Lemma finish_non_interactive p tr self env m r text batch :
  non_interactive self = true ->
  iterates (state m) = true ->
  llm_outcome env = Generated r ->
  resp_content r = Some text ->
  Py.truthy (Py.strip text) = true ->
  tool_invocations r = Some batch -> batch <> [] ->
  tool_outcome env = TaskReturns true ->
  exists m',
    pass p tr self env m = (Ok (Return success_result), m')
    /\ status (state m') = Completed
    /\ final_result (state m') = Some success_result
    /\ Log.count Log.is_set_completed (trace m')
       = S (S (Log.count Log.is_set_completed (trace m))).
Proof.
  intros Hni Hit Hllm Hc Ht Hb Hne Htool.
  pose proof (count_begun Log.is_set_completed p m eq_refl eq_refl
                (fun _ => eq_refl)) as Hsc.
  unfold pass. rewrite (pass_with_iterating _ _ _ _ _ _ Hit).
  revert Hsc. generalize (begun p m). intros m1 Hsc.
  destruct batch as [|a0 rest]; [congruence|].
  unfold try_except, iteration_body, _process_iteration, _execute_actions,
    bind.
  destruct tr; cbn.
  all: rewrite Hllm, Hc; cbn; rewrite Ht; cbn; rewrite Hb; cbn.
  all: rewrite for_each_add_action; cbn; rewrite Htool; cbn; rewrite Hni; cbn.
  all: eexists; split; [reflexivity|]; cbn.
  all: count_norm; cbn; rewrite ?Hsc; repeat split; lia.
Qed.

(** ** The budget warnings *)

Lemma within_budget_refl m : within_budget m m.
Proof. unfold within_budget; lia. Qed.

Lemma within_budget_trans a b c :
  within_budget a b -> within_budget b c -> within_budget a c.
Proof. unfold within_budget; lia. Qed.

Lemma warning_msg_urgent s :
  Log.is_urgent_warning (EvState (AddMessage "user" (warning_msg s))) = true.
Proof. reflexivity. Qed.

Lemma iteration_warnings_within_budget p :
  steps within_budget (iteration_warnings p).
Proof.
  intros m. unfold within_budget, urgent_budget, iteration_warnings, bind,
    get_state, when. cbn.
  destruct (max_iterations_warning_sent (state m)) eqn:Hflag;
    destruct (State.is_approaching_max_iterations p (state m)); cbn;
    match goal with |- context [if ?b then _ else _] => destruct b end; cbn;
    rewrite ?Hflag; count_norm; rewrite ?warning_msg_urgent; cbn; lia.
Qed.

Ltac budget_leaf :=
  intros m; unfold within_budget, urgent_budget; cbn;
  try destruct (sandbox_info (state m)); cbn;
  count_norm; cbn;
  destruct (max_iterations_warning_sent (state m)); lia.

Lemma pass_within_budget p tr self env :
  steps within_budget (pass p tr self env).
Proof.
  pose proof (iteration_warnings_within_budget p) as Hw.
  steps_walk within_budget_refl within_budget_trans.
  all: budget_leaf.
Qed.

Lemma passes_within_budget p tr self envs m :
  (urgent_budget (passes p tr self envs m) <= urgent_budget m)%nat.
Proof.
  revert m. induction envs as [|env rest IH]; intros m.
  - apply Nat.le_refl.
  - change (passes p tr self (env :: rest) m)
      with (passes p tr self rest (snd (pass p tr self env m))).
    specialize (IH (snd (pass p tr self env m))).
    pose proof (pass_within_budget p tr self env m) as H.
    unfold within_budget in H. lia.
Qed.

(** The loop goes through a prefix of the passes it is given. *)
Lemma loop_is_passes p tr self envs m :
  exists k, snd (loop p tr self envs m) = passes p tr self (firstn k envs) m.
Proof.
  revert m. induction envs as [|env rest IH]; intros m.
  - exists 0%nat. reflexivity.
  - rewrite loop_cons.
    destruct (pass p tr self env m) as [[[|x]|e] m'] eqn:Hp.
    + destruct (IH m') as [k Hk]. exists (S k).
      change (passes p tr self (firstn (S k) (env :: rest)) m)
        with (passes p tr self (firstn k rest) (snd (pass p tr self env m))).
      rewrite Hp. exact Hk.
    + exists 1%nat.
      change (passes p tr self (firstn 1 (env :: rest)) m)
        with (snd (pass p tr self env m)).
      rewrite Hp. reflexivity.
    + exists 1%nat.
      change (passes p tr self (firstn 1 (env :: rest)) m)
        with (snd (pass p tr self env m)).
      rewrite Hp. reflexivity.
Qed.

Lemma same_count_refl f m : same_count f m m.
Proof. reflexivity. Qed.

Lemma same_count_trans f a b c :
  same_count f a b -> same_count f b c -> same_count f a c.
Proof. unfold same_count; congruence. Qed.

Ltac count_leaf :=
  intros m; unfold same_count; cbn; count_norm; cbn; lia.

Lemma try_keeps_critical p tr self env :
  steps (same_count Log.is_critical_warning)
    (try_except (iteration_body p tr self env)
       (on_exception p tr self (_handle_iteration_error p tr) env)).
Proof.
  steps_walk (same_count_refl Log.is_critical_warning)
             (same_count_trans Log.is_critical_warning).
  all: count_leaf.
Qed.

Lemma begun_critical p m :
  Log.count Log.is_critical_warning (trace (begun p m))
  = (Log.count Log.is_critical_warning (trace m)
     + (if (iteration (state m) + 1 =? max_iterations (state m) - 3)%Z
        then 1 else 0))%nat.
Proof.
  rewrite begun_trace. unfold warning_calls, critical_due.
  destruct (urgent_due p _); cbn;
    destruct (iteration (state m) + 1 =? max_iterations (state m) - 3);
    cbn; count_norm; cbn; lia.
Qed.

(** ** The result is set by [set_completed] only *)

Lemma replay_app p d1 d2 s :
  replay p (d1 ++ d2) s = replay p d2 (replay p d1 s).
Proof. unfold replay. apply fold_left_app. Qed.

Lemma logged_refl p m : logged p m m.
Proof. exists []. rewrite app_nil_r. split; reflexivity. Qed.

Lemma logged_trans p a b c : logged p a b -> logged p b c -> logged p a c.
Proof.
  intros (d1 & Ht1 & Hs1) (d2 & Ht2 & Hs2). exists (d1 ++ d2).
  rewrite Ht2, Ht1, Hs2, Hs1, replay_app, app_assoc. split; reflexivity.
Qed.

Ltac logged_leaf :=
  intros m; cbn;
  first [ eexists [_]; split; reflexivity
        | exists []; rewrite app_nil_r; split; reflexivity ].

Lemma pass_logged p tr self env : steps (logged p) (pass p tr self env).
Proof.
  steps_walk (logged_refl p) (logged_trans p).
  all: logged_leaf.
Qed.

Lemma final_result_apply_call p c s :
  final_result (apply_call p c s)
  = match c with SetCompleted r => Some r | _ => final_result s end.
Proof. destruct c; cbn; try reflexivity. destruct (sandbox_info s); reflexivity. Qed.

Lemma final_result_replay p d s :
  final_result (replay p d s) = last_completed d (final_result s).
Proof.
  unfold replay, last_completed.
  revert s. induction d as [|e d IH]; intros s; [reflexivity|].
  cbn [fold_left]. rewrite IH. destruct e as [c| | | | | |]; try reflexivity.
  rewrite final_result_apply_call. destruct c; reflexivity.
Qed.

(** The single-iteration step sets the result exactly when it asks to
    finish, and then to the success payload. *)
Lemma process_iteration_result p tr env m :
  match fst (_process_iteration p tr env m) with
  | Ok true =>
      status (state (snd (_process_iteration p tr env m))) = Completed
      /\ final_result (state (snd (_process_iteration p tr env m)))
         = Some success_result
  | _ => same_result m (snd (_process_iteration p tr env m))
  end.
Proof.
  destruct env as [now0 llm hist tool].
  destruct llm as [[[text|] invs]|e0].
  - destruct (Py.truthy (Py.strip text)) eqn:Htext.
    + destruct invs as [[|a0 rest]|].
      2: destruct tool as [[|]|e1]; [| |destruct e1].
      all: destruct tr; unfold _process_iteration, _execute_actions, notify,
             try_except, bind, same_result; cbn; rewrite Htext; cbn;
           rewrite ?for_each_add_action; cbn; split; reflexivity.
    + unfold _process_iteration, bind, same_result; cbn; rewrite Htext; cbn.
      split; reflexivity.
  - unfold _process_iteration, bind, same_result; cbn. split; reflexivity.
  - unfold _process_iteration, bind, same_result; cbn. split; reflexivity.
Qed.

(** A pass that changes the result leaves the agent completed in
    non-interactive mode and waiting in interactive mode. *)
Lemma pass_that_sets_result p tr self env m :
  final_result (state (snd (pass p tr self env m)))
  <> final_result (state m) ->
  final_result (state (snd (pass p tr self env m))) <> None
  /\ status (state (snd (pass p tr self env m)))
     = if non_interactive self then Completed else WaitingForInput.
Proof.
  set (res := pass p tr self env m).
  assert (Hres : res = pass p tr self env m) by reflexivity.
  clearbody res.
  destruct (iterates (state m)) eqn:Hit.
  - unfold pass in Hres. rewrite (pass_with_iterating _ _ _ _ _ _ Hit) in Hres.
    destruct (begun_frame p m) as (_ & Hf & _). rewrite <- Hf.
    revert Hres. generalize (begun p m). intros m1 Hres.
    pose proof (process_iteration_result p tr env m1) as HP.
    unfold try_except, iteration_body in Hres. unfold bind at 1 in Hres.
    destruct (_process_iteration p tr env m1) as [[[|]|e] m2];
      cbn [fst snd] in HP.
    + destruct HP as [Hs Hr].
      unfold _enter_waiting_state, notify, bind in Hres. revert Hres.
      destruct (non_interactive self), tr; cbn; intros ->; cbn;
        rewrite ?Hr; intros _; (split; [discriminate | reflexivity]).
    + destruct HP as [Hr Hs]. cbn in Hres. subst res. cbn.
      intros H. exfalso. apply H. exact Hr.
    + destruct HP as [Hr Hs].
      unfold on_exception, _enter_waiting_state, _handle_iteration_error,
        notify_details, notify, when, bind in Hres. revert Hres.
      destruct e as [|msg [[|c d]|]| | | |], (non_interactive self), tr;
        cbn; intros ->; cbn; rewrite ?Hr; intros H;
        first [ exfalso; apply H; reflexivity
              | split; [discriminate | reflexivity] ].
  - intros H. exfalso. apply H. clear H.
    unfold pass, pass_with in Hres. unfold bind at 1 in Hres.
    unfold get_state at 1 in Hres. cbv beta iota in Hres.
    unfold iterates in Hit.
    unfold _wait_for_input, _enter_waiting_state, notify, bind in Hres.
    revert Hres.
    destruct (State.is_waiting_for_input (state m)),
      (State.should_stop (state m)), (State.llm_failed (state m));
      try discriminate Hit; cbn;
      destruct (State.has_waiting_timeout (now env) (state m)),
        (non_interactive self), tr; cbn; intros ->; reflexivity.
Qed.

(** C6 (amended).  In a run that starts from a record without a result,
    [final_result] takes a value at most once: once it holds one, no
    bootstrap and no pass changes it, in either mode.  It changes through
    [set_completed] only: after a pass it is the payload of the last
    [set_completed] logged in the pass, unchanged if there is none; and a
    pass that changes it finds it unset and leaves the agent [Completed]
    in non-interactive mode, waiting in interactive mode.  The calls are
    not counted once: the path where a tool batch signals finish in
    non-interactive mode calls [set_completed] twice, in
    [_execute_actions] and again in [agent_loop], both times with
    [{"success": True}]. *)
Theorem final_result_set_once_by_set_completed p tr self m0 m :
  final_result (state m0) = None ->
  reachable_from p tr self m0 m ->
  (forall m' r,
      reachable_from p tr self m m' ->
      final_result (state m) = Some r ->
      final_result (state m') = Some r)
  /\ (forall env,
         exists d,
           trace (snd (pass p tr self env m)) = trace m ++ d
           /\ final_result (state (snd (pass p tr self env m)))
              = last_completed d (final_result (state m)))
  /\ (forall env,
         final_result (state (snd (pass p tr self env m)))
         <> final_result (state m) ->
         final_result (state m) = None
         /\ final_result (state (snd (pass p tr self env m))) <> None
         /\ status (state (snd (pass p tr self env m)))
            = if non_interactive self then Completed else WaitingForInput)
  /\ (forall env r text batch,
         non_interactive self = true ->
         iterates (state m) = true ->
         llm_outcome env = Generated r ->
         resp_content r = Some text ->
         Py.truthy (Py.strip text) = true ->
         tool_invocations r = Some batch -> batch <> [] ->
         tool_outcome env = TaskReturns true ->
         exists m',
           pass p tr self env m = (Ok (Return success_result), m')
           /\ status (state m') = Completed
           /\ final_result (state m') = Some success_result
           /\ Log.count Log.is_set_completed (trace m')
              = S (S (Log.count Log.is_set_completed (trace m)))).
Proof.
  intros H0 Hr.
  assert (HJ : if non_interactive self
               then result_only_completed (state m)
               else unset_or_success (state m)).
  { destruct (non_interactive self) eqn:Hni.
    - apply (reachable_result_only_completed p tr self m0 m Hni); [|exact Hr].
      intros H. exfalso. apply H. exact H0.
    - apply (reachable_unset_or_success p tr self m0 m Hni); [|exact Hr].
      left. exact H0. }
  assert (HS : forall m' r,
             reachable_from p tr self m m' ->
             final_result (state m) = Some r ->
             final_result (state m') = Some r).
  { intros m' r Hr' Hf. exact (result_is_settled p tr self m m' r HJ Hr' Hf). }
  split; [exact HS|]. split; [|split].
  - intros env. destruct (pass_logged p tr self env m) as (d & Ht & Hs).
    exists d. split; [exact Ht|]. rewrite Hs. apply final_result_replay.
  - intros env Hch.
    destruct (pass_that_sets_result p tr self env m Hch) as [Hn Hst].
    split; [|split; assumption].
    destruct (final_result (state m)) as [r|] eqn:Hf; [|reflexivity].
    exfalso. apply Hch.
    apply (HS _ r (reach_pass _ _ _ _ _ env (reach_start _ _ _ _))).
    reflexivity.
  - intros env r text batch. apply finish_non_interactive.
Qed.

Lemma final_result_set_once_by_set_completed_witness :
  exists m',
    pass Ex.policy None (Ex.agent true) Ex.finishing Ex.started
    = (Ok (Return success_result), m')
    /\ final_result (state m') = Some success_result
    /\ Log.count Log.is_set_completed (trace m') = 2%nat
    /\ final_result
         (state (snd (pass Ex.policy None (Ex.agent true) Ex.rate_limited
                        m')))
       = Some success_result.
Proof.
  pose proof (final_result_set_once_by_set_completed Ex.policy None
                (Ex.agent true) Ex.fresh_machine Ex.started eq_refl
                (reach_bootstrap _ _ _ _ _ Ex.provisioning "scan the target"
                   (reach_start _ _ _ _))) as (_ & _ & _ & H).
  destruct (H Ex.finishing
              (mkResponse (Some "done") (Some [Ex.finish_scan])) "done"
              [Ex.finish_scan] eq_refl eq_refl eq_refl eq_refl eq_refl
              eq_refl ltac:(discriminate) eq_refl)
    as (m' & Hp & _ & Hf & Hc).
  exists m'. split; [exact Hp|]. split; [exact Hf|]. split; [exact Hc|].
  assert (Hm : m' = snd (pass Ex.policy None (Ex.agent true) Ex.finishing
                           Ex.started)) by (rewrite Hp; reflexivity).
  refine (proj1 (final_result_set_once_by_set_completed Ex.policy None
                   (Ex.agent true) Ex.fresh_machine m' eq_refl _)
            _ success_result
            (reach_pass _ _ _ _ _ Ex.rate_limited (reach_start _ _ _ _)) Hf).
  rewrite Hm.
  exact (reach_pass _ _ _ _ _ Ex.finishing
           (reach_bootstrap _ _ _ _ _ Ex.provisioning "scan the target"
              (reach_start _ _ _ _))).
Defined.

Lemma cancelled_batch_commits_nothing_witness :
  exists m',
    pass Ex.policy None (Ex.agent false) Ex.cancelled Ex.fresh_machine
    = (Ok Continue, m')
    /\ status (state m') = WaitingForInput
    /\ messages (state m')
       = [mkMessage "assistant" "done";
          mkMessage "assistant" cancelled_notice]
    /\ errors (state m') = [cancelled_error].
Proof.
  destruct (cancelled_batch_commits_nothing Ex.policy None (Ex.agent false)
              Ex.cancelled Ex.fresh_machine
              (mkResponse (Some "done") (Some [Ex.finish_scan])) "done"
              [Ex.finish_scan] eq_refl eq_refl eq_refl eq_refl eq_refl
              ltac:(discriminate) eq_refl)
    as (m' & Hp & _ & Hst & Hm & He & _).
  exists m'. split; [exact Hp|]. split; [exact (Hst eq_refl)|].
  split; [exact Hm | exact He].
Defined.



(** C6, as stated, fails on the complete run of a fresh non-interactive
    agent whose first tool batch signals finish: [agent_loop] returns the
    success payload after two calls of [set_completed]. *)
Lemma final_result_set_once_counterexample :
  fst (agent_loop Ex.policy None (Ex.agent true) Ex.provisioning
         "scan the target" [Ex.finishing] Ex.fresh_machine)
  = Ok (Some success_result)
  /\ Log.count Log.is_set_completed
       (trace (snd (agent_loop Ex.policy None (Ex.agent true)
                      Ex.provisioning "scan the target" [Ex.finishing]
                      Ex.fresh_machine)))
     = 2%nat
  /\ Log.count Log.is_set_completed
       (trace (snd (agent_loop Ex.policy None (Ex.agent true)
                      Ex.provisioning "scan the target" [Ex.finishing]
                      Ex.fresh_machine)))
     <> 1%nat.
Proof. vm_compute. repeat split. discriminate. Qed.

(** ** Bootstrap *)

(** C7 (amended).  Every bootstrap whose provisioning, if any, succeeds
    appends the task string as a user-role message at the end of the
    history, whether or not the history already holds it; only the [task]
    field is guarded, and is set when it is empty.  On an empty history
    the task is the first message. *)
Theorem bootstrap_appends_task p self ienv new_task m info :
  create_sandbox ienv = inl info ->
  exists m',
    _initialize_sandbox_and_state p self ienv new_task m = (Ok tt, m')
    /\ messages (state m')
       = messages (state m) ++ [mkMessage "user" new_task]
    /\ task (state m')
       = (if Py.truthy (task (state m)) then task (state m) else new_task).
Proof.
  intros Hc.
  unfold _initialize_sandbox_and_state, bind, when.
  cbn. rewrite Hc.
  destruct (negb (sandbox_mode_of (env_sandbox_mode ienv))); cbn;
    destruct (sandbox_id (state m)); cbn;
    destruct (info_agent_id info); cbn;
    destruct (Py.truthy (task (state m))); cbn;
    (eexists; split; [reflexivity|]; cbn; auto).
Qed.

Lemma bootstrap_appends_task_witness :
  exists m',
    _initialize_sandbox_and_state Ex.policy (Ex.agent true) Ex.provisioning
      "scan the target" Ex.fresh_machine = (Ok tt, m')
    /\ messages (state m') = [mkMessage "user" "scan the target"]
    /\ task (state m') = "scan the target".
Proof.
  exact (bootstrap_appends_task Ex.policy (Ex.agent true) Ex.provisioning
           "scan the target" Ex.fresh_machine Ex.sandbox eq_refl).
Defined.

(** C7, as stated, fails on a restored record that already holds the task
    as its first message: the bootstrap appends a second copy. *)
Lemma task_recorded_twice_counterexample :
  hd_error (messages Ex.restored)
  = Some (mkMessage "user" "scan the target")
  /\ messages
       (state (snd (_initialize_sandbox_and_state Ex.policy (Ex.agent true)
                      Ex.provisioning "scan the target"
                      (mkMachine Ex.restored None []))))
     = [mkMessage "user" "scan the target";
        mkMessage "user" "scan the target"].
Proof. vm_compute. split; reflexivity. Qed.






(** ** Construction *)

(** C10.  A construction given a state record uses that very record as
    the agent's state, whenever it returns, and it returns whenever its
    collaborators do; a [max_iterations] in the same config lands on the
    controller object only.  The loop and the bootstrap never read the
    controller's value: with any other value there they run identically,
    and the warnings of a pass are computed from the restored record's own
    [max_iterations]. *)
Theorem restored_state_untouched cls tracer nenv config st llm :
  dict_get (cfg_state config) None = Some st ->
  dict_get (cfg_llm_config config) (default_llm_config cls) = Some llm ->
  (forall a m,
      __init__ cls tracer nenv config = inr (a, m) ->
      state m = st /\ current_task m = None
      /\ self_max_iterations a = max_iterations_of cls config)
  /\ (collaborators_return tracer nenv ->
      exists a log,
        __init__ cls tracer nenv config = inr (a, mkMachine st None log)
        /\ self_max_iterations a = max_iterations_of cls config)
  /\ (forall a p n env m,
         pass p tracer (with_self_max_iterations n a) env m
         = pass p tracer a env m)
  /\ (forall a p n ienv new_task envs m,
         agent_loop p tracer (with_self_max_iterations n a) ienv new_task
           envs m
         = agent_loop p tracer a ienv new_task envs m)
  /\ (forall p m,
         state m = st ->
         trace (begun p m)
         = trace m ++ EvState IncrementIteration
             :: map EvState
                  (warning_calls p (State.increment_iteration st))).
Proof.
  intros Hst Hllm. unfold __init__, max_iterations_of. rewrite Hllm, Hst.
  split; [|split].
  - intros a m H.
    destruct (new_llm nenv); [discriminate H|].
    destruct (set_agent_identity nenv) as [[| | | | |]|], tracer as [t|];
      try discriminate H.
    all: try (injection H as <- <-; repeat split; reflexivity).
    all: match type of H with
         | context [tracer_calls ?r ?l ?g] =>
             destruct (tracer_calls r l g) as [f|log]; [discriminate H|]
         end;
         injection H as <- <-; repeat split; reflexivity.
  - intros (Hl & Hi & Ht). rewrite Hl.
    assert (G : forall log0 : list Event,
               match tracer with
               | Some t =>
                   match
                     tracer_calls (tracer_raises nenv)
                       [ LogAgentCreation (agent_id st) (agent_name st)
                           (task st);
                         RegisterAgent (agent_id st);
                         LogToolExecutionStart (agent_id st)
                           "scan_start_info" (Py.or_empty (scan_config t));
                         UpdateToolExecution "completed" None ] []
                   with
                   | inl _ => False
                   | inr _ => True
                   end
               | None => True
               end).
    { intros _. destruct tracer as [t|]; [|exact I].
      cbn. rewrite !Ht by discriminate. exact I. }
    specialize (G []).
    destruct (set_agent_identity nenv) as [[| | | | |]|], tracer as [t|];
      try (exfalso; apply Hi; reflexivity).
    all: try (eexists; eexists; split; reflexivity).
    all: match goal with
         | |- context [tracer_calls ?r ?l ?g] =>
             destruct (tracer_calls r l g) as [f|log]; [destruct G|]
         end;
         eexists; eexists; split; reflexivity.
  - split; [reflexivity|]. split; [reflexivity|].
    intros p m <-. apply begun_trace.
Qed.

Lemma restored_state_untouched_witness :
  exists a log,
    __init__ BaseAgent_class None Ex.collaborators
      (Ex.config_with Ex.restored)
    = inr (a, mkMachine Ex.restored None log)
    /\ self_max_iterations a = Some 50
    /\ max_iterations Ex.restored = 300.
Proof.
  destruct (proj1 (proj2 (restored_state_untouched BaseAgent_class None
                            Ex.collaborators (Ex.config_with Ex.restored)
                            Ex.restored "model" eq_refl eq_refl)))
    as (a & log & Hi & Hm).
  - split; [reflexivity|]. split; [discriminate|].
    intros H. exfalso. apply H. reflexivity.
  - exists a, log. split; [exact Hi|]. split; [exact Hm | reflexivity].
Defined.

(** ** The scenarios of the specification, run *)

(** A budget of five and a model that always answers blank: the critical
    warning is in the log once, at iteration 2, and after five passes the
    agent is still running. *)
Example scenario_budget_of_five :
  let m := passes Ex.policy None (Ex.agent true)
             [Ex.blank; Ex.blank; Ex.blank; Ex.blank; Ex.blank]
             Ex.short_budget in
  Log.count Log.is_critical_warning
    (trace (passes Ex.policy None (Ex.agent true) [Ex.blank; Ex.blank]
              Ex.short_budget)) = 1%nat
  /\ Log.count Log.is_critical_warning (trace m) = 1%nat
  /\ iteration (state m) = 5
  /\ status (state m) = Running.
Proof. vm_compute. repeat split. Qed.

(** A non-interactive agent whose model backend fails on iteration 2:
    the entry point returns the failure and the model is not called a
    third time. *)
Example scenario_rate_limited :
  let run := agent_loop Ex.policy None (Ex.agent true) Ex.provisioning
               "scan the target" [Ex.blank; Ex.rate_limited; Ex.finishing]
               Ex.fresh_machine in
  fst run = Ok (Some (failure_result "rate limited"))
  /\ Log.count Log.is_generate (trace (snd run)) = 2%nat
  /\ iteration (state (snd run)) = 2.
Proof. vm_compute. repeat split. Qed.

(* ================================================================== *)
(** * Further properties of the code *)

(** ** Cancelling *)

(** X1.  [cancel_current_execution] calls [cancel()] exactly when a task
    handle is held and the task is not done, and then drops the handle;
    otherwise it changes nothing.  It never touches the state record or
    the log, and a second request cancels nothing. *)
Theorem cancel_only_the_batch_in_flight done m :
  state (snd (cancel_current_execution done m)) = state m
  /\ trace (snd (cancel_current_execution done m)) = trace m
  /\ (fst (cancel_current_execution done m) = true
      <-> current_task m <> None /\ done = false)
  /\ (fst (cancel_current_execution done m) = true ->
      current_task (snd (cancel_current_execution done m)) = None)
  /\ (fst (cancel_current_execution done m) = false ->
      snd (cancel_current_execution done m) = m)
  /\ (forall done',
         (done = true -> done' = true) ->
         cancel_current_execution done'
           (snd (cancel_current_execution done m))
         = (false, snd (cancel_current_execution done m))).
Proof.
  unfold cancel_current_execution.
  destruct (current_task m) as [batch|] eqn:Ht, done; cbn;
    rewrite ?Ht; repeat split; try reflexivity; try discriminate;
    try congruence.
  all: try (intros [H1 H2]; congruence).
  all: try (intros done' Hd; rewrite ?Ht, ?(Hd eq_refl); reflexivity).
  all: try (intros done' Hd; rewrite ?Ht; reflexivity).
Qed.

Lemma cancel_only_the_batch_in_flight_witness :
  cancel_current_execution false
    (snd (cancel_current_execution false
            (mkMachine (State.fresh "agent-1" "StrixAgent" 300)
               (Some [Ex.finish_scan]) [])))
  = (false,
     snd (cancel_current_execution false
            (mkMachine (State.fresh "agent-1" "StrixAgent" 300)
               (Some [Ex.finish_scan]) []))).
Proof.
  refine (proj2 (proj2 (proj2 (proj2 (proj2
            (cancel_only_the_batch_in_flight false
               (mkMachine (State.fresh "agent-1" "StrixAgent" 300)
                  (Some [Ex.finish_scan]) [])))))) false _).
  discriminate.
Defined.

(** ** The anatomy of a pass *)

Lemma strip_empty : Py.strip "" = "".
Proof. reflexivity. Qed.

Lemma begun_keeps p m :
  current_task (begun p m) = current_task m
  /\ sandbox_id (state (begun p m)) = sandbox_id (state m)
  /\ task (state (begun p m)) = task (state m).
Proof.
  unfold begun, iteration_warnings, bind, get_state, when; cbn.
  destruct (State.is_approaching_max_iterations p _ && negb _); cbn;
    match goal with |- context [if ?b then _ else _] => destruct b end;
    cbn; auto.
Qed.

(** What the single-iteration step does to the counter, the logs and the
    task handle, whatever the model and the tools do. *)
Lemma process_iteration_anatomy p tr env m :
  iteration (state (snd (_process_iteration p tr env m)))
  = iteration (state m)
  /\ Log.count Log.is_generate (trace (snd (_process_iteration p tr env m)))
     = S (Log.count Log.is_generate (trace m))
  /\ actions (state (snd (_process_iteration p tr env m)))
     = actions (state m) ++ batch_of env
  /\ Log.count Log.is_dispatch (trace (snd (_process_iteration p tr env m)))
     = (Log.count Log.is_dispatch (trace m)
        + match batch_of env with [] => 0 | _ :: _ => 1 end)%nat
  /\ current_task (snd (_process_iteration p tr env m))
     = handle_after env (current_task m).
Proof.
  unfold handle_after, batch_of.
  destruct env as [now0 llm hist tool]. cbn [llm_outcome tool_outcome].
  destruct llm as [[[text|] invs]|e0]; cbn [get resp_content tool_invocations].
  - destruct (Py.truthy (Py.strip text)) eqn:Htext.
    + destruct invs as [[|a0 rest]|]; cbn [get].
      2: destruct tool as [[|]|e1]; [| |destruct e1].
      all: destruct tr; unfold _process_iteration, _execute_actions, notify,
             try_except, bind; cbn; rewrite Htext; cbn;
           rewrite ?for_each_add_action; cbn;
           count_norm; cbn; rewrite ?app_nil_r;
           repeat split; try reflexivity; lia.
    + unfold _process_iteration, bind; cbn; rewrite Htext; cbn.
      count_norm; cbn; rewrite ?app_nil_r.
      repeat split; try reflexivity; lia.
  - rewrite strip_empty. cbn.
    unfold _process_iteration, bind; cbn; rewrite strip_empty; cbn.
    count_norm; cbn; rewrite ?app_nil_r.
    repeat split; try reflexivity; lia.
  - unfold _process_iteration, bind; cbn.
    count_norm; cbn; rewrite ?app_nil_r.
    repeat split; try reflexivity; lia.
Qed.

(** After [c], the rest of [try: x = c; k x  except e: h e] makes steps of
    [k] and [h] only. *)
Lemma try_bind_after (R : Machine -> Machine -> Prop)
      (R_refl : forall m, R m m)
      (R_trans : forall a b c, R a b -> R b c -> R a c)
      {A B} (c : M A) (k : A -> M B) (h : Py.exn -> M B) m :
  (forall a, steps R (k a)) -> (forall e, steps R (h e)) ->
  R (snd (c m)) (snd (try_except (bind c k) h m)).
Proof.
  intros Hk Hh. unfold try_except, bind.
  destruct (c m) as [[a|e] m2]; cbn [snd].
  - pose proof (Hk a m2) as H1.
    destruct (k a m2) as [[b|e] m3]; cbn [snd] in *; [exact H1|].
    eapply R_trans; [exact H1 | apply Hh].
  - apply Hh.
Qed.

Lemma tail_frame_refl m : tail_frame m m.
Proof. unfold tail_frame; auto 10. Qed.

Lemma tail_frame_trans a b c :
  tail_frame a b -> tail_frame b c -> tail_frame a c.
Proof.
  unfold tail_frame.
  intros (H1 & H2 & H3 & H4 & H5 & H6) (G1 & G2 & G3 & G4 & G5 & G6).
  repeat split; congruence.
Qed.

Ltac tail_leaf :=
  let x := fresh "m" in
  intros x; unfold tail_frame; cbn; count_norm; cbn;
  repeat split; try reflexivity; lia.

Lemma pass_tail_frame p tr self env m :
  tail_frame (snd (_process_iteration p tr env (begun p m)))
    (snd (try_except (iteration_body p tr self env)
            (on_exception p tr self (_handle_iteration_error p tr) env)
            (begun p m))).
Proof.
  unfold iteration_body.
  apply (try_bind_after tail_frame tail_frame_refl tail_frame_trans).
  - intros b. steps_walk tail_frame_refl tail_frame_trans. all: tail_leaf.
  - intros e. steps_walk tail_frame_refl tail_frame_trans. all: tail_leaf.
Qed.

(** A pass that does not iterate waits or stops. *)
Lemma idle_pass_tail_frame p tr self env m :
  iterates (state m) = false -> tail_frame m (snd (pass p tr self env m)).
Proof.
  intros Hit. unfold pass, pass_with. unfold bind at 1. unfold get_state at 1.
  cbv beta iota. unfold iterates in Hit.
  destruct (State.is_waiting_for_input (state m)).
  - refine ((_ : steps tail_frame _) m).
    steps_walk tail_frame_refl tail_frame_trans. all: tail_leaf.
  - destruct (State.should_stop (state m)).
    + refine ((_ : steps tail_frame _) m).
      steps_walk tail_frame_refl tail_frame_trans. all: tail_leaf.
    + destruct (State.llm_failed (state m)); [|discriminate Hit].
      refine ((_ : steps tail_frame _) m).
      steps_walk tail_frame_refl tail_frame_trans. all: tail_leaf.
Qed.

(** X2.  Every iterating pass advances the counter by one and calls the
    model backend once.  It records the invocations of the response in
    the action log, in order and whatever the dispatch then does (return,
    cancellation or any exception), and dispatches one tool batch exactly
    when there is an invocation. *)
Theorem iterating_pass_anatomy p tr self env m :
  iterates (state m) = true ->
  iteration (state (snd (pass p tr self env m))) = iteration (state m) + 1
  /\ Log.count Log.is_generate (trace (snd (pass p tr self env m)))
     = S (Log.count Log.is_generate (trace m))
  /\ actions (state (snd (pass p tr self env m)))
     = actions (state m) ++ batch_of env
  /\ Log.count Log.is_dispatch (trace (snd (pass p tr self env m)))
     = (Log.count Log.is_dispatch (trace m)
        + match batch_of env with [] => 0 | _ :: _ => 1 end)%nat.
Proof.
  intros Hit.
  destruct (begun_frame p m) as (_ & _ & _ & Hact & Hiter & _).
  pose proof (count_begun Log.is_generate p m eq_refl eq_refl
                (fun _ => eq_refl)) as Hg.
  pose proof (count_begun Log.is_dispatch p m eq_refl eq_refl
                (fun _ => eq_refl)) as Hd.
  destruct (process_iteration_anatomy p tr env (begun p m))
    as (P1 & P2 & P3 & P4 & _).
  destruct (pass_tail_frame p tr self env m) as (T1 & T2 & _ & T4 & T5 & _).
  unfold pass. rewrite (pass_with_iterating _ _ _ _ _ _ Hit).
  rewrite T1, T2, T4, T5, P1, P2, P3, P4, Hact, Hiter, Hg, Hd.
  repeat split; reflexivity.
Qed.

Lemma iterating_pass_anatomy_witness :
  actions (state (snd (pass Ex.policy None (Ex.agent false) Ex.cancelled
                         Ex.started)))
  = [Ex.finish_scan]
  /\ iteration (state (snd (pass Ex.policy None (Ex.agent false) Ex.cancelled
                              Ex.started))) = 1.
Proof.
  destruct (iterating_pass_anatomy Ex.policy None (Ex.agent false)
              Ex.cancelled Ex.started eq_refl) as (H1 & _ & H3 & _).
  split; [exact H3 | exact H1].
Defined.

(** X3.  After an iterating pass the controller holds no task handle when
    the batch returned or was cancelled, holds the handle of the batch
    when the batch raised any other exception, and holds what it held
    when nothing was dispatched. *)
Theorem task_handle_after_pass p tr self env m :
  iterates (state m) = true ->
  current_task (snd (pass p tr self env m))
  = handle_after env (current_task m).
Proof.
  intros Hit.
  destruct (begun_keeps p m) as (Hc & _).
  destruct (process_iteration_anatomy p tr env (begun p m))
    as (_ & _ & _ & _ & P5).
  destruct (pass_tail_frame p tr self env m) as (_ & _ & T3 & _).
  unfold pass. rewrite (pass_with_iterating _ _ _ _ _ _ Hit).
  rewrite T3, P5, Hc. reflexivity.
Qed.

Lemma task_handle_after_pass_witness :
  current_task (snd (pass Ex.policy None (Ex.agent true) Ex.failing_tool
                       Ex.started))
  = Some [Ex.finish_scan]
  /\ current_task (snd (pass Ex.policy None (Ex.agent false) Ex.cancelled
                          Ex.started))
     = None.
Proof.
  split.
  - exact (task_handle_after_pass Ex.policy None (Ex.agent true)
             Ex.failing_tool Ex.started eq_refl).
  - exact (task_handle_after_pass Ex.policy None (Ex.agent false)
             Ex.cancelled Ex.started eq_refl).
Defined.

(** X4.  Over any sequence of passes the counter advances by exactly the
    number of calls of the model backend: it never decreases, and waiting
    and stopped passes, which call no model, do not consume an
    iteration. *)
Theorem iteration_counts_model_calls p tr self envs m :
  iteration (state (passes p tr self envs m)) - iteration (state m)
  = Z.of_nat (Log.count Log.is_generate (trace (passes p tr self envs m)))
    - Z.of_nat (Log.count Log.is_generate (trace m))
  /\ iteration (state m) <= iteration (state (passes p tr self envs m)).
Proof.
  revert m. induction envs as [|env rest IH]; intros m.
  - cbn. lia.
  - change (passes p tr self (env :: rest) m)
      with (passes p tr self rest (snd (pass p tr self env m))).
    specialize (IH (snd (pass p tr self env m))).
    destruct (iterates (state m)) eqn:Hit.
    + destruct (iterating_pass_anatomy p tr self env m Hit)
        as (H1 & H2 & _). lia.
    + destruct (idle_pass_tail_frame p tr self env m Hit)
        as (H1 & _ & _ & H4 & _). lia.
Qed.

(** ** The budget warnings, in the conversation *)

Lemma begun_messages p m :
  messages (state (begun p m))
  = messages (state m) ++ warnings_due p (State.increment_iteration (state m)).
Proof.
  unfold begun, iteration_warnings, warnings_due, urgent_due, critical_due,
    bind, get_state, when; cbn.
  destruct (State.is_approaching_max_iterations p _ && negb _); cbn;
    match goal with |- context [if ?b then _ else _] => destruct b end;
    cbn; rewrite <- ?app_assoc, ?app_nil_r; reflexivity.
Qed.

Ltac log_leaf :=
  let x := fresh "m" in
  intros x; cbn;
  first [ eexists [_]; split; reflexivity
        | exists []; rewrite app_nil_r; split; reflexivity ].

(** The single-iteration step begins by handing the stored history to the
    model backend. *)
Lemma process_iteration_shows p tr env m :
  exists d,
    trace (snd (_process_iteration p tr env m))
    = trace m ++ EvGenerate (messages (state m)) :: d.
Proof.
  unfold _process_iteration. unfold bind at 1. unfold get_state at 1.
  cbv beta iota. unfold bind at 1. unfold emit at 1. cbv beta iota.
  match goal with
  | |- context [snd (?R ?m2)] =>
      assert (H : steps (logged p) R);
        [|destruct (H m2) as (d & Hd & _); exists d; rewrite Hd; cbn;
          rewrite <- app_assoc; reflexivity]
  end.
  steps_walk (logged_refl p) (logged_trans p).
  all: log_leaf.
Qed.

Lemma pass_shows p tr self env m :
  iterates (state m) = true ->
  exists d,
    trace (snd (pass p tr self env m))
    = trace m ++ EvState IncrementIteration
        :: map EvState (warning_calls p (State.increment_iteration (state m)))
        ++ EvGenerate
             (messages (state m)
              ++ warnings_due p (State.increment_iteration (state m)))
        :: d.
Proof.
  intros Hit. unfold pass. rewrite (pass_with_iterating _ _ _ _ _ _ Hit).
  destruct (process_iteration_shows p tr env (begun p m)) as (d1 & H1).
  assert (H2 : logged p (snd (_process_iteration p tr env (begun p m)))
                 (snd (try_except (iteration_body p tr self env)
                         (on_exception p tr self
                            (_handle_iteration_error p tr) env)
                         (begun p m)))).
  { unfold iteration_body.
    apply (try_bind_after (logged p) (logged_refl p) (logged_trans p)).
    - intros b. steps_walk (logged_refl p) (logged_trans p).
      all: log_leaf.
    - intros e. steps_walk (logged_refl p) (logged_trans p).
      all: log_leaf. }
  destruct H2 as (d2 & H2 & _). exists (d1 ++ d2).
  rewrite H2, H1, begun_trace, begun_messages.
  rewrite <- !app_assoc. cbn. rewrite <- ?app_assoc. reflexivity.
Qed.

Lemma skipn_length_app {A} (a b : list A) :
  skipn (List.length a) (a ++ b) = b.
Proof. induction a as [|x a IH]; [reflexivity | exact IH]. Qed.

Lemma history_shown_calls (l : list StateCall) r :
  history_shown (map EvState l ++ r) = history_shown r.
Proof. induction l as [|c l IH]; [reflexivity | exact IH]. Qed.

Lemma history_shown_none d :
  Log.count Log.is_generate d = 0%nat -> history_shown d = None.
Proof.
  induction d as [|e d IH]; [reflexivity|].
  rewrite count_cons. destruct e; cbn; try exact IH. discriminate.
Qed.

Lemma injected_spec p tr self env m :
  injected p tr self env m
  = if iterates (state m)
    then warnings_due p (State.increment_iteration (state m))
    else [].
Proof.
  unfold injected. destruct (iterates (state m)) eqn:Hit.
  - destruct (pass_shows p tr self env m Hit) as (d & ->).
    rewrite skipn_length_app. cbn [history_shown].
    rewrite history_shown_calls. cbn [history_shown].
    apply skipn_length_app.
  - destruct (pass_logged p tr self env m) as (d & Hd & _).
    destruct (idle_pass_tail_frame p tr self env m Hit)
      as (_ & _ & _ & Hg & _).
    rewrite Hd in Hg |- *. rewrite count_app in Hg.
    rewrite skipn_length_app, history_shown_none; [reflexivity | lia].
Qed.

Lemma urgent_in_warnings_due p s :
  how_many is_urgent_message (warnings_due p s)
  = if urgent_due p s then 1%nat else 0%nat.
Proof.
  unfold how_many, warnings_due.
  destruct (urgent_due p s), (critical_due s); reflexivity.
Qed.

Lemma critical_in_warnings_due p s :
  how_many is_critical_message (warnings_due p s)
  = if critical_due s then 1%nat else 0%nat.
Proof.
  unfold how_many, warnings_due.
  destruct (urgent_due p s), (critical_due s); reflexivity.
Qed.

Lemma urgent_in_warning_calls p s :
  Log.count Log.is_urgent_warning (map EvState (warning_calls p s))
  = if urgent_due p s then 1%nat else 0%nat.
Proof.
  unfold Log.count, warning_calls.
  destruct (urgent_due p s), (critical_due s); reflexivity.
Qed.

(** A pass that injects the near-limit warning uses up the one-shot flag,
    and no pass gives it back. *)
Lemma pass_injects_within_budget p tr self env m :
  (how_many is_urgent_message (injected p tr self env m)
   + (if max_iterations_warning_sent (state (snd (pass p tr self env m)))
      then 0 else 1)
   <= if max_iterations_warning_sent (state m) then 0 else 1)%nat.
Proof.
  pose proof (pass_within_budget p tr self env m) as HB.
  unfold within_budget, urgent_budget in HB.
  rewrite injected_spec. destruct (iterates (state m)) eqn:Hit.
  - destruct (pass_shows p tr self env m Hit) as (d & Hd).
    rewrite Hd in HB. rewrite urgent_in_warnings_due.
    rewrite count_app, count_cons, count_app, urgent_in_warning_calls in HB.
    cbn [Log.is_urgent_warning] in HB.
    destruct (urgent_due p _),
      (max_iterations_warning_sent (state (snd (pass p tr self env m)))),
      (max_iterations_warning_sent (state m)); lia.
  - destruct (pass_logged p tr self env m) as (d & Hd & _).
    rewrite Hd, count_app in HB. unfold how_many. cbn [filter List.length].
    destruct
      (max_iterations_warning_sent (state (snd (pass p tr self env m)))),
      (max_iterations_warning_sent (state m)); lia.
Qed.

Lemma urgent_injected_at_most_once p tr self envs m :
  (urgent_injected p tr self envs m
   <= if max_iterations_warning_sent (state m) then 0 else 1)%nat.
Proof.
  revert m. induction envs as [|env rest IH]; intros m.
  - cbn. destruct (max_iterations_warning_sent (state m)); lia.
  - cbn [urgent_injected].
    specialize (IH (snd (pass p tr self env m))).
    pose proof (pass_injects_within_budget p tr self env m) as H.
    destruct (max_iterations_warning_sent
                (state (snd (pass p tr self env m)))),
      (max_iterations_warning_sent (state m)); lia.
Qed.

(** C4.  A pass that gets to the model call hands the model backend the
    stored history followed by the budget warnings that are due: the
    near-limit warning when the advanced counter is inside the near-limit
    zone and the one-shot flag is unset, then the critical warning when
    the advanced counter equals [max_iterations - 3], whatever the flag;
    a pass that does not get there injects nothing.  Over any sequence of
    passes the near-limit warning is injected at most once, and not at all
    once the flag is set.  The same holds of the calls in the log, over
    passes and over the loop. *)
Theorem warnings_once_and_at_three_left p tr self :
  (forall env m,
      iterates (state m) = true ->
      exists d,
        trace (snd (pass p tr self env m))
        = trace m ++ EvState IncrementIteration
            :: map EvState
                 (warning_calls p (State.increment_iteration (state m)))
            ++ EvGenerate
                 (messages (state m)
                  ++ warnings_due p (State.increment_iteration (state m)))
            :: d)
  /\ (forall env m,
         injected p tr self env m
         = if iterates (state m)
           then warnings_due p (State.increment_iteration (state m))
           else [])
  /\ (forall env m,
         how_many is_urgent_message (injected p tr self env m)
         = if iterates (state m)
              && State.is_approaching_max_iterations p
                   (State.increment_iteration (state m))
              && negb (max_iterations_warning_sent (state m))
           then 1%nat else 0%nat)
  /\ (forall envs m,
         (urgent_injected p tr self envs m
          <= if max_iterations_warning_sent (state m) then 0 else 1)%nat)
  /\ (forall env m,
         how_many is_critical_message (injected p tr self env m)
         = if iterates (state m)
              && (iteration (state m) + 1 =? max_iterations (state m) - 3)
           then 1%nat else 0%nat)
  /\ (forall envs m,
      (Log.count Log.is_urgent_warning (trace (passes p tr self envs m))
       <= Log.count Log.is_urgent_warning (trace m)
          + (if max_iterations_warning_sent (state m) then 0 else 1))%nat)
  /\ (forall envs m,
      (Log.count Log.is_urgent_warning (trace (snd (loop p tr self envs m)))
       <= Log.count Log.is_urgent_warning (trace m)
          + (if max_iterations_warning_sent (state m) then 0 else 1))%nat)
  /\ (forall env m,
      iterates (state m) = true ->
      Log.count Log.is_critical_warning (trace (snd (pass p tr self env m)))
      = (Log.count Log.is_critical_warning (trace m)
         + (if (iteration (state m) + 1 =? max_iterations (state m) - 3)%Z
            then 1 else 0))%nat).
Proof.
  assert (Hp : forall envs m,
      (Log.count Log.is_urgent_warning (trace (passes p tr self envs m))
       <= Log.count Log.is_urgent_warning (trace m)
          + (if max_iterations_warning_sent (state m) then 0 else 1))%nat).
  { intros envs m. pose proof (passes_within_budget p tr self envs m) as H.
    unfold urgent_budget in H. lia. }
  split; [exact (fun env m => pass_shows p tr self env m)|].
  split; [exact (injected_spec p tr self)|].
  split.
  { intros env m. rewrite injected_spec.
    destruct (iterates (state m)); [|reflexivity].
    rewrite urgent_in_warnings_due. reflexivity. }
  split; [exact (urgent_injected_at_most_once p tr self)|].
  split.
  { intros env m. rewrite injected_spec.
    destruct (iterates (state m)); [|reflexivity].
    rewrite critical_in_warnings_due. reflexivity. }
  split; [exact Hp|]. split.
  - intros envs m. destruct (loop_is_passes p tr self envs m) as [k ->].
    apply Hp.
  - intros env m Hit.
    unfold pass. rewrite (pass_with_iterating _ _ _ _ _ _ Hit).
    rewrite (try_keeps_critical p tr self env (begun p m)).
    apply begun_critical.
Qed.

Lemma warnings_once_and_at_three_left_witness :
  injected Ex.policy None (Ex.agent true) Ex.blank Ex.near_the_end
  = [ mkMessage "user" (warning_msg (State.increment_iteration
                                       (state Ex.near_the_end)));
      mkMessage "user" final_warning_msg ]
  /\ exists d,
      trace (snd (pass Ex.policy None (Ex.agent true) Ex.blank Ex.near_the_end))
      = EvState IncrementIteration
        :: EvState (SetWarningSent true)
        :: EvState (AddMessage "user"
                      (warning_msg (State.increment_iteration
                                      (state Ex.near_the_end))))
        :: EvState (AddMessage "user" final_warning_msg)
        :: EvGenerate
             [ mkMessage "user"
                 (warning_msg (State.increment_iteration
                                 (state Ex.near_the_end)));
               mkMessage "user" final_warning_msg ]
        :: d.
Proof.
  split.
  - exact (proj1 (proj2 (warnings_once_and_at_three_left Ex.policy None
                           (Ex.agent true)))
             Ex.blank Ex.near_the_end).
  - exact (proj1 (warnings_once_and_at_three_left Ex.policy None
                    (Ex.agent true))
             Ex.blank Ex.near_the_end eq_refl).
Defined.

(** ** Waiting and stopping *)

(** X5.  A pass that starts waiting, in either flavour, continues the
    loop without calling the model backend or the dispatcher and without
    touching the counter, the error log, the actions or the result.
    Before the waiting deadline it only sleeps; once the deadline has
    passed it resumes: the status is [Running] again and one assistant
    message says so. *)
Theorem waiting_pass_consumes_nothing p tr self env m :
  State.is_waiting_for_input (state m) = true
  \/ (State.should_stop (state m) = false
      /\ State.llm_failed (state m) = true) ->
  exists m',
    pass p tr self env m = (Ok Continue, m')
    /\ iteration (state m') = iteration (state m)
    /\ errors (state m') = errors (state m)
    /\ actions (state m') = actions (state m)
    /\ final_result (state m') = final_result (state m)
    /\ Log.count Log.is_generate (trace m')
       = Log.count Log.is_generate (trace m)
    /\ Log.count Log.is_dispatch (trace m')
       = Log.count Log.is_dispatch (trace m)
    /\ (State.has_waiting_timeout (now env) (state m) = false ->
        state m' = state m /\ trace m' = trace m ++ [EvSleep])
    /\ (State.has_waiting_timeout (now env) (state m) = true ->
        status (state m') = Running
        /\ messages (state m')
           = messages (state m)
               ++ [mkMessage "assistant"
                     "Waiting timeout reached. Resuming execution."]).
Proof.
  intros H.
  assert (Hwait : pass p tr self env m
                  = bind (_wait_for_input p tr env) (fun _ => ret Continue) m).
  { unfold pass, pass_with. unfold bind at 1. unfold get_state at 1.
    cbv beta iota.
    destruct H as [H|[H1 H2]]; [rewrite H; reflexivity|].
    destruct (State.is_waiting_for_input (state m)); [reflexivity|].
    rewrite H1, H2. reflexivity. }
  rewrite Hwait. unfold _wait_for_input, notify, bind. cbn.
  destruct (State.has_waiting_timeout (now env) (state m)), tr; cbn;
    (eexists; split; [reflexivity|]); cbn; count_norm; cbn;
    repeat split; try reflexivity; try lia; try discriminate.
Qed.

Lemma waiting_pass_consumes_nothing_witness :
  exists m',
    pass Ex.policy None (Ex.agent false) Ex.blank
      (snd (pass Ex.policy None (Ex.agent false) Ex.cancelled Ex.started))
    = (Ok Continue, m')
    /\ iteration (state m') = 1.
Proof.
  destruct (waiting_pass_consumes_nothing Ex.policy None (Ex.agent false)
              Ex.blank
              (snd (pass Ex.policy None (Ex.agent false) Ex.cancelled
                      Ex.started))
              (or_introl eq_refl))
    as (m' & Hp & Hi & _).
  exists m'. split; [exact Hp | exact Hi].
Defined.

(** X6.  On a record that signals a stop and is not waiting, the
    non-interactive loop returns at once, without a single call, the
    recorded result, or the empty dictionary when none or an empty one is
    recorded; the interactive pass turns the stop into the waiting state
    with the pause notice, keeps the result and calls no model. *)
Theorem stopped_pass_returns_or_waits p tr self env m :
  State.is_waiting_for_input (state m) = false ->
  State.should_stop (state m) = true ->
  (non_interactive self = true ->
   forall rest,
     loop p tr self (env :: rest) m
     = (Ok (Some (Py.or_empty (final_result (state m)))), m))
  /\ (non_interactive self = true -> final_result (state m) = None ->
      pass p tr self env m = (Ok (Return []), m))
  /\ (non_interactive self = false ->
      exists m',
        pass p tr self env m = (Ok Continue, m')
        /\ state m'
           = State.add_message "assistant" paused_notice
               (State.enter_waiting_state p (now env) false (state m))
        /\ Log.count Log.is_generate (trace m')
           = Log.count Log.is_generate (trace m)).
Proof.
  intros Hw Hs.
  assert (Hstop : pass p tr self env m
                  = (if non_interactive self
                     then ret (Return (Py.or_empty (final_result (state m))))
                     else bind (_enter_waiting_state p tr env false false false)
                            (fun _ => ret Continue)) m).
  { unfold pass, pass_with. unfold bind at 1. unfold get_state at 1.
    cbv beta iota. rewrite Hw, Hs. reflexivity. }
  split; [|split].
  - intros Hni rest. rewrite loop_cons, Hstop, Hni. reflexivity.
  - intros Hni Hnone. rewrite Hstop, Hni, Hnone. reflexivity.
  - intros Hni. rewrite Hstop, Hni.
    unfold _enter_waiting_state, notify, bind. cbn.
    destruct tr; cbn; (eexists; split; [reflexivity|]); cbn;
      count_norm; cbn; split; try reflexivity; lia.
Qed.

Lemma stopped_pass_returns_or_waits_witness :
  loop Ex.policy None (Ex.agent true) [Ex.blank; Ex.blank]
    (snd (pass Ex.policy None (Ex.agent true) Ex.rate_limited Ex.started))
  = (Ok (Some (failure_result "rate limited")),
     snd (pass Ex.policy None (Ex.agent true) Ex.rate_limited Ex.started)).
Proof.
  exact (proj1 (stopped_pass_returns_or_waits Ex.policy None (Ex.agent true)
                  Ex.blank
                  (snd (pass Ex.policy None (Ex.agent true) Ex.rate_limited
                          Ex.started))
                  eq_refl eq_refl)
           eq_refl [Ex.blank]).
Defined.

(** ** The other outcomes of the single-iteration step *)

(** X7.  When the model backend fails in an iterating pass of an
    interactive agent, the pass records the message in the error log,
    enters the backend-failure flavour of waiting and continues the loop;
    it appends no message beyond the budget warnings of the pass, does
    not call [set_completed] and leaves the result alone, and the pass
    that follows waits without calling the model. *)
Theorem backend_failure_interactive_waits p tr self env m msg details :
  non_interactive self = false ->
  iterates (state m) = true ->
  llm_outcome env = GenerateRaises (Py.LLMRequestFailedError msg details) ->
  exists m',
    pass p tr self env m = (Ok Continue, m')
    /\ errors (state m') = errors (state m) ++ [msg]
    /\ status (state m') = LLMFailed
    /\ final_result (state m') = final_result (state m)
    /\ messages (state m') = messages (state (begun p m))
    /\ Log.count Log.is_set_completed (trace m')
       = Log.count Log.is_set_completed (trace m)
    /\ (forall env',
           fst (pass p tr self env' m') = Ok Continue
           /\ Log.count Log.is_generate (trace (snd (pass p tr self env' m')))
              = Log.count Log.is_generate (trace m')).
Proof.
  intros Hni Hit Hllm.
  assert (Hpass : exists m',
             pass p tr self env m = (Ok Continue, m')
             /\ errors (state m') = errors (state m) ++ [msg]
             /\ status (state m') = LLMFailed
             /\ final_result (state m') = final_result (state m)
             /\ messages (state m') = messages (state (begun p m))
             /\ Log.count Log.is_set_completed (trace m')
                = Log.count Log.is_set_completed (trace m)).
  { destruct (begun_frame p m) as (_ & Hfr & Herr & _).
    pose proof (count_begun Log.is_set_completed p m eq_refl eq_refl
                  (fun _ => eq_refl)) as Hsc.
    unfold pass. rewrite (pass_with_iterating _ _ _ _ _ _ Hit).
    revert Hfr Herr Hsc. generalize (begun p m). intros m1 Hfr Herr Hsc.
    unfold try_except, iteration_body, _process_iteration, on_exception,
      notify_details, notify, when, bind.
    destruct tr, details as [[|c d]|]; cbn.
    all: rewrite Hllm; cbn; rewrite Hni; cbn.
    all: eexists; split; [reflexivity|]; cbn.
    all: count_norm; cbn; rewrite ?Herr, ?Hfr, ?Hsc.
    all: repeat split; try reflexivity; try lia. }
  destruct Hpass as (m' & Hp & He & Hst & Hfr & Hm & Hsc).
  exists m'. repeat split; try assumption.
  - destruct (waiting_pass_consumes_nothing p tr self env' m') as (m2 & H2 & _).
    { right. unfold State.should_stop, State.llm_failed. rewrite Hst.
      split; reflexivity. }
    rewrite H2. reflexivity.
  - destruct (waiting_pass_consumes_nothing p tr self env' m')
      as (m2 & H2 & _ & _ & _ & _ & Hg & _).
    { right. unfold State.should_stop, State.llm_failed. rewrite Hst.
      split; reflexivity. }
    rewrite H2. exact Hg.
Qed.

Lemma backend_failure_interactive_waits_witness :
  exists m',
    pass Ex.policy None (Ex.agent false) Ex.rate_limited Ex.started
    = (Ok Continue, m')
    /\ errors (state m') = ["rate limited"]
    /\ status (state m') = LLMFailed.
Proof.
  destruct (backend_failure_interactive_waits Ex.policy None (Ex.agent false)
              Ex.rate_limited Ex.started "rate limited" None
              eq_refl eq_refl eq_refl)
    as (m' & Hp & He & Hst & _).
  exists m'. split; [exact Hp|]. split; [exact He | exact Hst].
Defined.

(** X8.  An exception of any class other than the five the loop names
    leaves the pass, and the loop, as it was raised, in both modes and
    under any recovery hook, and the machine is as the single-iteration
    step left it: the loop records nothing and makes no transition. *)
Theorem unclassified_exception_propagates p tr self hook env m c msg m2 :
  iterates (state m) = true ->
  _process_iteration p tr env (begun p m)
  = (Raised (Py.OtherException c msg), m2) ->
  pass_with p tr self hook env m = (Raised (Py.OtherException c msg), m2)
  /\ (forall rest,
         loop p tr self (env :: rest) m
         = (Raised (Py.OtherException c msg), m2)).
Proof.
  intros Hit Hstep.
  assert (H : forall hook',
             pass_with p tr self hook' env m
             = (Raised (Py.OtherException c msg), m2)).
  { intros hook'. rewrite (pass_with_raised _ _ _ _ _ _ _ _ Hit Hstep).
    reflexivity. }
  split; [apply H|].
  intros rest. rewrite loop_cons. unfold pass. rewrite H. reflexivity.
Qed.

Lemma unclassified_exception_propagates_witness :
  loop Ex.policy None (Ex.agent false) [Ex2.crashing_tool; Ex.blank]
    Ex.started
  = (Raised (Py.OtherException "KeyError" "'target'"),
     snd (_process_iteration Ex.policy None Ex2.crashing_tool
            (begun Ex.policy Ex.started))).
Proof.
  exact (proj2 (unclassified_exception_propagates Ex.policy None
                  (Ex.agent false)
                  (_handle_iteration_error Ex.policy None)
                  Ex2.crashing_tool Ex.started "KeyError" "'target'"
                  (snd (_process_iteration Ex.policy None Ex2.crashing_tool
                          (begun Ex.policy Ex.started)))
                  eq_refl eq_refl)
           [Ex.blank]).
Defined.

(** X9.  A response with content and no tool invocation, absent or empty,
    is an idle turn: in both modes the pass appends, after its budget
    warnings if any, the assistant turn and nothing else, dispatches
    nothing and continues the loop with the status, the result and the
    error log untouched. *)
Theorem idle_turn_records_the_turn p tr self env m r text :
  iterates (state m) = true ->
  llm_outcome env = Generated r ->
  resp_content r = Some text ->
  Py.truthy (Py.strip text) = true ->
  get (tool_invocations r) [] = [] ->
  exists m',
    (forall b,
        pass p tr (with_non_interactive b self) env m = (Ok Continue, m'))
    /\ messages (state m')
       = messages (state (begun p m)) ++ [mkMessage "assistant" text]
    /\ status (state m') = status (state m)
    /\ final_result (state m') = final_result (state m)
    /\ errors (state m') = errors (state m)
    /\ Log.count Log.is_dispatch (trace m')
       = Log.count Log.is_dispatch (trace m).
Proof.
  intros Hit Hllm Hc Ht Hb.
  destruct (begun_frame p m) as (Hst & Hfr & Herr & _).
  pose proof (count_begun Log.is_dispatch p m eq_refl eq_refl
                (fun _ => eq_refl)) as Hd.
  assert (Hstep : exists m',
             _process_iteration p tr env (begun p m) = (Ok false, m')
             /\ messages (state m')
                = messages (state (begun p m)) ++ [mkMessage "assistant" text]
             /\ status (state m') = status (state m)
             /\ final_result (state m') = final_result (state m)
             /\ errors (state m') = errors (state m)
             /\ Log.count Log.is_dispatch (trace m')
                = Log.count Log.is_dispatch (trace m)).
  { revert Hst Hfr Herr Hd. generalize (begun p m). intros m1 Hst Hfr Herr Hd.
    unfold _process_iteration, notify, bind. cbn.
    rewrite Hllm, Hc. cbn. rewrite Ht. cbn. rewrite Hb.
    destruct tr; cbn; (eexists; split; [reflexivity|]); cbn;
      count_norm; cbn; rewrite ?Hst, ?Hfr, ?Herr, ?Hd;
      repeat split; try reflexivity; lia. }
  destruct Hstep as (m' & Hp & H).
  exists m'. split; [|exact H].
  intros b. unfold pass. rewrite (pass_with_iterating _ _ _ _ _ _ Hit).
  unfold try_except, iteration_body. unfold bind at 1. rewrite Hp.
  reflexivity.
Qed.

Lemma idle_turn_records_the_turn_witness :
  exists m',
    (forall b,
        pass Ex.policy None (with_non_interactive b (Ex.agent true))
          Ex2.talking Ex.fresh_machine = (Ok Continue, m'))
    /\ messages (state m') = [mkMessage "assistant" "thinking"].
Proof.
  destruct (idle_turn_records_the_turn Ex.policy None (Ex.agent true)
              Ex2.talking Ex.fresh_machine
              (mkResponse (Some "thinking") None) "thinking"
              eq_refl eq_refl eq_refl eq_refl eq_refl)
    as (m' & Hp & Hm & _).
  exists m'. split; [exact Hp | exact Hm].
Defined.

(** X10.  When the tool batch returns without asking to finish, the stored
    history becomes exactly what the dispatcher made of the snapshot it
    was handed, which ends with the assistant turn of the pass; in both
    modes the loop continues with the status, the result and the error
    log untouched and no task handle held. *)
Theorem tool_results_replace_history p tr self env m r text batch :
  iterates (state m) = true ->
  llm_outcome env = Generated r ->
  resp_content r = Some text ->
  Py.truthy (Py.strip text) = true ->
  tool_invocations r = Some batch -> batch <> [] ->
  tool_outcome env = TaskReturns false ->
  exists m',
    (forall b,
        pass p tr (with_non_interactive b self) env m = (Ok Continue, m'))
    /\ messages (state m')
       = tool_history env
           (messages (state (begun p m)) ++ [mkMessage "assistant" text])
    /\ status (state m') = status (state m)
    /\ final_result (state m') = final_result (state m)
    /\ errors (state m') = errors (state m)
    /\ current_task m' = None.
Proof.
  intros Hit Hllm Hc Ht Hb Hne Htool.
  destruct (begun_frame p m) as (Hst & Hfr & Herr & _).
  assert (Hstep : exists m',
             _process_iteration p tr env (begun p m) = (Ok false, m')
             /\ messages (state m')
                = tool_history env
                    (messages (state (begun p m))
                       ++ [mkMessage "assistant" text])
             /\ status (state m') = status (state m)
             /\ final_result (state m') = final_result (state m)
             /\ errors (state m') = errors (state m)
             /\ current_task m' = None).
  { revert Hst Hfr Herr. generalize (begun p m). intros m1 Hst Hfr Herr.
    destruct batch as [|a0 rest]; [congruence|].
    unfold _process_iteration, _execute_actions, notify, try_except, bind.
    cbn. rewrite Hllm, Hc. cbn. rewrite Ht. cbn. rewrite Hb.
    destruct tr; cbn; rewrite for_each_add_action; cbn; rewrite Htool; cbn;
      (eexists; split; [reflexivity|]); cbn;
      rewrite ?Hst, ?Hfr, ?Herr; repeat split; reflexivity. }
  destruct Hstep as (m' & Hp & H).
  exists m'. split; [|exact H].
  intros b. unfold pass. rewrite (pass_with_iterating _ _ _ _ _ _ Hit).
  unfold try_except, iteration_body. unfold bind at 1. rewrite Hp.
  reflexivity.
Qed.

Lemma tool_results_replace_history_witness :
  exists m',
    (forall b,
        pass Ex.policy None (with_non_interactive b (Ex.agent true))
          Ex2.working Ex.fresh_machine = (Ok Continue, m'))
    /\ messages (state m')
       = [mkMessage "assistant" "searching"; Ex.tool_result].
Proof.
  destruct (tool_results_replace_history Ex.policy None (Ex.agent true)
              Ex2.working Ex.fresh_machine
              (mkResponse (Some "searching") (Some [Ex.finish_scan]))
              "searching" [Ex.finish_scan]
              eq_refl eq_refl eq_refl eq_refl eq_refl ltac:(discriminate)
              eq_refl)
    as (m' & Hp & Hm & _).
  exists m'. split; [exact Hp | exact Hm].
Defined.

(** ** Logs that only grow *)

Lemma append_only_refl m : append_only m m.
Proof. exists [], []. rewrite !app_nil_r. split; reflexivity. Qed.

Lemma append_only_trans a b c :
  append_only a b -> append_only b c -> append_only a c.
Proof.
  intros (e1 & a1 & H1 & G1) (e2 & a2 & H2 & G2).
  exists (e1 ++ e2), (a1 ++ a2).
  rewrite H2, H1, G2, G1, !app_assoc. split; reflexivity.
Qed.

Ltac append_only_leaf :=
  let x := fresh "m" in
  intros x; unfold append_only; cbn;
  try destruct (sandbox_info (state x)); cbn;
  first [ exists [], []; rewrite !app_nil_r; split; reflexivity
        | eexists [_], []; rewrite !app_nil_r; split; reflexivity
        | eexists [], [_]; rewrite !app_nil_r; split; reflexivity ].

(** X11.  Through bootstraps and passes, in any number and order and
    whatever the surroundings do, the error log and the action log only
    grow: what was recorded stays, in its place. *)
Theorem logs_are_append_only p tr self m0 m :
  reachable_from p tr self m0 m -> append_only m0 m.
Proof.
  intros Hr. induction Hr as [|m ienv t _ IH|m env _ IH].
  - apply append_only_refl.
  - eapply append_only_trans; [exact IH|].
    refine ((_ : steps append_only _) m).
    steps_walk append_only_refl append_only_trans. all: append_only_leaf.
  - eapply append_only_trans; [exact IH|].
    refine ((_ : steps append_only _) m).
    steps_walk append_only_refl append_only_trans. all: append_only_leaf.
Qed.

Lemma logs_are_append_only_witness :
  append_only Ex.started
    (snd (pass Ex.policy None (Ex.agent true) Ex.failing_tool Ex.started)).
Proof.
  apply (logs_are_append_only Ex.policy None (Ex.agent true)).
  apply reach_pass, reach_start.
Defined.

(** ** Construction and bootstrap *)

Lemma tracer_calls_raised raises calls log e log' :
  tracer_calls raises calls log = inl (e, log') ->
  exists c, raises c = Some e.
Proof.
  revert log. induction calls as [|c rest IH]; intros log H; cbn in H.
  - discriminate H.
  - destruct (raises c) as [e0|] eqn:Hc.
    + injection H as <- _. exists c. exact Hc.
    + exact (IH _ H).
Qed.

(** X12.  Construction raises [ValueError("llm_config is required but not
    provided")], before any collaborator is called, whenever
    [config.get("llm_config", default_llm_config)] is [None]: the key is
    absent and the class has no default, or the key holds [None], with or
    without a class default.  When construction returns, the controller
    carries the model configuration so found, the name of its class and
    as [max_iterations] the item of the config if the key is there and
    the class attribute otherwise; it holds no task handle; and without a
    state record in the config its state is the record [AgentState]
    returned for that name and that very budget.  An exception that
    leaves the constructor is that [ValueError] or was raised by
    [LLM(...)], by [AgentState(...)], by the tracer, or by
    [set_agent_identity] when it is not an [Exception]; an [Exception]
    raised by [set_agent_identity] is suppressed and changes nothing. *)
Theorem construction_of_a_fresh_agent cls tracer nenv config :
  (dict_get (cfg_llm_config config) (default_llm_config cls) = None ->
   __init__ cls tracer nenv config
   = inl (Py.ValueError "llm_config is required but not provided", []))
  /\ (cfg_llm_config config = HoldsNone ->
      __init__ cls tracer nenv config
      = inl (Py.ValueError "llm_config is required but not provided", []))
  /\ (forall a m,
         __init__ cls tracer nenv config = inr (a, m) ->
         dict_get (cfg_llm_config config) (default_llm_config cls)
         = Some (llm_config a)
         /\ self_agent_name a = cls_agent_name cls
         /\ self_max_iterations a = max_iterations_of cls config
         /\ current_task m = None
         /\ (dict_get (cfg_state config) None = None ->
             new_state nenv (cls_agent_name cls) (self_max_iterations a)
             = inl (state m)))
  /\ (forall e log,
         __init__ cls tracer nenv config = inl (e, log) ->
         (e = Py.ValueError "llm_config is required but not provided"
          /\ dict_get (cfg_llm_config config) (default_llm_config cls)
             = None)
         \/ new_llm nenv = Some e
         \/ new_state nenv (cls_agent_name cls) (max_iterations_of cls config)
            = inr e
         \/ (set_agent_identity nenv = Some e /\ e = Py.CancelledError)
         \/ (tracer <> None /\ exists c, tracer_raises nenv c = Some e))
  /\ (forall e,
         set_agent_identity nenv = Some e -> e <> Py.CancelledError ->
         __init__ cls tracer nenv config
         = __init__ cls tracer
             (mkNewEnv (new_llm nenv) (new_state nenv) None
                (tracer_raises nenv)) config).
Proof.
  split; [|split; [|split; [|split]]].
  - intros H. unfold __init__. rewrite H. reflexivity.
  - intros H. unfold __init__. rewrite H. reflexivity.
  - intros a m H. unfold __init__ in H. unfold max_iterations_of.
    destruct (dict_get (cfg_llm_config config) (default_llm_config cls))
      as [lc|]; [|discriminate H].
    destruct (new_llm nenv); [discriminate H|].
    destruct (dict_get (cfg_state config) None) as [st0|].
    + destruct (set_agent_identity nenv) as [[| | | | |]|], tracer as [t|];
        try discriminate H.
      all: try (injection H as <- <-; repeat split; try reflexivity;
                intros G; discriminate G).
      all: match type of H with
           | context [tracer_calls ?r ?l ?g] =>
               destruct (tracer_calls r l g) as [f|lg]; [discriminate H|]
           end;
           injection H as <- <-; repeat split; try reflexivity;
           intros G; discriminate G.
    + destruct (new_state nenv (cls_agent_name cls) _) as [st0|e0] eqn:Hn;
        [|discriminate H].
      destruct (set_agent_identity nenv) as [[| | | | |]|], tracer as [t|];
        try discriminate H.
      all: try (injection H as <- <-; repeat split; try reflexivity;
                intros _; exact Hn).
      all: match type of H with
           | context [tracer_calls ?r ?l ?g] =>
               destruct (tracer_calls r l g) as [f|lg]; [discriminate H|]
           end;
           injection H as <- <-; repeat split; try reflexivity;
           intros _; exact Hn.
  - intros e log H. unfold __init__ in H. unfold max_iterations_of.
    destruct (dict_get (cfg_llm_config config) (default_llm_config cls))
      as [lc|].
    2: { injection H as <- _. left. split; reflexivity. }
    destruct (new_llm nenv) as [e1|].
    1: { injection H as <- _. right. left. reflexivity. }
    assert (T : forall st0 : AgentState,
               match set_agent_identity nenv with
               | Some Py.CancelledError =>
                   inl (Py.CancelledError, [])
               | _ =>
                   match tracer with
                   | Some t =>
                       match
                         tracer_calls (tracer_raises nenv)
                           [ LogAgentCreation (agent_id st0) (agent_name st0)
                               (task st0);
                             RegisterAgent (agent_id st0);
                             LogToolExecutionStart (agent_id st0)
                               "scan_start_info"
                               (Py.or_empty (scan_config t));
                             UpdateToolExecution "completed" None ] []
                       with
                       | inl failure => inl failure
                       | inr lg =>
                           inr (mkAgent (cls_agent_name cls)
                                  (dict_get (cfg_local_sources config)
                                     (Some []))
                                  (get (dict_get (cfg_non_interactive config)
                                          (Some false)) false)
                                  (if has_key (cfg_max_iterations config)
                                   then item (cfg_max_iterations config)
                                   else Some (cls_max_iterations cls))
                                  (dict_get (cfg_llm_config_name config)
                                     (Some "default")) lc,
                                mkMachine st0 None lg)
                       end
                   | None =>
                       inr (mkAgent (cls_agent_name cls)
                              (dict_get (cfg_local_sources config) (Some []))
                              (get (dict_get (cfg_non_interactive config)
                                      (Some false)) false)
                              (if has_key (cfg_max_iterations config)
                               then item (cfg_max_iterations config)
                               else Some (cls_max_iterations cls))
                              (dict_get (cfg_llm_config_name config)
                                 (Some "default")) lc,
                            mkMachine st0 None [])
                   end
               end = inl (e, log) ->
               (set_agent_identity nenv = Some e /\ e = Py.CancelledError)
               \/ (tracer <> None
                   /\ exists c, tracer_raises nenv c = Some e)).
    { intros st0 G.
      destruct (set_agent_identity nenv) as [[| | | | |]|], tracer as [t|];
        try discriminate G.
      all: try (injection G as <- _; left; split; reflexivity).
      all: match type of G with
           | context [tracer_calls ?r ?l ?g] =>
               destruct (tracer_calls r l g) as [[e2 l2]|lg] eqn:Ht;
                 [|discriminate G]
           end;
           injection G as -> _; right; split; [discriminate|];
           exact (tracer_calls_raised _ _ _ _ _ Ht). }
    destruct (dict_get (cfg_state config) None) as [st0|].
    + right. right. right. exact (T st0 H).
    + destruct (new_state nenv (cls_agent_name cls) _) as [st0|e0] eqn:Hn.
      * right. right. right. exact (T st0 H).
      * injection H as <- _. right. right. left. reflexivity.
  - intros e He Hne. unfold __init__. cbn [new_llm new_state
      set_agent_identity tracer_raises]. rewrite He.
    destruct e; try reflexivity. exfalso. apply Hne. reflexivity.
Qed.

Lemma construction_of_a_fresh_agent_witness :
  (exists a m,
      __init__ BaseAgent_class None Ex.collaborators Ex2.plain_config
      = inr (a, m)
      /\ self_max_iterations a = Some 50
      /\ state m = State.fresh "agent-2" "" 50)
  /\ __init__ Ex2.defaulted_class None Ex.collaborators Ex2.none_config
     = inl (Py.ValueError "llm_config is required but not provided", [])
  /\ __init__ BaseAgent_class None Ex2.unnamed Ex2.plain_config
     = __init__ BaseAgent_class None Ex.collaborators Ex2.plain_config.
Proof.
  split; [|split].
  - eexists. eexists. split; [reflexivity|].
    destruct (proj1 (proj2 (proj2 (construction_of_a_fresh_agent
                BaseAgent_class None Ex.collaborators Ex2.plain_config)))
                _ _ eq_refl) as (_ & _ & H2 & _ & _).
    split; [exact H2 | reflexivity].
  - exact (proj1 (proj2 (construction_of_a_fresh_agent Ex2.defaulted_class
                           None Ex.collaborators Ex2.none_config)) eq_refl).
  - exact (proj2 (proj2 (proj2 (proj2 (construction_of_a_fresh_agent
             BaseAgent_class None Ex2.unnamed Ex2.plain_config))))
             (Py.RuntimeError "no identity") eq_refl ltac:(discriminate)).
Defined.

(** X13.  When the provisioner raises, [agent_loop] raises the same
    exception before any pass: the provisioner was called once, the state
    record is untouched (no handle, no task, no message) and the model
    backend is never called. *)
Theorem bootstrap_failure_aborts p tr self ienv new_task envs m e :
  provisions ienv (state m) = true ->
  create_sandbox ienv = inr e ->
  agent_loop p tr self ienv new_task envs m
  = (Raised e,
     mkMachine (state m) (current_task m)
       (trace m ++ [EvCreateSandbox (agent_id (state m))
                      (sandbox_token (state m)) (local_sources self)])).
Proof.
  intros Hprov Hc. unfold provisions in Hprov.
  unfold agent_loop, _initialize_sandbox_and_state, bind. cbn.
  rewrite Hprov, Hc. reflexivity.
Qed.

Lemma bootstrap_failure_aborts_witness :
  fst (agent_loop Ex.policy None (Ex.agent true) Ex2.no_sandbox
         "scan the target" [Ex.finishing] Ex.fresh_machine)
  = Raised (Py.RuntimeError "docker is not running").
Proof.
  rewrite (bootstrap_failure_aborts Ex.policy None (Ex.agent true)
             Ex2.no_sandbox "scan the target" [Ex.finishing] Ex.fresh_machine
             (Py.RuntimeError "docker is not running") eq_refl eq_refl).
  reflexivity.
Defined.

(** ** How the loop can end *)



(* ================================================================== *)
(** * The scan-completion tool *)

(** ** Stripping *)

Lemma lstrip_chars_nil_inv (l : list ascii) :
  Py.lstrip_chars l = [] -> forallb Py.isspace l = true.
Proof.
  induction l as [|c r IH]; cbn; [reflexivity|].
  destruct (Py.isspace c); [exact IH | discriminate].
Qed.

Lemma lstrip_chars_head (l : list ascii) c r :
  Py.lstrip_chars l = c :: r -> Py.isspace c = false.
Proof.
  induction l as [|d l IH]; cbn; [discriminate|].
  destruct (Py.isspace d) eqn:Hd; [exact IH|].
  intros H. injection H as <- _. exact Hd.
Qed.

Lemma lstrip_chars_idem (l : list ascii) :
  Py.lstrip_chars (Py.lstrip_chars l) = Py.lstrip_chars l.
Proof.
  destruct (Py.lstrip_chars l) as [|c r] eqn:H; [reflexivity|].
  cbn. rewrite (lstrip_chars_head _ _ _ H). reflexivity.
Qed.

(** What [lstrip_chars] drops is white space. *)
Lemma lstrip_chars_split (l : list ascii) :
  exists w, l = w ++ Py.lstrip_chars l /\ forallb Py.isspace w = true.
Proof.
  induction l as [|c r (w & Hw & Hs)]; cbn.
  - exists []. split; reflexivity.
  - destruct (Py.isspace c) eqn:Hc.
    + exists (c :: w). cbn. rewrite Hc, Hs. split; [f_equal; exact Hw|reflexivity].
    + exists []. split; reflexivity.
Qed.

Lemma forallb_isspace_rev (l : list ascii) :
  forallb Py.isspace (rev l) = forallb Py.isspace l.
Proof.
  induction l as [|c r IH]; cbn; [reflexivity|].
  rewrite forallb_app, IH. cbn. rewrite andb_true_r. apply andb_comm.
Qed.

(** Stripping on the right keeps a first character that is not white
    space. *)
Lemma rstrip_keeps_head c r :
  Py.isspace c = false ->
  exists r', rev (Py.lstrip_chars (rev (c :: r))) = c :: r'.
Proof.
  intros Hc.
  destruct (lstrip_chars_split (rev (c :: r))) as (w & Hw & Hs).
  assert (Hl : c :: r = rev (Py.lstrip_chars (rev (c :: r))) ++ rev w).
  { rewrite <- rev_app_distr, <- Hw, rev_involutive. reflexivity. }
  destruct (rev (Py.lstrip_chars (rev (c :: r)))) as [|c' r'] eqn:E.
  - cbn in Hl. rewrite <- forallb_isspace_rev in Hs. rewrite <- Hl in Hs.
    cbn in Hs. rewrite Hc in Hs. discriminate.
  - cbn in Hl. injection Hl as -> _. exists r'. reflexivity.
Qed.

Lemma strip_chars_idem (l : list ascii) :
  rev (Py.lstrip_chars
         (rev (Py.lstrip_chars
                 (rev (Py.lstrip_chars (rev (Py.lstrip_chars l)))))))
  = rev (Py.lstrip_chars (rev (Py.lstrip_chars l))).
Proof.
  assert (Hfix : Py.lstrip_chars
                   (rev (Py.lstrip_chars (rev (Py.lstrip_chars l))))
                 = rev (Py.lstrip_chars (rev (Py.lstrip_chars l)))).
  { destruct (Py.lstrip_chars l) as [|c r] eqn:H; [reflexivity|].
    destruct (rstrip_keeps_head c r (lstrip_chars_head _ _ _ H)) as (r' & E).
    rewrite E. cbn. rewrite (lstrip_chars_head _ _ _ H). reflexivity. }
  rewrite Hfix, rev_involutive, lstrip_chars_idem. reflexivity.
Qed.

Lemma strip_idem (s : string) : Py.strip (Py.strip s) = Py.strip s.
Proof.
  unfold Py.strip. rewrite list_ascii_of_string_of_list_ascii.
  f_equal. apply (strip_chars_idem (list_ascii_of_string s)).
Qed.

Lemma strip_blank_inv (s : string) :
  Py.strip s = "" -> Py.whitespace_only s = true.
Proof.
  unfold Py.strip, Py.whitespace_only. intros H.
  apply (f_equal list_ascii_of_string) in H.
  rewrite list_ascii_of_string_of_list_ascii in H. cbn in H.
  apply (f_equal (@rev ascii)) in H. rewrite rev_involutive in H. cbn in H.
  apply lstrip_chars_nil_inv in H. rewrite forallb_isspace_rev in H.
  destruct (Py.lstrip_chars (list_ascii_of_string s)) as [|c r] eqn:E.
  - apply lstrip_chars_nil_inv. exact E.
  - cbn in H. rewrite (lstrip_chars_head _ _ _ E) in H. discriminate.
Qed.

Lemma truthy_strip (s : string) :
  Py.truthy (Py.strip s) = negb (Py.whitespace_only s).
Proof.
  destruct (Py.whitespace_only s) eqn:Hw.
  - rewrite (strip_blank _ Hw). reflexivity.
  - destruct (Py.strip s) eqn:Hs; [|reflexivity].
    rewrite (strip_blank_inv _ Hs) in Hw. discriminate.
Qed.

Lemma truthy_of_strip (s : string) :
  Py.truthy (Py.strip s) = true -> Py.truthy s = true.
Proof.
  destruct s; [rewrite strip_empty; discriminate | reflexivity].
Qed.

Lemma validate_content_spec (content : string) :
  Finish._validate_content content
  = if Py.whitespace_only content
    then Some [("success", Tool.VBool false);
               ("message", Tool.VStr "Content cannot be empty")]
    else None.
Proof.
  unfold Finish._validate_content. rewrite truthy_strip.
  destruct (Py.whitespace_only content) eqn:Hw; cbn.
  - rewrite orb_true_r. reflexivity.
  - assert (Ht : Py.truthy content = true).
    { apply truthy_of_strip. rewrite truthy_strip, Hw. reflexivity. }
    rewrite Ht. reflexivity.
Qed.

(** ** [finish_scan] *)

(** X15.  [finish_scan] answers "Content cannot be empty" exactly for a
    content that is empty or white space only, and then leaves the tracer
    alone. *)
Theorem finish_scan_rejects_blank_content env content success :
  (Py.whitespace_only content = true
   <-> snd (Finish.finish_scan env content success)
       = inl [("success", Tool.VBool false);
              ("message", Tool.VStr "Content cannot be empty")])
  /\ (Py.whitespace_only content = true ->
      fst (Finish.finish_scan env content success) = []).
Proof.
  unfold Finish.finish_scan. rewrite validate_content_spec.
  destruct (Py.whitespace_only content); cbn.
  - split; [split; reflexivity | reflexivity].
  - split; [|discriminate]. split; [discriminate|].
    unfold Finish._finalize_with_tracer.
    destruct env as [[e|[[[e|] n]|]]]; cbn;
      try (destruct e as [| | | | |c x]; cbn;
           try destruct (String.eqb c "ImportError"); cbn;
           try destruct (String.eqb c "KeyError"); cbn);
      intros H; discriminate H.
Qed.

Lemma finish_scan_rejects_blank_content_witness :
  fst (Finish.finish_scan Ex3.tracer_ok "   " true) = [].
Proof.
  exact (proj2 (finish_scan_rejects_blank_content Ex3.tracer_ok "   " true)
           eq_refl).
Defined.



(** X17.  For a content that is not blank, what the tracer side raises
    decides the answer.  Nothing raised: the completion report.  An
    [ImportError]: the "not persisted" report, still a success.  A
    [ValueError], [TypeError] or [KeyError]: the failure dictionary whose
    message is "Failed to complete scan: " followed by the exception's
    text.  Any other exception leaves [finish_scan] as it was raised. *)
Theorem finish_scan_answers_by_exception env content success :
  Py.whitespace_only content = false ->
  match finish_raised env with
  | None =>
      exists d,
        snd (Finish.finish_scan env content success) = inl d
        /\ Tool.lookup "success" d = Some (Tool.VBool true)
        /\ Tool.lookup "scan_completed" d = Some (Tool.VBool true)
  | Some e =>
      if Tool.is_class "ImportError" e then
        exists d,
          Finish.finish_scan env content success = ([], inl d)
          /\ Tool.lookup "success" d = Some (Tool.VBool true)
          /\ Tool.lookup "warning" d
             = Some (Tool.VStr
                 "Final result could not be persisted - tracer module unavailable")
      else if Tool.is_value_type_key_error e then
        Finish.finish_scan env content success
        = ([], inl [("success", Tool.VBool false);
                    ("message",
                     Tool.VStr ("Failed to complete scan: " ++ Py.str e)%string)])
      else Finish.finish_scan env content success = ([], inr e)
  end.
Proof.
  intros Hw. unfold finish_raised, Finish.finish_scan.
  rewrite validate_content_spec, Hw.
  unfold Finish._finalize_with_tracer.
  destruct env as [[e|[[[e|] n]|]]]; cbn;
    try (destruct e as [| | | | |c x]; cbn;
         try destruct (String.eqb c "ImportError") eqn:Hi; cbn;
         try destruct (String.eqb c "KeyError") eqn:Hk; cbn;
         rewrite ?Hi, ?Hk; cbn);
    first [ reflexivity
          | eexists; split; [reflexivity|]; split; reflexivity ].
Qed.

Lemma finish_scan_answers_by_exception_witness :
  Finish.finish_scan Ex3.tracer_rejects Ex3.report true
  = ([], inl [("success", Tool.VBool false);
              ("message",
               Tool.VStr "Failed to complete scan: bad report")]).
Proof.
  exact (finish_scan_answers_by_exception Ex3.tracer_rejects Ex3.report true
           eq_refl).
Defined.

(** X18.  What [finish_scan] hands to the tracer is the content with the
    white space around it removed: it is stored once, it is not empty, it
    neither starts nor ends with white space (stripping it again changes
    nothing), and it goes with the caller's [success] flag.  A blank
    content is never stored. *)
Theorem finish_scan_stores_trimmed_content env content success c s :
  In (Finish.Stored c s) (fst (Finish.finish_scan env content success)) ->
  fst (Finish.finish_scan env content success) = [Finish.Stored c s]
  /\ c = Py.strip content
  /\ s = success
  /\ Py.strip c = c
  /\ Py.truthy c = true
  /\ Py.whitespace_only content = false.
Proof.
  unfold Finish.finish_scan. rewrite validate_content_spec.
  destruct (Py.whitespace_only content) eqn:Hw; cbn; [intros []|].
  assert (Ht : Py.truthy (Py.strip content) = true)
    by (rewrite truthy_strip, Hw; reflexivity).
  unfold Finish._finalize_with_tracer.
  destruct env as [[e|[[[e|] n]|]]]; cbn;
    try (destruct e as [| | | | |c0 x]; cbn;
         try destruct (String.eqb c0 "ImportError"); cbn;
         try destruct (String.eqb c0 "KeyError"); cbn);
    intros H; try contradiction;
    destruct H as [H|[]]; try discriminate H.
  injection H as <- <-.
  rewrite strip_idem, Ht. repeat split; reflexivity.
Qed.

Lemma finish_scan_stores_trimmed_content_witness :
  fst (Finish.finish_scan Ex3.tracer_ok Ex3.report true)
  = [Finish.Stored "All checks done." true].
Proof.
  exact (proj1 (finish_scan_stores_trimmed_content Ex3.tracer_ok Ex3.report
                  true "All checks done." true (or_introl eq_refl))).
Defined.

(* ================================================================== *)
(** * The web search tool *)

(** ** File names *)

Lemma length_take n s :
  String.length (Tool.take n s) = Nat.min n (String.length s).
Proof.
  revert s. induction n as [|n IH]; intros [|c r]; cbn; try reflexivity.
  rewrite IH. reflexivity.
Qed.

Lemma length_sub_non_alnum s :
  String.length (Tool.sub_non_alnum s) = String.length s.
Proof. induction s as [|c r IH]; cbn; [reflexivity | rewrite IH; reflexivity]. Qed.

Lemma take_take n s : Tool.take n (Tool.take n s) = Tool.take n s.
Proof.
  revert s. induction n as [|n IH]; intros [|c r]; cbn; try reflexivity.
  rewrite IH. reflexivity.
Qed.

Lemma sub_non_alnum_take n s :
  Tool.sub_non_alnum (Tool.take n s) = Tool.take n (Tool.sub_non_alnum s).
Proof.
  revert s. induction n as [|n IH]; intros [|c r]; cbn; try reflexivity.
  rewrite IH. reflexivity.
Qed.

Lemma sub_non_alnum_idem s :
  Tool.sub_non_alnum (Tool.sub_non_alnum s) = Tool.sub_non_alnum s.
Proof.
  induction s as [|c r IH]; cbn; [reflexivity|].
  rewrite IH. destruct (Tool.is_alnum c) eqn:Hc; [rewrite Hc|]; reflexivity.
Qed.

Lemma safe_chars_sub_non_alnum s : safe_chars (Tool.sub_non_alnum s) = true.
Proof.
  unfold safe_chars. induction s as [|c r IH]; cbn; [reflexivity|].
  rewrite IH. destruct (Tool.is_alnum c) eqn:Hc; [rewrite Hc|]; reflexivity.
Qed.

Lemma safe_chars_take n s : safe_chars s = true -> safe_chars (Tool.take n s) = true.
Proof.
  unfold safe_chars. revert s.
  induction n as [|n IH]; intros [|c r]; cbn; try reflexivity.
  intros H. apply andb_true_iff in H as [H1 H2]. rewrite H1. cbn. auto.
Qed.

Lemma sub_non_alnum_safe s :
  safe_chars s = true ->
  forallb Tool.is_alnum (list_ascii_of_string s) = true ->
  Tool.sub_non_alnum s = s.
Proof.
  intros _. induction s as [|c r IH]; cbn; [reflexivity|].
  intros H. apply andb_true_iff in H as [H1 H2]. rewrite H1, (IH H2).
  reflexivity.
Qed.

(** X19.  The name stem made from a query has the length of the query cut
    at 50, holds letters, digits and underscores only, whatever the query
    holds, and is a fixed point: making a stem from a stem changes
    nothing. *)
Theorem safe_query_is_a_safe_stem query :
  String.length (WebSearch.safe_query query)
  = Nat.min 50 (String.length query)
  /\ safe_chars (WebSearch.safe_query query) = true
  /\ WebSearch.safe_query (WebSearch.safe_query query)
     = WebSearch.safe_query query.
Proof.
  unfold WebSearch.safe_query. repeat split.
  - rewrite length_take, length_sub_non_alnum. reflexivity.
  - apply safe_chars_take, safe_chars_sub_non_alnum.
  - rewrite sub_non_alnum_take, sub_non_alnum_idem, take_take. reflexivity.
Qed.

(** ** Decimal numerals and appending *)

Lemma str_of_int_inj a b : Py.str_of_int a = Py.str_of_int b -> a = b.
Proof.
  unfold Py.str_of_int. intros H.
  apply DecimalZ.to_int_inj.
  assert (Hn : forall z, Z.to_int z <> Decimal.Pos Decimal.Nil
                         /\ Z.to_int z <> Decimal.Neg Decimal.Nil).
  { intros z. destruct z as [|q|q]; cbn; split; try discriminate.
    - intros E. injection E as E.
      pose proof (DecimalPos.Unsigned.to_uint_nonnil q). contradiction.
    - intros E. injection E as E.
      pose proof (DecimalPos.Unsigned.to_uint_nonnil q). contradiction. }
  pose proof (NilZero.isi (Z.to_int a) (proj1 (Hn a)) (proj2 (Hn a))) as Ha.
  pose proof (NilZero.isi (Z.to_int b) (proj1 (Hn b)) (proj2 (Hn b))) as Hb.
  rewrite H in Ha. rewrite Ha in Hb. injection Hb as Hb. exact Hb.
Qed.

Lemma length_append (a b : string) :
  String.length (a ++ b) = (String.length a + String.length b)%nat.
Proof. induction a as [|c a IH]; cbn; [reflexivity | rewrite IH; reflexivity]. Qed.

Lemma append_inj_l (s a b : string) : (s ++ a = s ++ b)%string -> a = b.
Proof.
  induction s as [|c s IH]; cbn; [auto|].
  intros H. injection H as H. auto.
Qed.

Lemma append_inj_r (s a b : string) : (a ++ s = b ++ s)%string -> a = b.
Proof.
  revert b. induction a as [|c a IH]; intros [|d b] H; cbn in H.
  - reflexivity.
  - apply (f_equal String.length) in H. cbn in H.
    rewrite length_append in H. lia.
  - apply (f_equal String.length) in H. cbn in H.
    rewrite length_append in H. lia.
  - injection H as -> H. f_equal. auto.
Qed.

Lemma filename_inj safe i j :
  WebSearch.filename safe i = WebSearch.filename safe j -> i = j.
Proof.
  unfold WebSearch.filename. intros H.
  apply append_inj_l, append_inj_l, append_inj_r, str_of_int_inj in H.
  lia.
Qed.

Lemma saved_from_names i safe data x :
  In x (WebSearch.saved_from i safe data) ->
  exists j, (i <= j)%nat /\ fst x = WebSearch.filename safe j.
Proof.
  revert i. induction data as [|item rest IH]; intros i; cbn; [intros []|].
  destruct (Py.truthy (get (WebSearch.item_markdown item) "")); cbn.
  - intros [<-|H].
    + exists i. split; [lia | reflexivity].
    + destruct (IH _ H) as (j & Hj & E). exists j. split; [lia | exact E].
  - intros H. destruct (IH _ H) as (j & Hj & E). exists j. split; [lia | exact E].
Qed.

Lemma saved_from_nodup i safe data :
  NoDup (map fst (WebSearch.saved_from i safe data)).
Proof.
  revert i. induction data as [|item rest IH]; intros i; cbn; [constructor|].
  destruct (Py.truthy (get (WebSearch.item_markdown item) "")); cbn;
    [|apply IH].
  constructor; [|apply IH].
  intros Hin. apply in_map_iff in Hin as (x & Hx & Hin).
  destruct (saved_from_names _ _ _ _ Hin) as (j & Hj & E).
  rewrite E in Hx. apply filename_inj in Hx. lia.
Qed.

Lemma saved_from_contents i safe data :
  map snd (WebSearch.saved_from i safe data)
  = map file_of (with_markdown data).
Proof.
  revert i. induction data as [|item rest IH]; intros i; cbn; [reflexivity|].
  destruct (Py.truthy (get (WebSearch.item_markdown item) "")); cbn;
    rewrite IH; reflexivity.
Qed.

Lemma saved_from_nth i safe data k item :
  nth_error data k = Some item ->
  Py.truthy (get (WebSearch.item_markdown item) "") = true ->
  In (WebSearch.filename safe (i + k), file_of item)
     (WebSearch.saved_from i safe data).
Proof.
  revert i k. induction data as [|x rest IH]; intros i [|k]; cbn;
    try discriminate.
  - intros H Ht. injection H as ->. rewrite Ht. cbn. left.
    rewrite Nat.add_0_r. reflexivity.
  - intros H Ht. specialize (IH (S i) k H Ht).
    replace (i + S k)%nat with (S i + k)%nat by lia.
    destruct (Py.truthy (get (WebSearch.item_markdown x) "")); cbn; auto.
Qed.

(** X20.  The files saved for a search have pairwise distinct names.
    There is one per result with a markdown that is not empty, in the
    order of the results and with the header and the markdown of its
    result, and the file of the result at position [k] is named after [k]
    even when earlier results were skipped. *)
Theorem saved_files_are_distinct query data :
  NoDup (map fst (WebSearch.saved_files query data))
  /\ map snd (WebSearch.saved_files query data)
     = map file_of (with_markdown data)
  /\ (forall k item,
         nth_error data k = Some item ->
         Py.truthy (get (WebSearch.item_markdown item) "") = true ->
         In (WebSearch.filename (WebSearch.safe_query query) k, file_of item)
            (WebSearch.saved_files query data)).
Proof.
  unfold WebSearch.saved_files. split; [|split].
  - apply saved_from_nodup.
  - apply saved_from_contents.
  - intros k item H Ht.
    exact (saved_from_nth 0 _ data k item H Ht).
Qed.

Lemma saved_files_are_distinct_witness :
  In ("what_is_CVE_2024_3094__2.md",
      file_of (Ex4.page "b"))
     (WebSearch.saved_files "what is CVE-2024-3094?" Ex4.results).
Proof.
  exact (proj2 (proj2 (saved_files_are_distinct "what is CVE-2024-3094?"
                         Ex4.results))
           2%nat (Ex4.page "b") eq_refl eq_refl).
Defined.

(** ** Retrying the request *)

Lemma request_spec query key h :
  WebSearch.request query key h
  = ([WebSearch.Post WebSearch.url ("Bearer " ++ key)%string query 5],
     answer h).
Proof. destruct h; reflexivity. Qed.

Lemma retrying_spec more n query key net :
  exists i,
    (i <= more)%nat
    /\ fst (WebSearch.retrying more n query key net)
       = repeat (WebSearch.Post WebSearch.url ("Bearer " ++ key)%string
                   query 5) (S i)
    /\ snd (WebSearch.retrying more n query key net) = answer (net (n + i)%nat)
    /\ (forall j, (j < i)%nat -> attempt_fails (net (n + j)%nat) = true)
    /\ (attempt_fails (net (n + i)%nat) = true -> i = more).
Proof.
  revert n. induction more as [|more IH]; intros n.
  - exists 0%nat. cbn [WebSearch.retrying]. rewrite request_spec, Nat.add_0_r.
    destruct (answer (net n)); cbn; repeat split; auto; try lia;
      try (intros j Hj; lia).
  - cbn [WebSearch.retrying]. rewrite request_spec.
    destruct (answer (net n)) as [d|e] eqn:Ha.
    + exists 0%nat. rewrite Nat.add_0_r. unfold attempt_fails. rewrite Ha.
      cbn. repeat split; try lia; try discriminate; try (intros j Hj; lia).
    + destruct (Tool.is_exception e) eqn:He.
      * destruct (IH (S n)) as (i & Hi & Hf & Hs & Hj & Hl).
        destruct (WebSearch.retrying more (S n) query key net) as [evs r].
        cbn [fst snd] in *. exists (S i).
        replace (n + S i)%nat with (S n + i)%nat by lia.
        split; [lia|]. split; [rewrite Hf; reflexivity|].
        split; [exact Hs|]. split.
        -- intros [|j] Hlt.
           ++ rewrite Nat.add_0_r. unfold attempt_fails. rewrite Ha. exact He.
           ++ replace (n + S j)%nat with (S n + j)%nat by lia.
              apply Hj. lia.
        -- intros H. f_equal. apply Hl. exact H.
      * exists 0%nat. rewrite Nat.add_0_r. unfold attempt_fails. rewrite Ha, He.
        cbn. repeat split; try lia; try discriminate; try (intros j Hj; lia).
Qed.

(** X21.  [_firecrawl_search] makes one, two or three requests, all the
    same: it stops at the first request that answers, or that raises
    something that is not an [Exception], and otherwise after the third;
    what it returns or raises is what the last request it made returned
    or raised, an error status being raised as a [RuntimeError]. *)
Theorem firecrawl_search_retries query key net :
  exists n,
    (n < 3)%nat
    /\ fst (WebSearch._firecrawl_search query key net)
       = repeat (WebSearch.Post WebSearch.url ("Bearer " ++ key)%string
                   query 5) (S n)
    /\ snd (WebSearch._firecrawl_search query key net) = answer (net n)
    /\ (forall j, (j < n)%nat -> attempt_fails (net j) = true)
    /\ (attempt_fails (net n) = true -> n = 2%nat)
    /\ (forall status_code text,
           net n = WebSearch.HttpStatusError status_code text ->
           snd (WebSearch._firecrawl_search query key net)
           = inr (Py.RuntimeError
                    ("Firecrawl API Error (" ++ Py.str_of_int status_code
                     ++ "): " ++ text)%string)).
Proof.
  unfold WebSearch._firecrawl_search.
  destruct (retrying_spec 2 0 query key net) as (i & Hi & Hf & Hs & Hj & Hl).
  exists i. cbn [Nat.add] in *. repeat split; try assumption; try lia.
  intros status_code text Hn. rewrite Hs, Hn. reflexivity.
Qed.

Lemma firecrawl_search_retries_witness :
  snd (WebSearch._firecrawl_search "xz backdoor" "fc-key" Ex4.flaky)
  = inl (WebSearch.mkSearchData true (Some Ex4.results))
  /\ fst (WebSearch._firecrawl_search "xz backdoor" "fc-key" Ex4.flaky)
     = repeat (WebSearch.Post WebSearch.url "Bearer fc-key" "xz backdoor" 5) 3.
Proof.
  destruct (firecrawl_search_retries "xz backdoor" "fc-key" Ex4.flaky)
    as (n & Hn & Hf & Hs & _ & Hl & _).
  destruct n as [|[|[|n]]]; try lia.
  - discriminate (Hl eq_refl).
  - discriminate (Hl eq_refl).
  - split; [exact Hs | exact Hf].
Defined.

(** ** [web_search] *)

(** X22.  [web_search] never raises an [Exception]: what leaves it is not
    an instance of [Exception].  Every dictionary it returns is either a
    failure, with ["success": False], a message and an empty ["results"]
    list, or the success, which carries the query and the content of the
    completion and no ["results"] key, and which is returned only when the
    search found results and the completion on them answered. *)
Theorem web_search_always_answers env query agent_state :
  (forall e,
      snd (WebSearch.web_search env query agent_state) = inr e ->
      Tool.is_exception e = false)
  /\ (forall d,
         snd (WebSearch.web_search env query agent_state) = inl d ->
         (Tool.lookup "success" d = Some (Tool.VBool false)
          /\ Tool.lookup "results" d = Some (Tool.VList [])
          /\ exists message, Tool.lookup "message" d = Some (Tool.VStr message))
         \/ (Tool.lookup "success" d = Some (Tool.VBool true)
             /\ Tool.lookup "query" d = Some (Tool.VStr query)
             /\ Tool.lookup "results" d = None
             /\ exists data content,
                 found env query = Some data
                 /\ WebSearch.completion env
                      (WebSearch.completion_kwargs env query data)
                    = inl content
                 /\ Tool.lookup "content" d
                    = Some (WebSearch.opt_str content))).
Proof.
  unfold WebSearch.web_search, found.
  destruct (Py.opt_truthy (WebSearch.FIRECRAWL_API_KEY env)); cbn [negb].
  2: { split; [intros e H; discriminate H|].
       intros d H. injection H as <-. left. cbn. eauto. }
  destruct (WebSearch._firecrawl_search query
              (get (WebSearch.FIRECRAWL_API_KEY env) "")
              (WebSearch.network env)) as [evs [sd|e0]]; cbn [snd].
  2: { destruct (Tool.is_exception e0) eqn:He; cbn.
       - split; [intros e H; discriminate H|].
         intros d H. injection H as <-. left. cbn. eauto.
       - split; [intros e H; injection H as <-; exact He|].
         intros d H. discriminate H. }
  destruct sd as [[|] [[|x l]|]]; cbn.
  2: { destruct (WebSearch.completion env
                   (WebSearch.completion_kwargs env query (x :: l)))
         as [content|e1] eqn:Hc; [|destruct (Tool.is_exception e1) eqn:He];
         cbn.
       - split; [intros e H; discriminate H|].
         intros d H. injection H as <-. right. cbn.
         repeat split. exists (x :: l), content. repeat split. exact Hc.
       - split; [intros e H; discriminate H|].
         intros d H. injection H as <-. left. cbn. eauto.
       - split; [intros e H; injection H as <-; exact He|].
         intros d H. discriminate H. }
  all: split; [intros e H; discriminate H|];
    intros d H; injection H as <-; left; cbn; eauto.
Qed.



Lemma web_search_always_answers_witness :
  exists data content,
    found Ex4.env "xz backdoor" = Some data
    /\ WebSearch.completion Ex4.env
         (WebSearch.completion_kwargs Ex4.env "xz backdoor" data)
       = inl content.
Proof.
  destruct (proj2 (web_search_always_answers Ex4.env "xz backdoor" None)
              _ eq_refl)
    as [(H & _)|(_ & _ & _ & data & content & Hf & Hc & _)].
  - discriminate H.
  - exists data, content. split; [exact Hf | exact Hc].
Defined.

(** ** The context handed to the completion *)

Lemma take_all n s : (String.length s <= n)%nat -> Tool.take n s = s.
Proof.
  revert s. induction n as [|n IH]; intros [|c r]; cbn; try reflexivity.
  - lia.
  - intros H. rewrite IH; [reflexivity | lia].
Qed.

(** X24.  The part of the context made from one result holds at most
    15000 characters of its markdown, so it is never longer than the
    title and the URL plus 15026 characters; a markdown of at most 15000
    characters is in it whole. *)
Theorem context_part_is_bounded item :
  (Z.of_nat (String.length (WebSearch.context_part item))
   <= Z.of_nat (String.length (get (WebSearch.item_title item) "No Title"))
      + Z.of_nat (String.length (get (WebSearch.item_url item) "No URL"))
      + 15026)
  /\ (Z.of_nat (String.length (get (WebSearch.item_markdown item) ""))
      <= 15000 ->
      WebSearch.context_part item
      = ("Source: " ++ get (WebSearch.item_title item) "No Title" ++ " ("
         ++ get (WebSearch.item_url item) "No URL" ++ ")" ++ Tool.nl
         ++ Tool.nl ++ "Content:" ++ Tool.nl
         ++ get (WebSearch.item_markdown item) "" ++ Tool.nl ++ "---")%string).
Proof.
  unfold WebSearch.context_part. cbv zeta. split.
  - rewrite !length_append, length_take.
    change (String.length "Source: ") with 8%nat.
    change (String.length " (") with 2%nat.
    change (String.length ")") with 1%nat.
    change (String.length Tool.nl) with 1%nat.
    change (String.length "Content:") with 8%nat.
    change (String.length "---") with 3%nat.
    lia.
  - intros H. rewrite take_all; [reflexivity | lia].
Qed.

Lemma context_part_is_bounded_witness :
  WebSearch.context_part (Ex4.page "a")
  = ("Source: a (https://example.org/a)" ++ Tool.nl ++ Tool.nl ++ "Content:"
     ++ Tool.nl ++ "# a" ++ Tool.nl ++ "---")%string.
Proof.
  rewrite (proj2 (context_part_is_bounded (Ex4.page "a"))).
  - reflexivity.
  - cbn. lia.
Defined.
